(** * Verification of [convert_scion_topology.py]

    A shallow embedding of the address and port rewriting performed by the
    SCION-to-Kathara conversion script, and the properties of it that the
    design document relies on.

    Conventions of the embedding

    - Python [int] is [Z]; Python [str] is [string] (single-byte characters,
      so the class [\d] of the regular expressions is the ASCII digits).
      The interpreter's limit on the number of digits that [int()] and
      [str()] convert is not modelled.
    - A document read by [json.load] or [toml.load] is a [json] tree; numbers
      are integers.  A Python [dict] is an association list kept in insertion
      order; assigning to an existing key keeps the key's position, as in
      Python.  The functions below take the loaded document and return the
      document that is written back.
    - An operation that raises in Python returns [Raise e]; no exception is
      ever caught by the script, so a raise aborts the run.
    - The loaded document is a tree (no object is reachable along two paths),
      so the in-place updates of the script are modelled by rebuilding the
      enclosing objects at the same position.
    - The shared [PortAllocator] object is threaded through explicitly. *)

From Stdlib Require Import ZArith Ascii String List.
From stdpp Require Import base tactics option list sorting gmap strings pretty.

Local Open Scope Z_scope.
Local Open Scope string_scope.
Local Open Scope list_scope.

(** * The program *)

(** ** Exceptions and the error monad *)

Inductive exn : Type :=
| TypeError
| KeyError
| IndexError
| AttributeError.

Inductive result (A : Type) : Type :=
| Ok (a : A)
| Raise (e : exn).

Arguments Ok {A} a.
Arguments Raise {A} e.

Definition bind {A B : Type} (m : result A) (k : A → result B) : result B :=
  match m with
  | Ok a => k a
  | Raise e => Raise e
  end.

Notation "'let*' x ':=' m 'in' k" := (bind m (λ x, k))
  (at level 10, x binder, m at level 100, k at level 200, only parsing).

(** ** Documents *)

#[warnings="-register-all"]
Inductive json : Type :=
| JNull
| JBool (b : bool)
| JNum (z : Z)
| JStr (s : string)
| JArr (xs : list json)
| JObj (kvs : list (string * json)).

(** A Python [dict] with string keys, in insertion order. *)
Abbreviation dict := (list (string * json)).

Fixpoint dict_get {V : Type} (k : string) (d : list (string * V)) : option V :=
  match d with
  | [] => None
  | (k', v) :: d' => if String.eqb k k' then Some v else dict_get k d'
  end.

Definition dict_has {V : Type} (k : string) (d : list (string * V)) : bool :=
  match dict_get k d with Some _ => true | None => false end.

(** [d[k] = v]: an existing key keeps its place, a new key goes last. *)
Fixpoint dict_set {V : Type} (k : string) (v : V) (d : list (string * V))
  : list (string * V) :=
  match d with
  | [] => [(k, v)]
  | (k', v') :: d' =>
      if String.eqb k k' then (k', v) :: d' else (k', v') :: dict_set k v d'
  end.

(** [del d[k]] *)
Fixpoint dict_del {V : Type} (k : string) (d : list (string * V))
  : list (string * V) :=
  match d with
  | [] => []
  | (k', v') :: d' =>
      if String.eqb k k' then dict_del k d' else (k', v') :: dict_del k d'
  end.

Definition dict_keys {V : Type} (d : list (string * V)) : list string := d.*1.

(** ** String operations *)

(** [needle in hay] on two strings. *)
Fixpoint str_contains (needle hay : string) : bool :=
  String.prefix needle hay ||
  match hay with
  | EmptyString => false
  | String _ hay' => str_contains needle hay'
  end.

(** [s.split(sep)] for a one-character separator. *)
Fixpoint split_on (sep : ascii) (s : string) : list string :=
  match s with
  | EmptyString => [EmptyString]
  | String c s' =>
      if Ascii.eqb c sep then EmptyString :: split_on sep s'
      else match split_on sep s' with
           | hd :: tl => String c hd :: tl
           | [] => [String c EmptyString]
           end
  end.

Definition is_digit (c : ascii) : bool :=
  let n := N_of_ascii c in ((48 <=? n) && (n <=? 57))%N.

(** The longest run of digits at the front of [s], and what follows it. *)
Fixpoint span_digits (s : string) : string * string :=
  match s with
  | EmptyString => (EmptyString, EmptyString)
  | String c s' =>
      if is_digit c
      then let '(ds, rest) := span_digits s' in (String c ds, rest)
      else (EmptyString, s)
  end.

(** The anchor [$] of Python's [re]: the end of the string, or just before a
    line feed that is the last character. *)
Definition at_dollar (s : string) : bool :=
  match s with
  | EmptyString => true
  | String c EmptyString => Ascii.eqb c "010"%char
  | _ => false
  end.

(** [(\d+)$] tried at the front of [s].  [\d+] is greedy; giving back digits
    never helps, as [$] cannot hold in front of a digit. *)
Definition match_digits_dollar (s : string) : option string :=
  let '(ds, rest) := span_digits s in
  if negb (String.eqb ds EmptyString) && at_dollar rest then Some ds else None.

(** [re.search(sep + r'(\d+)$', s)]: group 1 of the leftmost match. *)
Fixpoint re_search_digits (sep : ascii) (s : string) : option string :=
  match s with
  | EmptyString => None
  | String c s' =>
      if Ascii.eqb c sep then
        match match_digits_dollar s' with
        | Some ds => Some ds
        | None => re_search_digits sep s'
        end
      else re_search_digits sep s'
  end.

Definition digit_value (c : ascii) : Z := Z.of_N (N_of_ascii c) - 48.

(** [int(s)] on a string of digits. *)
Definition int_of_digits (s : string) : Z :=
  fold_left (λ acc c, 10 * acc + digit_value c) (list_ascii_of_string s) 0.

(** ** Dynamically typed operations on documents *)

(** [k in v] *)
Definition py_in (k : string) (v : json) : result bool :=
  match v with
  | JObj d => Ok (dict_has k d)
  | JStr s => Ok (str_contains k s)
  | JArr xs =>
      Ok (existsb (λ x, match x with JStr s => String.eqb s k | _ => false end) xs)
  | _ => Raise TypeError
  end.

(** [v[k]] with a string [k] *)
Definition py_getitem (v : json) (k : string) : result json :=
  match v with
  | JObj d => match dict_get k d with Some x => Ok x | None => Raise KeyError end
  | _ => Raise TypeError
  end.

(** [v[k] = x] with a string [k] *)
Definition py_setitem (v : json) (k : string) (x : json) : result json :=
  match v with
  | JObj d => Ok (JObj (dict_set k x d))
  | _ => Raise TypeError
  end.

(** [del v[k]] with a string [k] *)
Definition py_delitem (v : json) (k : string) : result json :=
  match v with
  | JObj d => if dict_has k d then Ok (JObj (dict_del k d)) else Raise KeyError
  | _ => Raise TypeError
  end.

(** [v.items()] *)
Definition py_items (v : json) : result dict :=
  match v with
  | JObj d => Ok d
  | _ => Raise AttributeError
  end.

(** [v.split(':')[1]] *)
Definition py_split_colon_1 (v : json) : result string :=
  match v with
  | JStr s =>
      match split_on ":"%char s !! 1%nat with
      | Some p => Ok p
      | None => Raise IndexError
      end
  | _ => Raise AttributeError
  end.

(** ** [extract_as_number], [extract_node_from_isd_as], [node_to_ip] *)

(** Lines 31-35. *)
Definition extract_as_number (as_name : string) : option Z :=
  match re_search_digits "_"%char as_name with
  | Some ds => Some (int_of_digits ds)
  | None => None
  end.

(** Lines 161-173.  [re.search] raises on an argument that is not a string. *)
Definition extract_node_from_isd_as (isd_as : json) : result (option Z) :=
  match isd_as with
  | JStr s =>
      match re_search_digits ":"%char s with
      | Some ds => Ok (Some (int_of_digits ds))
      | None => Ok None
      end
  | _ => Raise TypeError
  end.

(** Lines 176-181. *)
Definition node_to_ip (node_number : Z) : Z := node_number.

(** [f'10.0.0.{ip}:{port}'] with [port] already a string. *)
Definition addr_fmt (ip : Z) (port : string) : string :=
  "10.0.0." +:+ pretty ip +:+ ":" +:+ port.

(** ** [PortAllocator] *)

(** Lines 184-193: the fields of the object. *)
Record PortAllocator : Type := mkPortAllocator {
  base_port : Z;
  next_port : Z;
  port_assignments : gmap (Z * Z * Z) Z
}.

(** [PortAllocator(base_port=base)] *)
Definition PortAllocator_init (base : Z) : PortAllocator :=
  {| base_port := base; next_port := base; port_assignments := ∅ |}.

(** Lines 208-210: the canonical key. *)
Definition link_key (node_a node_b link_index : Z) : Z * Z * Z :=
  (Z.min node_a node_b, Z.max node_a node_b, link_index).

(** Lines 195-221; the result is the port and the object after the call. *)
Definition get_port (self : PortAllocator) (node_a node_b link_index : Z)
  : Z * PortAllocator :=
  let key := link_key node_a node_b link_index in
  match port_assignments self !! key with
  | Some port => (port, self)
  | None =>
      let port := next_port self in
      (port, {| base_port := base_port self;
                next_port := port + 1;
                port_assignments := <[key := port]> (port_assignments self) |})
  end.

(** ** [build_as_to_node_mapping] *)

(** What [source_base.iterdir()] yields, in the order the file system gives. *)
Record dir_entry : Type := mkEntry {
  entry_name : string;
  entry_is_dir : bool
}.

(** The order of Python on the tuples [(as_num, as_name)]. *)
Definition tuple_le (p q : Z * string) : Prop :=
  p.1 < q.1 ∨ (p.1 = q.1 ∧ String.le p.2 q.2).

Global Instance tuple_le_dec : RelDecision tuple_le.
Proof. intros p q. unfold tuple_le. apply _. Defined.

(** Lines 38-58.  [list.sort()] is stable and [tuple_le] is a total order,
    so the sorted list is the one ascending arrangement of the elements; it
    is computed here by a merge sort. *)
Definition build_as_to_node_mapping (entries : list dir_entry)
  : list (string * string) :=
  let as_dirs :=
    List.filter (λ d, entry_is_dir d && String.prefix "AS" (entry_name d))
                entries in
  let as_dirs_with_numbers :=
    omap (λ d, match extract_as_number (entry_name d) with
               | Some as_num => Some (as_num, entry_name d)
               | None => None
               end) as_dirs in
  let sorted := merge_sort tuple_le as_dirs_with_numbers in
  fold_left (λ as_to_node '(as_num, as_name),
               dict_set as_name ("as_" +:+ pretty as_num) as_to_node)
            sorted [].

(** ** The service configuration files *)

(** [config[sect][key] = x] *)
Definition set_in_section (config : dict) (sect key : string) (x : json)
  : result dict :=
  let* tbl := py_getitem (JObj config) sect in
  let* tbl' := py_setitem tbl key x in
  Ok (dict_set sect tbl' config).

(** [if sect in config: config[sect][key] = x] *)
Definition set_if_section (config : dict) (sect key : string) (x : json)
  : result dict :=
  if dict_has sect config then set_in_section config sect key x else Ok config.

(** [if sect in config: del config[sect]] *)
Definition remove_section (sect : string) (config : dict) : dict :=
  if dict_has sect config then dict_del sect config else config.

(** Lines 61-81; [config] is what [toml.load] returned, the result is what
    [toml.dump] writes. *)
Definition update_br_toml (config : dict) (node_number : Z) : result dict :=
  let config := remove_section "metrics" config in
  let* config :=
    if dict_has "general" config then
      let* config := set_in_section config "general" "config_dir" (JStr "/etc/scion/") in
      set_in_section config "general" "id" (JStr "br")
    else Ok config in
  if dict_has "api" config then
    let ip := node_to_ip node_number in
    set_in_section config "api" "addr" (JStr (addr_fmt ip "31442"))
  else Ok config.

(** Lines 84-114. *)
Definition update_cs_toml (config : dict) (node_number : Z) : result dict :=
  let config := remove_section "metrics" config in
  let config := remove_section "tracing" config in
  let* config := set_if_section config "general" "config_dir" (JStr "/etc/scion/") in
  let* config := set_if_section config "trust_db" "connection" (JStr "/etc/scion/trust.db") in
  let* config := set_if_section config "beacon_db" "connection" (JStr "/etc/scion/beacon.db") in
  let* config := set_if_section config "path_db" "connection" (JStr "/etc/scion/path.db") in
  if dict_has "api" config then
    let ip := node_to_ip node_number in
    set_in_section config "api" "addr" (JStr (addr_fmt ip "31152"))
  else Ok config.

(** Lines 117-158. *)
Definition update_sd_toml (config : dict) (node_number : Z) : result dict :=
  let config := remove_section "metrics" config in
  let config := remove_section "tracing" config in
  let* config := set_if_section config "general" "config_dir" (JStr "/etc/scion/") in
  let* config := set_if_section config "trust_db" "connection" (JStr "/etc/scion/trust.db") in
  let* config := set_if_section config "path_db" "connection" (JStr "/etc/scion/path.db") in
  let* config :=
    if dict_has "sd" config then
      let ip := node_to_ip node_number in
      set_in_section config "sd" "address" (JStr (addr_fmt ip "30255"))
    else Ok config in
  if dict_has "api" config then
    let ip := node_to_ip node_number in
    set_in_section config "api" "addr" (JStr (addr_fmt ip "30955"))
  else Ok config.

(** ** [update_topology_json] *)

(** Lines 241-245 and 250-254, the body of the two service loops: rewrite
    [service_data['addr']]. *)
Definition rewrite_service_addr (node_number : Z) (service_data : json)
  : result json :=
  let* has_addr := py_in "addr" service_data in
  if has_addr : bool then
    let* addr := py_getitem service_data "addr" in
    let* port := py_split_colon_1 addr in
    let ip := node_to_ip node_number in
    py_setitem service_data "addr" (JStr (addr_fmt ip port))
  else Ok service_data.

(** [for key, value in d.items(): body(value)], the body updating [value]
    in place. *)
Fixpoint for_items (body : json → result json) (d : dict) : result dict :=
  match d with
  | [] => Ok []
  | (k, v) :: d' =>
      let* v' := body v in
      let* d'' := for_items body d' in
      Ok ((k, v') :: d'')
  end.

(** Lines 239-254:
    [if table in topology: for ... in topology[table].items(): ...] *)
Definition update_services (table : string) (node_number : Z) (topology : json)
  : result json :=
  let* has_table := py_in table topology in
  if has_table : bool then
    let* services := py_getitem topology table in
    let* items := py_items services in
    let* items' := for_items (rewrite_service_addr node_number) items in
    py_setitem topology table (JObj items')
  else Ok topology.

(** Lines 276-278: [all_interfaces[interface_id] = interface_data] for the
    items of one interface table. *)
Definition add_interfaces (all_interfaces ifs : dict) : dict :=
  fold_left (λ acc '(interface_id, interface_data),
               dict_set interface_id interface_data acc)
            ifs all_interfaces.

(** Lines 267-278, one round of the first loop over the border routers; the
    state is [(consolidated_internal_addr, all_interfaces)]. *)
Definition collect_border_router (node_number : Z) (st : json * dict)
    (br_data : json) : result (json * dict) :=
  let '(consolidated_internal_addr, all_interfaces) := st in
  let* has_internal := py_in "internal_addr" br_data in
  let* consolidated_internal_addr :=
    if has_internal : bool then
      let* addr := py_getitem br_data "internal_addr" in
      let* port := py_split_colon_1 addr in
      let ip := node_to_ip node_number in
      Ok (JStr (addr_fmt ip port))
    else Ok consolidated_internal_addr in
  let* has_interfaces := py_in "interfaces" br_data in
  let* all_interfaces :=
    if has_interfaces : bool then
      let* ifs := py_getitem br_data "interfaces" in
      let* items := py_items ifs in
      Ok (add_interfaces all_interfaces items)
    else Ok all_interfaces in
  Ok (consolidated_internal_addr, all_interfaces).

Fixpoint collect_border_routers (node_number : Z) (brs : dict)
    (st : json * dict) : result (json * dict) :=
  match brs with
  | [] => Ok st
  | (_, br_data) :: brs' =>
      let* st' := collect_border_router node_number st br_data in
      collect_border_routers node_number brs' st'
  end.

(** The state of the second loop: [link_counters] and the allocator. *)
Abbreviation link_state := (gmap (Z * Z) Z * PortAllocator)%type.

(** Line 293. *)
Definition node_pair (node_number remote_node : Z) : Z * Z :=
  (Z.min node_number remote_node, Z.max node_number remote_node).

(** Lines 282-312, one round of the second loop, over the collected
    interfaces. *)
Definition rewrite_interface (node_number : Z) (interface_data : json)
    (st : link_state) : result (json * link_state) :=
  let '(link_counters, port_allocator) := st in
  let* has_underlay := py_in "underlay" interface_data in
  if has_underlay : bool then
    let* underlay := py_getitem interface_data "underlay" in
    let* has_isd_as := py_in "isd_as" interface_data in
    let* remote_node :=
      if has_isd_as : bool then
        let* remote_isd_as := py_getitem interface_data "isd_as" in
        extract_node_from_isd_as remote_isd_as
      else Ok None in
    match remote_node with
    | Some remote_node =>
        let pair := node_pair node_number remote_node in
        let link_index := default 0 (link_counters !! pair) in
        let link_counters := <[pair := link_index + 1]> link_counters in
        let '(connection_port, port_allocator) :=
          get_port port_allocator node_number remote_node link_index in
        let* has_local := py_in "local" underlay in
        let* underlay :=
          if has_local : bool then
            let ip := node_to_ip node_number in
            py_setitem underlay "local"
              (JStr (addr_fmt ip (pretty connection_port)))
          else Ok underlay in
        let* has_remote := py_in "remote" underlay in
        let* underlay :=
          if has_remote : bool then
            let remote_ip := node_to_ip remote_node in
            py_setitem underlay "remote"
              (JStr (addr_fmt remote_ip (pretty connection_port)))
          else Ok underlay in
        let* interface_data := py_setitem interface_data "underlay" underlay in
        Ok (interface_data, (link_counters, port_allocator))
    | None => Ok (interface_data, st)
    end
  else Ok (interface_data, st).

Fixpoint rewrite_interfaces (node_number : Z) (ifs : dict) (st : link_state)
  : result (dict * link_state) :=
  match ifs with
  | [] => Ok ([], st)
  | (interface_id, interface_data) :: ifs' =>
      let* '(interface_data', st') :=
        rewrite_interface node_number interface_data st in
      let* '(ifs'', st'') := rewrite_interfaces node_number ifs' st' in
      Ok ((interface_id, interface_data') :: ifs'', st'')
  end.

(** Lines 315-320: the single border router that replaces the original
    ones. *)
Definition consolidated (internal_addr : json) (all_interfaces : dict) : json :=
  JObj [("br", JObj [("internal_addr", internal_addr);
                     ("interfaces", JObj all_interfaces)])].

(** Lines 235-236:
    [if 'test_dispatcher' in topology: del(topology['test_dispatcher'])] *)
Definition remove_marker (topology : json) : result json :=
  let* has_marker := py_in "test_dispatcher" topology in
  if has_marker : bool then py_delitem topology "test_dispatcher"
  else Ok topology.

(** Lines 257-320, the block [if 'border_routers' in topology: ...]. *)
Definition consolidate_border_routers (topology : json) (node_number : Z)
    (port_allocator : PortAllocator) : result (json * PortAllocator) :=
  let* has_brs := py_in "border_routers" topology in
  if has_brs : bool then
    let* brs := py_getitem topology "border_routers" in
    let* br_items := py_items brs in
    let* '(consolidated_internal_addr, all_interfaces) :=
      collect_border_routers node_number br_items (JNull, []) in
    let* '(all_interfaces, (_, port_allocator)) :=
      rewrite_interfaces node_number all_interfaces (∅, port_allocator) in
    let* topology :=
      py_setitem topology "border_routers"
        (consolidated consolidated_internal_addr all_interfaces) in
    Ok (topology, port_allocator)
  else Ok (topology, port_allocator).

(** Lines 224-325.  [topology] is the loaded document; the result is the
    document that is written back, with the allocator as the call leaves
    it. *)
Definition update_topology_json (topology : json) (node_number : Z)
    (port_allocator : PortAllocator) : result (json * PortAllocator) :=
  let* topology := remove_marker topology in
  let* topology := update_services "control_service" node_number topology in
  let* topology := update_services "discovery_service" node_number topology in
  consolidate_border_routers topology node_number port_allocator.

(** * The vocabulary of the properties *)

(** The states of the allocator that a run can reach from [PortAllocator(base)]. *)
Inductive pa_reachable (base : Z) : PortAllocator → Prop :=
| reach_init : pa_reachable base (PortAllocator_init base)
| reach_get_port pa a b i :
    pa_reachable base pa → pa_reachable base (get_port pa a b i).2.

(** What every reachable state satisfies. *)
Record pa_inv (pa : PortAllocator) : Prop := mkPaInv {
  inv_count : next_port pa = base_port pa + Z.of_nat (size (port_assignments pa));
  inv_range : ∀ k p, port_assignments pa !! k = Some p →
                base_port pa ≤ p < next_port pa;
  inv_inj : ∀ k1 k2 p, port_assignments pa !! k1 = Some p →
              port_assignments pa !! k2 = Some p → k1 = k2
}.

(** The peer of an interface that takes part in the numbering of links: the
    interface declares an underlay and its [isd_as] is a string that yields
    a NodeId. *)
Definition link_peer (interface_data : json) : option Z :=
  match interface_data with
  | JObj d =>
      if dict_has "underlay" d then
        match dict_get "isd_as" d with
        | Some (JStr s) => int_of_digits <$> re_search_digits ":"%char s
        | _ => None
        end
      else None
  | _ => None
  end.

(** [d[k] = v] if [k] is a key of [d]. *)
Definition set_if_has (k : string) (v : json) (d : dict) : dict :=
  if dict_has k d then dict_set k v d else d.

(** The underlay of an interface towards [peer] once it was given [port]. *)
Definition new_underlay (node peer port : Z) (underlay : json) : json :=
  match underlay with
  | JObj u =>
      JObj (set_if_has "remote" (JStr (addr_fmt peer (pretty port)))
             (set_if_has "local" (JStr (addr_fmt node (pretty port))) u))
  | _ => underlay
  end.

(** The interface once its link was given [port]. *)
Definition with_port (node peer port : Z) (interface_data : json) : json :=
  match interface_data with
  | JObj d =>
      match dict_get "underlay" d with
      | Some u => JObj (dict_set "underlay" (new_underlay node peer port u) d)
      | None => interface_data
      end
  | _ => interface_data
  end.

(** The link ordinal the loop is about to hand out for [pair]. *)
Definition next_index (link_counters : gmap (Z * Z) Z) (pair : Z * Z) : Z :=
  default 0 (link_counters !! pair).

(** The number of interfaces of [ifs] that take part in the numbering of
    links for [pair]. *)
Fixpoint count_links (node : Z) (pair : Z * Z) (ifs : dict) : nat :=
  match ifs with
  | [] => 0
  | (_, data) :: ifs' =>
      match link_peer data with
      | Some r =>
          if decide (node_pair node r = pair)
          then S (count_links node pair ifs')
          else count_links node pair ifs'
      | None => count_links node pair ifs'
      end
  end.

(** The allocator only changes through [get_port]. *)
Definition pa_step (pa pa' : PortAllocator) : Prop :=
  ∃ a b i, pa' = (get_port pa a b i).2.

(** [pa'] is a later state of the allocator [pa]. *)
Definition pa_later : relation PortAllocator := rtc pa_step.

(** [topology[k]] when [topology] is a table that has the key. *)
Definition topo_get (k : string) (topology : json) : option json :=
  match topology with
  | JObj d => dict_get k d
  | _ => None
  end.

(** The interface table of one border router, as the loop sees it. *)
Definition interfaces_of (br_data : json) : dict :=
  match topo_get "interfaces" br_data with
  | Some (JObj ifs) => ifs
  | _ => []
  end.

(** All interface entries of all border routers, in declaration order. *)
Definition declared_entries (brs : dict) : dict :=
  flat_map (λ br, interfaces_of br.2) brs.

(** The value of the last entry of [entries] whose key is [id]. *)
Definition last_entry (id : string) (entries : dict) : option json :=
  last (omap (λ e, if String.eqb id e.1 then Some e.2 else None) entries).

(** The [internal_addr] of the last border router that has one. *)
Definition last_internal_addr (brs : dict) : option json :=
  last (omap (λ br, topo_get "internal_addr" br.2) brs).

(** The address the loops write for the original address [addr]. *)
Definition rewritten_addr (node_number : Z) (addr : json) : result json :=
  let* port := py_split_colon_1 addr in
  Ok (JStr (addr_fmt (node_to_ip node_number) port)).

(** [c] does not occur in [s]. *)
Fixpoint free_of (c : ascii) (s : string) : bool :=
  match s with
  | EmptyString => true
  | String c' s' => negb (Ascii.eqb c' c) && free_of c s'
  end.

Fixpoint all_digits (s : string) : bool :=
  match s with
  | EmptyString => true
  | String c s' => is_digit c && all_digits s'
  end.

Definition newline : ascii := "010"%char.

(** The table [all_interfaces] that the first loop builds from the document. *)
Definition declared_interfaces (topology : json) : option dict :=
  match topo_get "border_routers" topology with
  | Some (JObj brs) => Some (add_interfaces [] (declared_entries brs))
  | _ => None
  end.

(** [v[k1][k2]...] along tables. *)
Fixpoint topo_path (path : list string) (v : json) : option json :=
  match path with
  | [] => Some v
  | k :: path' =>
      match topo_get k v with
      | Some v' => topo_path path' v'
      | None => None
      end
  end.

(** [topology['border_routers']['br']['interfaces']] of the written document. *)
Definition out_interfaces (topology : json) : option dict :=
  match topo_path ["border_routers"; "br"; "interfaces"] topology with
  | Some (JObj ifs) => Some ifs
  | _ => None
  end.


(** [s] ends in [sep], a non-empty run of digits and at most one line feed. *)
Definition ends_in_number (sep : ascii) (s : string) : Prop :=
  ∃ pre ds, ds ≠ "" ∧ all_digits ds = true ∧
    (s = pre +:+ String sep ds ∨ s = pre +:+ String sep (ds +:+ String newline "")).




(** The port of an address: what follows its last colon. *)
Definition port_of (addr : string) : string :=
  default "" (last (split_on ":" addr)).

(** The last loop of [build_as_to_node_mapping]. *)
Definition fill_mapping (sorted : list (Z * string))
    (as_to_node : list (string * string)) : list (string * string) :=
  fold_left (λ as_to_node '(as_num, as_name),
               dict_set as_name ("as_" +:+ pretty as_num) as_to_node)
            sorted as_to_node.

(** The list that [build_as_to_node_mapping] sorts. *)
Definition as_dirs_with_numbers (entries : list dir_entry) : list (Z * string) :=
  omap (λ d, match extract_as_number (entry_name d) with
             | Some as_num => Some (as_num, entry_name d)
             | None => None
             end)
       (List.filter (λ d, entry_is_dir d && String.prefix "AS" (entry_name d))
                    entries).

(** An address with at least one colon. *)
Definition wf_addr (v : json) : bool :=
  match v with
  | JStr s => negb (free_of ":" s)
  | _ => false
  end.

(** [d[k]], when present, satisfies [p]. *)
Definition field_ok (k : string) (p : json → bool) (d : dict) : bool :=
  match dict_get k d with
  | Some v => p v
  | None => true
  end.

Definition is_table (v : json) : bool :=
  match v with JObj _ => true | _ => false end.

Definition is_string (v : json) : bool :=
  match v with JStr _ => true | _ => false end.

(** Every value of the table [v] satisfies [p]. *)
Definition table_of (p : json → bool) (v : json) : bool :=
  match v with
  | JObj d => forallb (λ e, p e.2) d
  | _ => false
  end.

Definition wf_service (v : json) : bool :=
  match v with
  | JObj d => field_ok "addr" wf_addr d
  | _ => false
  end.

Definition wf_interface (v : json) : bool :=
  match v with
  | JObj d => field_ok "underlay" is_table d && field_ok "isd_as" is_string d
  | _ => false
  end.

Definition wf_border_router (v : json) : bool :=
  match v with
  | JObj d =>
      field_ok "internal_addr" wf_addr d &&
      field_ok "interfaces" (table_of wf_interface) d
  | _ => false
  end.

(** The shape of a topology descriptor: a table whose service tables hold
    entries with [host:port] addresses and whose border routers hold an
    internal [host:port] address and interfaces with an underlay table and a
    peer identifier string; every one of these parts may be missing. *)
Definition wf_topology (v : json) : bool :=
  match v with
  | JObj d =>
      field_ok "control_service" (table_of wf_service) d &&
      field_ok "discovery_service" (table_of wf_service) d &&
      field_ok "border_routers" (table_of wf_border_router) d
  | _ => false
  end.

(** The sections [sects] of a configuration file are tables where present. *)
Definition wf_config (sects : list string) (config : dict) : bool :=
  forallb (λ s, field_ok s is_table config) sects.

(** * Worked inputs *)

Definition iface (peer local remote : string) : json :=
  JObj [("isd_as", JStr peer);
        ("underlay", JObj [("local", JStr local); ("remote", JStr remote)]);
        ("mtu", JNum 1472)].

Definition topo_110 : json :=
  JObj [("isd_as", JStr "1-ff00:0:110");
        ("test_dispatcher", JBool true);
        ("control_service", JObj [("cs1-ff00_0_110-1", JObj [("addr", JStr "127.0.0.11:31000")])]);
        ("border_routers",
          JObj [("br1-ff00_0_110-1",
                  JObj [("internal_addr", JStr "127.0.0.9:31002");
                        ("interfaces", JObj [("1", iface "1-ff00:0:111" "127.0.0.4:50000" "127.0.0.5:50000")])]);
                ("br1-ff00_0_110-2",
                  JObj [("internal_addr", JStr "127.0.0.10:31004");
                        ("interfaces", JObj [("2", iface "1-ff00:0:111" "127.0.0.6:50000" "127.0.0.7:50000")])])])].

(** The example of the design document: nodes 110 and 111, one link. *)
Definition topo_a : json :=
  JObj [("border_routers",
          JObj [("br1-ff00_0_110-1",
                  JObj [("internal_addr", JStr "127.0.0.9:31002");
                        ("interfaces",
                          JObj [("1", iface "1-ff00:0:111" "127.0.0.4:50000" "127.0.0.5:50000")])])])].

Definition topo_b : json :=
  JObj [("border_routers",
          JObj [("br1-ff00_0_111-1",
                  JObj [("internal_addr", JStr "127.0.0.17:31006");
                        ("interfaces",
                          JObj [("41", iface "1-ff00:0:110" "127.0.0.5:50000" "127.0.0.4:50000")])])])].

Definition out_110 : json * PortAllocator :=
  Eval vm_compute in
    match update_topology_json topo_110 110 (PortAllocator_init 50000) with
    | Ok r => r
    | Raise _ => (JNull, PortAllocator_init 50000)
    end.










Definition br_toml : dict :=
  [("general", JObj [("id", JStr "br1-ff00_0_110-1");
                     ("config_dir", JStr "gen/ASff00_0_110")]);
   ("metrics", JObj [("prometheus", JStr "127.0.0.9:30442")]);
   ("tracing", JObj [("enabled", JBool true)]);
   ("api", JObj [("addr", JStr "127.0.0.9:30442")])].

Definition cs_toml : dict :=
  [("general", JObj [("id", JStr "cs1-ff00_0_110-1");
                     ("config_dir", JStr "gen/ASff00_0_110")]);
   ("metrics", JObj [("prometheus", JStr "127.0.0.11:30452")]);
   ("tracing", JObj [("enabled", JBool true)]);
   ("trust_db", JObj [("connection", JStr "gen-cache/cs1.trust.db")]);
   ("api", JObj [("addr", JStr "127.0.0.11:30452")])].

Definition sd_toml : dict :=
  [("general", JObj [("id", JStr "sd1-ff00_0_110");
                     ("config_dir", JStr "gen/ASff00_0_110")]);
   ("metrics", JObj [("prometheus", JStr "127.0.0.12:30455")]);
   ("tracing", JObj [("enabled", JBool true)]);
   ("sd", JObj [("address", JStr "127.0.0.12:30255")]);
   ("api", JObj [("addr", JStr "127.0.0.12:30455")])].

Definition out_br_toml : dict :=
  Eval vm_compute in
    match update_br_toml br_toml 110 with Ok c => c | Raise _ => [] end.

Definition out_cs_toml : dict :=
  Eval vm_compute in
    match update_cs_toml cs_toml 110 with Ok c => c | Raise _ => [] end.

Definition out_sd_toml : dict :=
  Eval vm_compute in
    match update_sd_toml sd_toml 110 with Ok c => c | Raise _ => [] end.

Definition example_entries : list dir_entry :=
  [mkEntry "ASff00_0_110" true; mkEntry "ASff00_0_112" true;
   mkEntry "ASff00_0_111" true; mkEntry "ISD1" true;
   mkEntry "ASnotes" true; mkEntry "AS_7.txt" false].

(** * The driver

    [generate_kathara_configs] and [main] work on the file system.  In the
    embedding a file is the document that [toml.load] or [json.load] reads
    from it or that [toml.dump] or [json.dump] writes to it, a startup
    script or [lab.conf] is its text, and a function returns what it
    writes.  The source directory is given by its listing and, for each
    subdirectory, the files that [main] looks for.  The directories
    [certs], [crypto] and [keys], which [main] copies as they are, and the
    messages it prints are left out.  A run that an exception aborts is
    [Aborted]; the files written before the exception are not recorded. *)

(** ** [str.replace] *)

(** [s.replace(old, new)] for a non-empty [old]: the occurrences of [old]
    are taken from the left and do not overlap.  [skip] counts the
    characters of an occurrence that are still to be dropped. *)
Fixpoint str_replace_from (old new : string) (skip : nat) (s : string) : string :=
  match s with
  | EmptyString => EmptyString
  | String c s' =>
      match skip with
      | S skip' => str_replace_from old new skip' s'
      | O =>
          if String.prefix old s
          then new +:+ str_replace_from old new (String.length old - 1) s'
          else String c (str_replace_from old new 0 s')
      end
  end.

Definition str_replace (old new s : string) : string :=
  str_replace_from old new 0 s.

(** ** [generate_kathara_configs] *)

(** The double quote character. *)
Definition dquote : string := String "034"%char EmptyString.

(** The text made of the lines [ls], each one ended by a line feed. *)
Definition text (ls : list string) : string :=
  fold_right (λ l rest, l +:+ String newline rest) EmptyString ls.

(** Lines 337-341. *)
Definition labfile_header : string :=
  text ["LAB_DESCRIPTION=" +:+ dquote +:+ "SCION single collision domain topology" +:+ dquote;
        "LAB_VERSION=1.0";
        "LAB_AUTHOR=" +:+ dquote +:+ "Network Security Group, ETH Zurich" +:+ dquote;
        "LAB_WEB=" +:+ dquote +:+ "https://netsec.ethz.ch" +:+ dquote].

(** Lines 355-360. *)
Definition node_block (node_name : string) : string :=
  text [EmptyString;
        "# Config for " +:+ node_name;
        node_name +:+ "[0]=net_0";
        node_name +:+ "[1]=net_1";
        node_name +:+ "[image]=" +:+ dquote +:+ "kathara/scion-local" +:+ dquote].

(** Lines 363-375; [ip] is the text that the f-string puts for [{ip}]. *)
Definition startup_script (node_name ip : string) : string :=
  text ["# === Startup Script for " +:+ node_name +:+ " ===";
        EmptyString;
        "ip address add 10.0.0." +:+ ip +:+ "/24 dev eth0";
        "ip address add 192.168.0." +:+ ip +:+ "/24 dev eth1";
        EmptyString;
        "# Start SCION services";
        "systemctl start scion-dispatcher.service";
        "systemctl start scion-router.service";
        "systemctl start scion-control.service";
        "systemctl start scion-daemon.service";
        "systemctl status scion-*.service";
        EmptyString].

(** [f'{ip}'] for [ip = node_to_ip(as_num)], where [as_num] may be [None]. *)
Definition ip_text (as_num : option Z) : string :=
  match as_num with
  | Some n => pretty (node_to_ip n)
  | None => "None"
  end.

(** Line 348, [sorted_nodes.sort()] on tuples [(as_num, node_name)] whose
    first component is an [int] or [None].  Tuples with numbers are ordered
    as in [tuple_le]; tuples with [None] in front compare by their names;
    comparing [None] with a number raises [TypeError], and a sort of a list
    that holds both kinds has to compare two of different kind. *)
Definition sort_nodes (nodes : list (option Z * string))
  : result (list (option Z * string)) :=
  let numbered := omap (λ p, (λ n : Z, (n, p.2)) <$> p.1) nodes in
  if decide (length numbered = length nodes) then
    Ok ((λ p : Z * string, (Some p.1, p.2)) <$> merge_sort tuple_le numbered)
  else if decide (numbered = []) then
    Ok ((λ name, (None, name)) <$> merge_sort String.le nodes.*2)
  else Raise TypeError.

(** Lines 328-386.  The result is the list of the startup scripts written,
    as pairs of file name and content in the order of writing, and the
    content of [lab.conf]. *)
Definition generate_kathara_configs (as_to_node : list (string * string))
  : result (list (string * string) * string) :=
  let sorted_nodes :=
    (λ e : string * string, (extract_as_number e.1, e.2)) <$> as_to_node in
  let* sorted_nodes := sort_nodes sorted_nodes in
  Ok ((λ p : option Z * string,
         (p.2 +:+ ".startup", startup_script p.2 (ip_text p.1))) <$> sorted_nodes,
      fold_left (λ labfile (p : option Z * string), labfile +:+ node_block p.2)
                sorted_nodes labfile_header).

(** ** [main] *)

(** What [main] reads in one AS directory: the parsed files that match
    [br*.toml] and [cs*.toml], in the order of the glob, and the parsed
    [sd.toml] and [topology.json] where they exist. *)
Record as_dir_files : Type := mkAsDir {
  br_files : list dict;
  cs_files : list dict;
  sd_file : option dict;
  topology_file : option json
}.

(** What [main] leaves in the directory of a node: [br.toml], [cs.toml],
    [sd.toml] and [topology.json], each written when its source exists. *)
Record node_dir_files : Type := mkNodeDir {
  node_br_toml : option dict;
  node_cs_toml : option dict;
  node_sd_toml : option dict;
  node_topology_json : option json
}.

(** [if file exists: copy it; update(copy, node_number)] *)
Definition update_copy (update : dict → Z → result dict) (file : option dict)
    (node_number : Z) : result (option dict) :=
  match file with
  | Some config => let* config' := update config node_number in Ok (Some config')
  | None => Ok None
  end.

(** Line 427: [int(node_name.replace('as_', ''))].  [main] takes the names
    from [build_as_to_node_mapping]; what [replace] leaves of them is a
    non-empty string of digits (lemma [node_number_of_name] below), on
    which [int] is [int_of_digits]. *)
Definition node_number_of (node_name : string) : Z :=
  int_of_digits (str_replace "as_" "" node_name).

(** Lines 419-492, one round of the loop over the mapping.  The copied
    directories [certs], [crypto] and [keys] are not part of the model. *)
Definition process_as (files : as_dir_files) (node_name : string)
    (port_allocator : PortAllocator) : result (node_dir_files * PortAllocator) :=
  let node_number := node_number_of node_name in
  let* br := update_copy update_br_toml (head (br_files files)) node_number in
  let* cs := update_copy update_cs_toml (head (cs_files files)) node_number in
  let* sd := update_copy update_sd_toml (sd_file files) node_number in
  match topology_file files with
  | Some topology =>
      let* '(topology', port_allocator') :=
        update_topology_json topology node_number port_allocator in
      Ok (mkNodeDir br cs sd (Some topology'), port_allocator')
  | None => Ok (mkNodeDir br cs sd None, port_allocator)
  end.

(** Lines 418-492, the loop; the result lists the node directories in the
    order in which they are written.  The names of the mapping are those of
    listed directories, so the test [as_dir.exists()] of line 422 holds. *)
Fixpoint process_all (as_dir : string → as_dir_files)
    (as_to_node : list (string * string)) (port_allocator : PortAllocator)
  : result (list (string * node_dir_files) * PortAllocator) :=
  match as_to_node with
  | [] => Ok ([], port_allocator)
  | (as_name, node_name) :: rest =>
      let* '(node_dir, port_allocator') :=
        process_as (as_dir as_name) node_name port_allocator in
      let* '(node_dirs, port_allocator'') :=
        process_all as_dir rest port_allocator' in
      Ok ((node_name, node_dir) :: node_dirs, port_allocator'')
  end.

(** The source directory: its listing and the files of its subdirectories. *)
Record source_tree : Type := mkSource {
  listing : list dir_entry;
  files_of : string → as_dir_files
}.

(** How a run of [main] ends. *)
Inductive outcome : Type :=
| SourceMissing
| NoASDirectories
| Aborted (e : exn)
| Ready (node_dirs : list (string * node_dir_files))
        (startup : list (string * string)) (lab_conf : string).

(** Lines 389-500; [source] is [None] when the source directory does not
    exist. *)
Definition main (source : option source_tree) : outcome :=
  match source with
  | None => SourceMissing
  | Some src =>
      let as_to_node := build_as_to_node_mapping (listing src) in
      match as_to_node with
      | [] => NoASDirectories
      | _ :: _ =>
          match process_all (files_of src) as_to_node (PortAllocator_init 50000) with
          | Raise e => Aborted e
          | Ok (node_dirs, _) =>
              match generate_kathara_configs as_to_node with
              | Raise e => Aborted e
              | Ok (startup, lab_conf) => Ready node_dirs startup lab_conf
              end
          end
      end
  end.

(** ** The vocabulary of the further properties *)

(** The entries of the mapping: the key ends in the number [num], which is
    not negative, and the value is [as_<num>]. *)
Definition mapping_entry (e : string * string) : Prop :=
  ∃ num, extract_as_number e.1 = Some num ∧ (0 ≤ num)%Z ∧
         e.2 = "as_" +:+ pretty num.



(** Two directories whose names end in the same number. *)
Definition colliding_entries : list dir_entry :=
  [mkEntry "ASff00_0_110" true; mkEntry "ASff00_1_110" true].

(** A source directory with the two nodes of the example of the design
    document and a third directory without files. *)
Definition example_source : source_tree :=
  mkSource example_entries
    (λ as_name,
       if String.eqb as_name "ASff00_0_110"
       then mkAsDir [br_toml] [cs_toml] (Some sd_toml) (Some topo_a)
       else if String.eqb as_name "ASff00_0_111"
       then mkAsDir [] [] None (Some topo_b)
       else mkAsDir [] [] None None).

Definition example_lab : outcome :=
  Eval vm_compute in main (Some example_source).

(** The three kinds of service configuration file, with the rewriter of
    each, the sections it removes and the fields it sets, in the order of
    the source. *)
Inductive file_kind : Type := BrToml | CsToml | SdToml.

Definition rewriter (kind : file_kind) : dict → Z → result dict :=
  match kind with
  | BrToml => update_br_toml
  | CsToml => update_cs_toml
  | SdToml => update_sd_toml
  end.

Definition removed (kind : file_kind) : list string :=
  match kind with
  | BrToml => ["metrics"]
  | CsToml => ["metrics"; "tracing"]
  | SdToml => ["metrics"; "tracing"]
  end.

(** The assignments [config[section][key] = value] of a rewriter. *)
Definition settings (kind : file_kind) (node_number : Z)
  : list (string * string * json) :=
  match kind with
  | BrToml =>
      [("general", "config_dir", JStr "/etc/scion/");
       ("general", "id", JStr "br");
       ("api", "addr", JStr (addr_fmt (node_to_ip node_number) "31442"))]
  | CsToml =>
      [("general", "config_dir", JStr "/etc/scion/");
       ("trust_db", "connection", JStr "/etc/scion/trust.db");
       ("beacon_db", "connection", JStr "/etc/scion/beacon.db");
       ("path_db", "connection", JStr "/etc/scion/path.db");
       ("api", "addr", JStr (addr_fmt (node_to_ip node_number) "31152"))]
  | SdToml =>
      [("general", "config_dir", JStr "/etc/scion/");
       ("trust_db", "connection", JStr "/etc/scion/trust.db");
       ("path_db", "connection", JStr "/etc/scion/path.db");
       ("sd", "address", JStr (addr_fmt (node_to_ip node_number) "30255"));
       ("api", "addr", JStr (addr_fmt (node_to_ip node_number) "30955"))]
  end.

(** The sections a rewriter writes into. *)
Definition written (kind : file_kind) : list string :=
  (settings kind 0).*1.*1.

(** [if sect in config: config[sect][key] = x] for each setting in turn. *)
Fixpoint apply_settings (l : list (string * string * json)) (config : dict)
  : result dict :=
  match l with
  | [] => Ok config
  | (sect, key, x) :: l' =>
      let* config := set_if_section config sect key x in
      apply_settings l' config
  end.

(** [if sect in config: del config[sect]] for each section in turn. *)
Definition remove_sections (sects : list string) (config : dict) : dict :=
  fold_left (λ config sect, remove_section sect config) sects config.

(** The exception that [addr.split(':')[1]] raises: [AttributeError] when
    [addr] is not a string, [IndexError] when it is a string without a
    colon. *)
Definition addr_exn (addr : json) : option exn :=
  match addr with
  | JStr s => if free_of ":" s then Some IndexError else None
  | _ => Some AttributeError
  end.

(** The keys of a table, in order. *)
Definition keys_of (v : json) : list string :=
  match v with
  | JObj d => dict_keys d
  | _ => []
  end.

(** * Lemmas *)

(** ** Dictionaries *)

Section dict_lemmas.
Context {V : Type}.
Implicit Types (d : list (string * V)) (k : string) (v : V).

Lemma dict_has_keys k d : dict_has k d = true ↔ k ∈ dict_keys d.
Proof.
  unfold dict_has, dict_keys. induction d as [|[k' v'] d IH]; simpl.
  - split; [done | intros H; inversion H].
  - destruct (String.eqb_spec k k') as [->|Hne].
    + split; [intros _; left | done].
    + rewrite IH. split; [by right | intros H].
      apply elem_of_cons in H as [?|?]; done.
Qed.

Lemma dict_has_false_keys k d : dict_has k d = false ↔ k ∉ dict_keys d.
Proof.
  rewrite <- dict_has_keys. destruct (dict_has k d); split; (done || congruence).
Qed.

Lemma dict_get_set k k' v d :
  dict_get k' (dict_set k v d) = if decide (k' = k) then Some v else dict_get k' d.
Proof.
  induction d as [|[k0 v0] d IH]; simpl.
  - destruct (String.eqb_spec k' k); case_decide; congruence.
  - destruct (String.eqb_spec k k0) as [->|Hne]; simpl.
    + destruct (String.eqb_spec k' k0); case_decide; congruence.
    + destruct (String.eqb_spec k' k0) as [->|Hne'].
      * case_decide; congruence.
      * apply IH.
Qed.

Lemma dict_get_set_eq k v d : dict_get k (dict_set k v d) = Some v.
Proof. rewrite dict_get_set. by case_decide. Qed.

Lemma dict_get_set_ne k k' v d :
  k' ≠ k → dict_get k' (dict_set k v d) = dict_get k' d.
Proof. intros. rewrite dict_get_set. by case_decide. Qed.

Lemma dict_has_set k k' v d :
  dict_has k' (dict_set k v d) = if decide (k' = k) then true else dict_has k' d.
Proof. unfold dict_has. rewrite dict_get_set. by case_decide. Qed.

Lemma dict_keys_set_old k v d :
  dict_has k d = true → dict_keys (dict_set k v d) = dict_keys d.
Proof.
  unfold dict_has, dict_keys. induction d as [|[k0 v0] d IH]; simpl; [done|].
  destruct (String.eqb_spec k k0) as [->|Hne]; simpl; [done|].
  intros H. f_equal. by apply IH.
Qed.

Lemma dict_keys_set_new k v d :
  dict_has k d = false → dict_keys (dict_set k v d) = dict_keys d ++ [k].
Proof.
  unfold dict_has, dict_keys. induction d as [|[k0 v0] d IH]; simpl; [done|].
  destruct (String.eqb_spec k k0) as [->|Hne]; simpl; [done|].
  intros H. f_equal. by apply IH.
Qed.

Lemma dict_get_del k k' d :
  dict_get k' (dict_del k d) = if decide (k' = k) then None else dict_get k' d.
Proof.
  induction d as [|[k0 v0] d IH]; simpl.
  - by case_decide.
  - destruct (String.eqb_spec k k0) as [->|Hne]; simpl.
    + rewrite IH. destruct (String.eqb_spec k' k0); case_decide; congruence.
    + destruct (String.eqb_spec k' k0) as [->|Hne'].
      * case_decide; congruence.
      * apply IH.
Qed.

Lemma dict_has_del k k' d :
  dict_has k' (dict_del k d) = if decide (k' = k) then false else dict_has k' d.
Proof. unfold dict_has. rewrite dict_get_del. by case_decide. Qed.
End dict_lemmas.

(** ** The allocator *)

Lemma link_key_sym a b i : link_key a b i = link_key b a i.
Proof. unfold link_key. by rewrite Z.min_comm, Z.max_comm. Qed.

Lemma node_pair_sym a b : node_pair a b = node_pair b a.
Proof. unfold node_pair. by rewrite Z.min_comm, Z.max_comm. Qed.


Lemma link_key_inj n r i r' i' :
  link_key n r i = link_key n r' i' → r = r' ∧ i = i'.
Proof. unfold link_key. intros [= Hmin Hmax ->]. split; lia. Qed.

Lemma get_port_lookup pa a b i :
  port_assignments (get_port pa a b i).2 !! link_key a b i
  = Some (get_port pa a b i).1.
Proof.
  unfold get_port.
  destruct (port_assignments pa !! link_key a b i) eqn:E; simpl; [done|].
  apply lookup_insert_eq.
Qed.

Lemma get_port_keeps pa a b i k p :
  port_assignments pa !! k = Some p →
  port_assignments (get_port pa a b i).2 !! k = Some p.
Proof.
  intros Hk. unfold get_port.
  destruct (port_assignments pa !! link_key a b i) eqn:E; simpl; [done|].
  rewrite lookup_insert_ne; [done|]. congruence.
Qed.

Lemma get_port_known pa a b i p :
  port_assignments pa !! link_key a b i = Some p → get_port pa a b i = (p, pa).
Proof. intros H. unfold get_port. by rewrite H. Qed.

Lemma get_port_base pa a b i : base_port (get_port pa a b i).2 = base_port pa.
Proof. unfold get_port. by destruct (port_assignments pa !! _). Qed.

Lemma pa_inv_init base : pa_inv (PortAllocator_init base).
Proof.
  split; simpl.
  - rewrite map_size_empty. lia.
  - intros k p H. by rewrite lookup_empty in H.
  - intros k1 k2 p H. by rewrite lookup_empty in H.
Qed.

Lemma pa_inv_get_port pa a b i : pa_inv pa → pa_inv (get_port pa a b i).2.
Proof.
  intros [Hc Hr Hi]. unfold get_port.
  destruct (port_assignments pa !! link_key a b i) eqn:E; simpl; [by split|].
  split; simpl.
  - rewrite map_size_insert_None by done. lia.
  - intros k p. rewrite lookup_insert. case_decide.
    + intros [= <-]. lia.
    + intros H'. apply Hr in H'. lia.
  - intros k1 k2 p. rewrite !lookup_insert.
    repeat case_decide; subst; try done.
    + intros [= <-] H'. apply Hr in H'. lia.
    + intros H' [= <-]. apply Hr in H'. lia.
    + apply Hi.
Qed.

Lemma pa_reachable_inv base pa : pa_reachable base pa → pa_inv pa.
Proof. induction 1; auto using pa_inv_init, pa_inv_get_port. Qed.

Lemma pa_reachable_base base pa : pa_reachable base pa → base_port pa = base.
Proof. induction 1; [done|]. by rewrite get_port_base. Qed.

(** ** Reasoning in the error monad *)

Lemma bind_Ok {A B : Type} (m : result A) (k : A → result B) (b : B) :
  bind m k = Ok b ↔ ∃ a, m = Ok a ∧ k a = Ok b.
Proof.
  destruct m as [a|e]; simpl; split.
  - eauto.
  - by intros (a' & [= ->] & ?).
  - done.
  - by intros (? & ? & ?).
Qed.

Ltac inv_Ok :=
  repeat match goal with
  | H : bind _ _ = Ok _ |- _ =>
      let x := fresh "x" in
      let Hx := fresh "Hx" in
      apply bind_Ok in H as (x & Hx & H)
  | H : Ok _ = Ok _ |- _ => injection H as H; try subst
  | H : Raise _ = Ok _ |- _ => discriminate H
  | H : (_, _) = (_, _) |- _ => injection H as ??; try subst
  end.

Lemma py_getitem_Ok v k x :
  py_getitem v k = Ok x ↔ ∃ d, v = JObj d ∧ dict_get k d = Some x.
Proof.
  destruct v; simpl; split; try done; try (by intros (? & ? & ?)).
  - destruct (dict_get k kvs) eqn:E; intros [=]; subst; eauto.
  - intros (d & [= <-] & ->). done.
Qed.

Lemma py_setitem_Ok v k x v' :
  py_setitem v k x = Ok v' ↔ ∃ d, v = JObj d ∧ v' = JObj (dict_set k x d).
Proof.
  destruct v; simpl; split; try done; try (by intros (? & ? & ?)).
  - intros [= <-]; eauto.
  - by intros (d & [= <-] & ->).
Qed.

Lemma py_items_Ok v d : py_items v = Ok d ↔ v = JObj d.
Proof. destruct v; simpl; split; try done; congruence. Qed.

(** ** The second loop: one interface *)

Global Arguments rewrite_interface : simpl never.

Lemma rewrite_interface_skip n data st data' st' :
  link_peer data = None →
  rewrite_interface n data st = Ok (data', st') →
  data' = data ∧ st' = st.
Proof.
  intros Hpeer H. destruct st as [c pa]. unfold rewrite_interface in H.
  destruct data as [| | |s|xs|d]; simpl in H, Hpeer; try done.
  - destruct (str_contains "underlay" s); simpl in H; by inv_Ok.
  - destruct (existsb _ xs); simpl in H; by inv_Ok.
  - destruct (dict_has "underlay" d) eqn:Eu; simpl in H; [|by inv_Ok].
    destruct (dict_get "underlay" d) as [u|]; simpl in H; [|done].
    unfold dict_has in H at 1.
    destruct (dict_get "isd_as" d) as [[| | |s| |]|]; simpl in H; try done;
      [|by inv_Ok].
    destruct (re_search_digits ":" s); simpl in H, Hpeer; [done|by inv_Ok].
Qed.

Lemma set_local_remote_Ok {B : Type} n r p u (k : json → result B) b :
  bind (py_in "local" u) (λ has_local : bool,
    bind (if has_local
          then py_setitem u "local" (JStr (addr_fmt n (pretty p)))
          else Ok u) (λ u1,
      bind (py_in "remote" u1) (λ has_remote : bool,
        bind (if has_remote
              then py_setitem u1 "remote" (JStr (addr_fmt r (pretty p)))
              else Ok u1) k))) = Ok b →
  k (new_underlay n r p u) = Ok b.
Proof.
  intros H. destruct u as [| | |s|xs|d]; simpl in H; try done.
  - destruct (str_contains "local" s); simpl in H; [done|].
    destruct (str_contains "remote" s); simpl in H; done.
  - destruct (existsb _ xs); simpl in H; [done|].
    destruct (existsb _ xs); simpl in H; done.
  - unfold new_underlay, set_if_has.
    destruct (dict_has "local" d) eqn:El; simpl in H.
    + destruct (dict_has "remote" (dict_set "local" _ d)); simpl in H; done.
    + destruct (dict_has "remote" d); simpl in H; done.
Qed.

Lemma rewrite_interface_link n data c pa data' st' r :
  link_peer data = Some r →
  rewrite_interface n data (c, pa) = Ok (data', st') →
  data' = with_port n r (get_port pa n r (next_index c (node_pair n r))).1 data ∧
  st' = (<[node_pair n r := next_index c (node_pair n r) + 1]> c,
         (get_port pa n r (next_index c (node_pair n r))).2).
Proof.
  intros Hpeer H. unfold rewrite_interface in H.
  destruct data as [| | | | |d]; try done. simpl in Hpeer.
  destruct (dict_has "underlay" d) eqn:Eu; [|done].
  simpl in H. rewrite Eu in H. simpl in H.
  destruct (dict_get "underlay" d) as [u|] eqn:Egu; [|done]. simpl in H.
  destruct (dict_get "isd_as" d) as [[| | |s| |]|] eqn:Ei; try done.
  unfold dict_has in H at 1. rewrite Ei in H. simpl in H.
  destruct (re_search_digits ":" s) as [ds|]; [|done].
  simpl in Hpeer. injection Hpeer as <-. simpl in H.
  fold (next_index c (node_pair n (int_of_digits ds))) in H.
  destruct (get_port pa n (int_of_digits ds) _) as [p pa'] eqn:Eg.
  simpl. rewrite Egu. unfold node_to_ip in H.
  apply set_local_remote_Ok in H. by injection H as <- <-.
Qed.

Lemma next_index_insert c pair v pair' :
  next_index (<[pair := v]> c) pair'
  = if decide (pair = pair') then v else next_index c pair'.
Proof. unfold next_index. rewrite lookup_insert. by case_decide. Qed.


(** ** Later states of the allocator *)

Lemma pa_later_keeps pa pa' k p :
  pa_later pa pa' →
  port_assignments pa !! k = Some p → port_assignments pa' !! k = Some p.
Proof.
  induction 1 as [|pa pa1 pa2 (a & b & i & ->) _ IH]; [done|].
  intros H. apply IH. by apply get_port_keeps.
Qed.

Lemma pa_later_reachable base pa pa' :
  pa_later pa pa' → pa_reachable base pa → pa_reachable base pa'.
Proof.
  induction 1 as [|pa pa1 pa2 (a & b & i & ->) _ IH]; [done|].
  intros H. apply IH. by constructor.
Qed.

Lemma pa_later_get_port pa a b i : pa_later pa (get_port pa a b i).2.
Proof. apply rtc_once. by exists a, b, i. Qed.

Lemma pa_reachable_later base pa :
  pa_reachable base pa → pa_later (PortAllocator_init base) pa.
Proof.
  induction 1 as [|pa a b i _ IH]; [apply rtc_refl|].
  eapply rtc_r; [exact IH|]. by exists a, b, i.
Qed.

Lemma rewrite_interface_later n data c pa data' c' pa' :
  rewrite_interface n data (c, pa) = Ok (data', (c', pa')) → pa_later pa pa'.
Proof.
  intros H. destruct (link_peer data) as [r|] eqn:Ep.
  - destruct (rewrite_interface_link _ _ _ _ _ _ _ Ep H) as [_ [= ? ?]].
    subst. apply pa_later_get_port.
  - destruct (rewrite_interface_skip _ _ _ _ _ Ep H) as [_ [= ? ?]].
    subst. apply rtc_refl.
Qed.

(** ** The second loop: the whole table *)

Lemma rewrite_interfaces_cons_Ok n id data ifs st out st'' :
  rewrite_interfaces n ((id, data) :: ifs) st = Ok (out, st'') ↔
  ∃ data' st' ifs',
    rewrite_interface n data st = Ok (data', st') ∧
    rewrite_interfaces n ifs st' = Ok (ifs', st'') ∧
    out = (id, data') :: ifs'.
Proof.
  simpl. split.
  - intros H. apply bind_Ok in H as ([data' st'] & H1 & H).
    apply bind_Ok in H as ([ifs' st2] & H2 & H). inv_Ok.
    by exists data', st', ifs'.
  - intros (data' & st' & ifs' & -> & H2 & ->). simpl. by rewrite H2.
Qed.

Lemma rewrite_interfaces_later n ifs c pa ifs' c' pa' :
  rewrite_interfaces n ifs (c, pa) = Ok (ifs', (c', pa')) → pa_later pa pa'.
Proof.
  revert c pa ifs'. induction ifs as [|[id data] ifs IH]; intros c pa ifs' H.
  - simpl in H. inv_Ok. apply rtc_refl.
  - apply rewrite_interfaces_cons_Ok in H as (data' & [c1 pa1] & ifs1 & H1 & H2 & ->).
    etrans; [by eapply rewrite_interface_later|by eapply IH].
Qed.

Lemma rewrite_interfaces_keys n ifs st ifs' st' :
  rewrite_interfaces n ifs st = Ok (ifs', st') → dict_keys ifs' = dict_keys ifs.
Proof.
  revert st ifs'. induction ifs as [|[id data] ifs IH]; intros st ifs' H.
  - simpl in H. by inv_Ok.
  - apply rewrite_interfaces_cons_Ok in H as (data' & st1 & ifs1 & H1 & H2 & ->).
    unfold dict_keys in *. simpl. f_equal. eauto.
Qed.

(** What the loop does to the interface at position [i]. *)
Lemma rewrite_interfaces_lookup n ifs c pa ifs' c' pa' i id data :
  rewrite_interfaces n ifs (c, pa) = Ok (ifs', (c', pa')) →
  ifs !! i = Some (id, data) →
  match link_peer data with
  | None => ifs' !! i = Some (id, data)
  | Some r =>
      ∃ p, port_assignments pa' !!
             link_key n r (next_index c (node_pair n r) +
                           Z.of_nat (count_links n (node_pair n r) (take i ifs)))
           = Some p ∧
           ifs' !! i = Some (id, with_port n r p data)
  end.
Proof.
  revert c pa ifs' i.
  induction ifs as [|[id0 data0] ifs IH]; intros c pa ifs' i H Hi; [done|].
  apply rewrite_interfaces_cons_Ok in H as (data' & [c1 pa1] & ifs1 & H1 & H2 & ->).
  destruct i as [|i]; simpl in Hi.
  - injection Hi as -> ->. simpl.
    destruct (link_peer data) as [r|] eqn:Ep.
    + destruct (rewrite_interface_link _ _ _ _ _ _ _ Ep H1) as [-> [= -> ->]].
      simpl. rewrite Z.add_0_r. eexists. split; [|done].
      eapply pa_later_keeps; [by eapply rewrite_interfaces_later|].
      apply get_port_lookup.
    + by destruct (rewrite_interface_skip _ _ _ _ _ Ep H1) as [-> _].
  - specialize (IH _ _ _ _ H2 Hi). simpl.
    destruct (link_peer data) as [r|] eqn:Ep; [|done].
    destruct IH as (p & Hp & Hl). exists p. split; [|done].
    simpl. destruct (link_peer data0) as [r0|] eqn:Ep0.
    + destruct (rewrite_interface_link _ _ _ _ _ _ _ Ep0 H1) as [_ [= -> ->]].
      rewrite next_index_insert in Hp.
      destruct (decide (node_pair n r0 = node_pair n r)) as [Heq|?]; [|done].
      rewrite Heq in Hp. rewrite <- Hp. f_equal. f_equal. lia.
    + by destruct (rewrite_interface_skip _ _ _ _ _ Ep0 H1) as [_ [= -> ->]].
Qed.

(** ** The blocks of [update_topology_json] *)

Lemma remove_marker_inv t t1 :
  remove_marker t = Ok t1 →
  py_in "test_dispatcher" t1 = Ok false ∧
  ∀ k, k ≠ "test_dispatcher" →
    py_in k t1 = py_in k t ∧ topo_get k t1 = topo_get k t.
Proof.
  unfold remove_marker. intros H.
  destruct t as [| | |s|xs|d]; simpl in H; try done.
  - destruct (str_contains _ s) eqn:E; simpl in H; [done|].
    inv_Ok. simpl. by rewrite E.
  - destruct (existsb _ xs) eqn:E; simpl in H; [done|].
    inv_Ok. simpl. by rewrite E.
  - destruct (dict_has _ d) eqn:E; simpl in H.
    + inv_Ok. simpl. rewrite dict_has_del.
      split; [by case_decide|]. intros k Hk.
      rewrite dict_has_del, dict_get_del. by case_decide.
    + inv_Ok. simpl. by rewrite E.
Qed.

Lemma update_services_inv table n t t1 :
  update_services table n t = Ok t1 →
  (∀ k, k ≠ table → py_in k t1 = py_in k t ∧ topo_get k t1 = topo_get k t) ∧
  match topo_get table t with
  | Some v =>
      ∃ svcs svcs', v = JObj svcs ∧
        for_items (rewrite_service_addr n) svcs = Ok svcs' ∧
        topo_get table t1 = Some (JObj svcs')
  | None => t1 = t
  end.
Proof.
  unfold update_services. intros H.
  destruct t as [| | |s|xs|d]; simpl in H; try done.
  - destruct (str_contains _ s) eqn:E; simpl in H; [done|]. by inv_Ok.
  - destruct (existsb _ xs) eqn:E; simpl in H; [done|]. by inv_Ok.
  - simpl. unfold dict_has in H.
    destruct (dict_get table d) as [v|] eqn:E; simpl in H; [|by inv_Ok].
    inv_Ok. apply py_items_Ok in Hx as ->. split.
    + intros k Hk. simpl. rewrite dict_has_set, dict_get_set. by case_decide.
    + exists x, x0. simpl. by rewrite dict_get_set_eq.
Qed.

Lemma consolidate_border_routers_inv t n pa t' pa' :
  consolidate_border_routers t n pa = Ok (t', pa') →
  (∀ k, k ≠ "border_routers" →
     py_in k t' = py_in k t ∧ topo_get k t' = topo_get k t) ∧
  match topo_get "border_routers" t with
  | Some v =>
      ∃ brs cia all ifs' c', v = JObj brs ∧
        collect_border_routers n brs (JNull, []) = Ok (cia, all) ∧
        rewrite_interfaces n all (∅, pa) = Ok (ifs', (c', pa')) ∧
        topo_get "border_routers" t' = Some (consolidated cia ifs')
  | None => t' = t ∧ pa' = pa
  end.
Proof.
  unfold consolidate_border_routers. intros H.
  destruct t as [| | |s|xs|d]; simpl in H; try done.
  - destruct (str_contains _ s) eqn:E; simpl in H; [done|]. by inv_Ok.
  - destruct (existsb _ xs) eqn:E; simpl in H; [done|]. by inv_Ok.
  - simpl. unfold dict_has in H.
    destruct (dict_get "border_routers" d) as [v|] eqn:E; simpl in H; [|by inv_Ok].
    apply bind_Ok in H as (brs & Hbrs & H). apply py_items_Ok in Hbrs as ->.
    apply bind_Ok in H as ([cia all] & Hc & H).
    apply bind_Ok in H as ([ifs' [c' pa1]] & Hr & H). simpl in H. inv_Ok.
    split.
    + intros k Hk. simpl. rewrite dict_has_set, dict_get_set. by case_decide.
    + exists brs, cia, all, ifs', c'. simpl. by rewrite dict_get_set_eq.
Qed.

(** What a completed call has done, block by block. *)
Lemma update_topology_json_inv t n pa t' pa' :
  update_topology_json t n pa = Ok (t', pa') →
  py_in "test_dispatcher" t' = Ok false ∧
  (∀ k, k ∉ ["test_dispatcher"; "control_service"; "discovery_service";
              "border_routers"] → topo_get k t' = topo_get k t) ∧
  (∀ table, table ∈ ["control_service"; "discovery_service"] →
     match topo_get table t with
     | Some v =>
         ∃ svcs svcs', v = JObj svcs ∧
           for_items (rewrite_service_addr n) svcs = Ok svcs' ∧
           topo_get table t' = Some (JObj svcs')
     | None => topo_get table t' = None
     end) ∧
  match topo_get "border_routers" t with
  | Some v =>
      ∃ brs cia all ifs' c', v = JObj brs ∧
        collect_border_routers n brs (JNull, []) = Ok (cia, all) ∧
        rewrite_interfaces n all (∅, pa) = Ok (ifs', (c', pa')) ∧
        topo_get "border_routers" t' = Some (consolidated cia ifs')
  | None => topo_get "border_routers" t' = None ∧ pa' = pa
  end.
Proof.
  unfold update_topology_json. intros H.
  apply bind_Ok in H as (t1 & H1 & H). apply bind_Ok in H as (t2 & H2 & H).
  apply bind_Ok in H as (t3 & H3 & H).
  apply remove_marker_inv in H1 as [Hm1 Ho1].
  apply update_services_inv in H2 as [Ho2 Hs2].
  apply update_services_inv in H3 as [Ho3 Hs3].
  apply consolidate_border_routers_inv in H as [Ho4 Hb].
  assert (Hget : ∀ k, k ≠ "test_dispatcher" → k ≠ "control_service" →
            k ≠ "discovery_service" → topo_get k t3 = topo_get k t).
  { intros k ???. rewrite (proj2 (Ho3 k ltac:(done))).
    rewrite (proj2 (Ho2 k ltac:(done))). by apply Ho1. }
  repeat split.
  - rewrite (proj1 (Ho4 "test_dispatcher" ltac:(done))).
    rewrite (proj1 (Ho3 "test_dispatcher" ltac:(done))).
    by rewrite (proj1 (Ho2 "test_dispatcher" ltac:(done))).
  - intros k Hk. rewrite !not_elem_of_cons in Hk. destruct Hk as (?&?&?&?&_).
    rewrite (proj2 (Ho4 k ltac:(done))). by apply Hget.
  - intros table Ht. rewrite !elem_of_cons in Ht.
    destruct Ht as [->|[->|Ht]]; [| |by apply elem_of_nil in Ht].
    + rewrite <- (proj2 (Ho1 "control_service" ltac:(done))).
      rewrite (proj2 (Ho4 "control_service" ltac:(done))).
      rewrite (proj2 (Ho3 "control_service" ltac:(done))).
      destruct (topo_get "control_service" t1) eqn:E; [done|by subst].
    + rewrite <- (proj2 (Ho1 "discovery_service" ltac:(done))).
      rewrite <- (proj2 (Ho2 "discovery_service" ltac:(done))).
      rewrite (proj2 (Ho4 "discovery_service" ltac:(done))).
      destruct (topo_get "discovery_service" t2) eqn:E; [done|by subst].
  - rewrite <- (Hget "border_routers") by done.
    destruct (topo_get "border_routers" t3) eqn:E; [done|].
    destruct Hb as [-> ->]. done.
Qed.

(** ** The first loop: collecting the interfaces *)

Lemma add_interfaces_app all l1 l2 :
  add_interfaces all (l1 ++ l2) = add_interfaces (add_interfaces all l1) l2.
Proof. unfold add_interfaces. by rewrite fold_left_app. Qed.

Lemma add_interfaces_cons all id data l :
  add_interfaces all ((id, data) :: l) = add_interfaces (dict_set id data all) l.
Proof. done. Qed.

Lemma add_interfaces_get id all l :
  dict_get id (add_interfaces all l)
  = match last_entry id l with Some v => Some v | None => dict_get id all end.
Proof.
  unfold last_entry. revert all. induction l as [|[id0 data0] l IH]; intros all.
  - done.
  - rewrite add_interfaces_cons, IH. simpl. rewrite dict_get_set.
    destruct (String.eqb_spec id id0) as [->|Hne].
    + rewrite last_cons. case_decide; [|done].
      unfold omap. by destruct (last _).
    + by case_decide.
Qed.

Lemma dict_set_NoDup {V : Type} k (v : V) d :
  NoDup (dict_keys d) → NoDup (dict_keys (dict_set k v d)).
Proof.
  intros Hnd. destruct (dict_has k d) eqn:E.
  - by rewrite dict_keys_set_old.
  - rewrite dict_keys_set_new by done. apply dict_has_false_keys in E.
    apply NoDup_app. split_and!; [done| |apply NoDup_singleton].
    intros x Hx Hx'. apply list_elem_of_singleton in Hx'. by subst.
Qed.

Lemma add_interfaces_NoDup all l :
  NoDup (dict_keys all) → NoDup (dict_keys (add_interfaces all l)).
Proof.
  revert all. induction l as [|[id data] l IH]; intros all Hnd; [done|].
  rewrite add_interfaces_cons. apply IH. by apply dict_set_NoDup.
Qed.

Lemma dict_set_fresh {V : Type} k (v : V) d :
  k ∉ dict_keys d → dict_set k v d = d ++ [(k, v)].
Proof.
  unfold dict_keys. induction d as [|[k0 v0] d IH]; simpl; [done|].
  rewrite not_elem_of_cons. intros [Hne Hnotin].
  destruct (String.eqb_spec k k0); [done|]. f_equal. by apply IH.
Qed.

(** Without a collision the collected table is the plain concatenation. *)
Lemma add_interfaces_fresh all l :
  NoDup (dict_keys (all ++ l)) → add_interfaces all l = all ++ l.
Proof.
  revert all. induction l as [|[id data] l IH]; intros all Hnd.
  - by rewrite app_nil_r.
  - rewrite add_interfaces_cons.
    assert (Hnotin : id ∉ dict_keys all).
    { unfold dict_keys in *. rewrite fmap_app in Hnd.
      apply NoDup_app in Hnd as (_ & Hd & _). intros Hin.
      apply (Hd _ Hin). simpl. left. }
    rewrite dict_set_fresh by done. rewrite IH.
    + by rewrite <- app_assoc.
    + by rewrite <- app_assoc.
Qed.


Lemma collect_border_router_inv n cia0 all0 br cia all :
  collect_border_router n (cia0, all0) br = Ok (cia, all) →
  all = add_interfaces all0 (interfaces_of br) ∧
  match topo_get "internal_addr" br with
  | Some a => rewritten_addr n a = Ok cia
  | None => cia = cia0
  end.
Proof.
  unfold collect_border_router, interfaces_of, rewritten_addr. intros H.
  destruct br as [| | |s|xs|d]; simpl in H; try done.
  - destruct (str_contains "internal_addr" s); simpl in H; [done|].
    destruct (str_contains "interfaces" s); simpl in H; [done|]. by inv_Ok.
  - destruct (existsb _ xs); simpl in H; [done|].
    destruct (existsb _ xs); simpl in H; [done|]. by inv_Ok.
  - simpl. unfold dict_has in H.
    apply bind_Ok in H as (cia1 & Hc & H).
    apply bind_Ok in H as (all1 & Ha & H). inv_Ok. split.
    + destruct (dict_get "interfaces" d) as [v|]; simpl in Ha; [|by inv_Ok].
      inv_Ok. by apply py_items_Ok in Hx as ->.
    + destruct (dict_get "internal_addr" d) as [a|]; simpl in Hc; [|by inv_Ok].
      inv_Ok. by rewrite Hx.
Qed.

Lemma collect_border_routers_inv n brs cia0 all0 cia all :
  collect_border_routers n brs (cia0, all0) = Ok (cia, all) →
  all = add_interfaces all0 (declared_entries brs) ∧
  match last_internal_addr brs with
  | Some a => rewritten_addr n a = Ok cia
  | None => cia = cia0
  end.
Proof.
  unfold last_internal_addr, declared_entries. revert cia0 all0.
  induction brs as [|[name br] brs IH]; intros cia0 all0 H; simpl in H.
  - by inv_Ok.
  - apply bind_Ok in H as ([cia1 all1] & H1 & H).
    apply collect_border_router_inv in H1 as [-> Hc].
    apply IH in H as [-> Hl]. simpl. split; [by rewrite add_interfaces_app|].
    destruct (topo_get "internal_addr" br) as [a|].
    + rewrite last_cons. unfold omap in *. destruct (last _); [done|by subst].
    + subst. done.
Qed.

(** ** Strings: splitting and the two regular expressions *)

Lemma split_on_free c s : free_of c s = true → split_on c s = [s].
Proof.
  induction s as [|c' s IH]; simpl; [done|].
  destruct (Ascii.eqb c' c); simpl; [done|]. intros H. by rewrite IH.
Qed.

Lemma split_on_app c h rest :
  free_of c h = true → split_on c (h +:+ String c rest) = h :: split_on c rest.
Proof.
  induction h as [|c' h IH]; simpl.
  - by rewrite Ascii.eqb_refl.
  - destruct (Ascii.eqb c' c); simpl; [done|]. intros H. by rewrite IH.
Qed.

(** On [host:port] the second field of the split is the port. *)
Lemma split_host_port host port :
  free_of ":" host = true → free_of ":" port = true →
  py_split_colon_1 (JStr (host +:+ ":" +:+ port)) = Ok port.
Proof.
  intros Hh Hp. unfold py_split_colon_1.
  change (":" +:+ port) with (String ":" port).
  rewrite split_on_app by done. by rewrite split_on_free.
Qed.

Lemma span_digits_spec s ds rest :
  span_digits s = (ds, rest) →
  s = ds +:+ rest ∧ all_digits ds = true ∧
  match rest with String c _ => is_digit c = false | EmptyString => True end.
Proof.
  revert ds rest. induction s as [|c s IH]; intros ds rest; simpl.
  - by intros [= <- <-].
  - destruct (is_digit c) eqn:Ec.
    + destruct (span_digits s) as [ds' rest'] eqn:Es. intros [= <- <-].
      destruct (IH _ _ eq_refl) as (-> & Hd & Hr). simpl. by rewrite Ec.
    + intros [= <- <-]. simpl. by rewrite Ec.
Qed.

Lemma span_digits_app ds rest :
  all_digits ds = true →
  match rest with String c _ => is_digit c = false | EmptyString => True end →
  span_digits (ds +:+ rest) = (ds, rest).
Proof.
  intros Hd Hr. induction ds as [|c ds IH]; simpl in *.
  - destruct rest as [|c rest]; [done|]. simpl. by rewrite Hr.
  - apply andb_prop in Hd as [-> Hd]. by rewrite IH.
Qed.

Lemma str_app_cons c s t : String c s +:+ t = String c (s +:+ t).
Proof. reflexivity. Qed.

Lemma str_app_nil_r s : s +:+ "" = s.
Proof. induction s as [|c s IH]; [done|]. by rewrite str_app_cons, IH. Qed.

Lemma at_dollar_spec s :
  at_dollar s = true ↔ s = "" ∨ s = String newline "".
Proof.
  destruct s as [|c [|c' s]]; simpl.
  - split; auto.
  - rewrite Ascii.eqb_eq. unfold newline. split.
    + intros ->. by right.
    + by intros [?|[= ->]].
  - split; [done|]. by intros [?|?].
Qed.

(** The language of [(\d+)$] at the front of a string. *)
Lemma match_digits_dollar_spec s ds :
  match_digits_dollar s = Some ds ↔
  ds ≠ "" ∧ all_digits ds = true ∧ (s = ds ∨ s = ds +:+ String newline "").
Proof.
  unfold match_digits_dollar. split.
  - destruct (span_digits s) as [ds' rest] eqn:Es.
    apply span_digits_spec in Es as (-> & Hd & _).
    destruct (String.eqb_spec ds' ""); simpl; [done|].
    destruct (at_dollar rest) eqn:Ea; [|done]. intros [= <-].
    apply at_dollar_spec in Ea as [->| ->].
    + split_and!; try done. left. apply str_app_nil_r.
    + split_and!; try done. by right.
  - intros (Hne & Hd & [->| ->]).
    + rewrite <- (str_app_nil_r ds) at 1.
      rewrite span_digits_app by done.
      destruct (String.eqb_spec ds ""); simpl; done.
    + rewrite span_digits_app by done.
      destruct (String.eqb_spec ds ""); simpl; done.
Qed.

Lemma free_of_app c s1 s2 :
  free_of c (s1 +:+ s2) = free_of c s1 && free_of c s2.
Proof.
  induction s1 as [|c' s1 IH]; simpl; [done|]. rewrite IH. apply andb_assoc.
Qed.

Lemma all_digits_free c ds :
  is_digit c = false → all_digits ds = true → free_of c ds = true.
Proof.
  intros Hc. induction ds as [|c' ds IH]; simpl; [done|].
  intros [Hd Hds]%andb_prop. rewrite IH by done.
  destruct (Ascii.eqb_spec c' c); [congruence|done].
Qed.

Lemma free_of_digits_nl sep ds :
  is_digit sep = false → sep ≠ newline → all_digits ds = true →
  free_of sep (ds +:+ String newline "") = true.
Proof.
  intros Hsep Hnl Hd. rewrite free_of_app, all_digits_free by done.
  unfold free_of. destruct (Ascii.eqb_spec newline sep); [congruence|done].
Qed.

(** The language of [sep(\d+)$], for a separator that is neither a digit nor
    a line feed: the string ends in the separator and a non-empty run of
    digits, possibly followed by one line feed. *)
Lemma re_search_digits_spec sep s ds :
  is_digit sep = false → sep ≠ newline →
  re_search_digits sep s = Some ds ↔
  ds ≠ "" ∧ all_digits ds = true ∧
  ∃ pre, s = pre +:+ String sep ds ∨
         s = pre +:+ String sep (ds +:+ String newline "").
Proof.
  intros Hsep Hnl. split.
  - induction s as [|c s IH]; simpl; [done|].
    assert (Hrec : re_search_digits sep s = Some ds →
              ds ≠ "" ∧ all_digits ds = true ∧
              ∃ pre, String c s = pre +:+ String sep ds ∨
                     String c s = pre +:+ String sep (ds +:+ String newline "")).
    { intros (? & ? & pre & Hpre)%IH. split_and!; try done.
      exists (String c pre). rewrite !str_app_cons.
      destruct Hpre as [->| ->]; auto. }
    destruct (Ascii.eqb_spec c sep) as [->|Hne]; [|done].
    destruct (match_digits_dollar s) as [ds'|] eqn:Em; [|done].
    intros [= ->]. apply match_digits_dollar_spec in Em as (? & ? & Hs).
    split_and!; try done. exists "".
    destruct Hs as [->| ->]; auto.
  - intros (Hne & Hd & pre & Hs).
    pose proof (free_of_digits_nl sep ds Hsep Hnl Hd) as Hfree.
    pose proof (all_digits_free sep ds Hsep Hd) as Hfree'.
    revert s Hs. induction pre as [|c pre IH]; intros s Hs.
    + assert (Hm : match_digits_dollar
                (match s with String _ s' => s' | _ => "" end) = Some ds).
      { apply match_digits_dollar_spec. split_and!; try done.
        destruct Hs as [->| ->]; auto. }
      destruct Hs as [->| ->]; simpl in *; by rewrite Ascii.eqb_refl, Hm.
    + rewrite !str_app_cons in Hs. destruct s as [|c' s]; [by destruct Hs|].
      assert (c' = c ∧ (s = pre +:+ String sep ds ∨
                s = pre +:+ String sep (ds +:+ String newline ""))) as [-> Hs'].
      { destruct Hs as [Hs|Hs]; injection Hs as -> ->; auto. }
      simpl. rewrite (IH _ Hs').
      destruct (Ascii.eqb c sep); [|done].
      destruct (match_digits_dollar s) as [ds'|] eqn:Em; [|done].
      exfalso. apply match_digits_dollar_spec in Em as (_ & Hd' & Hs'').
      assert (free_of sep s = true) as Hf.
      { destruct Hs'' as [->| ->].
        - by apply all_digits_free.
        - by apply free_of_digits_nl. }
      destruct Hs' as [->| ->]; rewrite free_of_app in Hf; simpl in Hf;
        rewrite Ascii.eqb_refl in Hf; simpl in Hf;
        by rewrite andb_false_r in Hf.
Qed.

(** ** The interfaces before and after a call *)

Lemma update_topology_json_interfaces t n pa t' pa' ifs :
  update_topology_json t n pa = Ok (t', pa') →
  declared_interfaces t = Some ifs →
  ∃ ifs' c', rewrite_interfaces n ifs (∅, pa) = Ok (ifs', (c', pa')) ∧
             out_interfaces t' = Some ifs'.
Proof.
  intros H Hd. apply update_topology_json_inv in H as (_ & _ & _ & H).
  unfold declared_interfaces in Hd. unfold out_interfaces.
  destruct (topo_get "border_routers" t) as [v|]; [|done].
  destruct H as (brs & cia & all & ifs' & c' & -> & Hc & Hr & Ht).
  simpl. rewrite Ht. simpl.
  injection Hd as <-. apply collect_border_routers_inv in Hc as [-> _].
  by exists ifs', c'.
Qed.

Lemma next_index_empty pair : next_index ∅ pair = 0.
Proof. unfold next_index. by rewrite lookup_empty. Qed.

(** What a call does to the interface collected at position [i]. *)
Lemma update_topology_json_lookup t n pa t' pa' ifs i id data :
  update_topology_json t n pa = Ok (t', pa') →
  declared_interfaces t = Some ifs →
  ifs !! i = Some (id, data) →
  ∃ ifs', out_interfaces t' = Some ifs' ∧
    match link_peer data with
    | None => ifs' !! i = Some (id, data)
    | Some r =>
        ∃ p, port_assignments pa' !!
               link_key n r (Z.of_nat (count_links n (node_pair n r) (take i ifs)))
             = Some p ∧
             ifs' !! i = Some (id, with_port n r p data)
    end.
Proof.
  intros H Hd Hi.
  destruct (update_topology_json_interfaces _ _ _ _ _ _ H Hd)
    as (ifs' & c' & Hr & Ho).
  exists ifs'. split; [done|].
  pose proof (rewrite_interfaces_lookup _ _ _ _ _ _ _ _ _ _ Hr Hi) as Hl.
  destruct (link_peer data) as [r|]; [|done].
  by rewrite next_index_empty, Z.add_0_l in Hl.
Qed.

Lemma update_topology_json_later t n pa t' pa' :
  update_topology_json t n pa = Ok (t', pa') → pa_later pa pa'.
Proof.
  intros H. apply update_topology_json_inv in H as (_ & _ & _ & H).
  destruct (topo_get "border_routers" t) as [v|].
  - destruct H as (brs & cia & all & ifs' & c' & -> & Hc & Hr & _).
    by eapply rewrite_interfaces_later.
  - destruct H as [_ ->]. apply rtc_refl.
Qed.

Lemma dict_get_set_if_has k v d k' :
  dict_get k' (set_if_has k v d)
  = if decide (k' = k) then (if dict_has k d then Some v else None)
    else dict_get k' d.
Proof.
  unfold set_if_has. destruct (dict_has k d) eqn:E.
  - apply dict_get_set.
  - case_decide; [|done]. subst. unfold dict_has in E.
    by destruct (dict_get k d).
Qed.




Lemma count_links_app n pair l1 l2 :
  count_links n pair (l1 ++ l2)
  = (count_links n pair l1 + count_links n pair l2)%nat.
Proof.
  induction l1 as [|[id data] l1 IH]; simpl; [done|].
  destruct (link_peer data) as [r|]; [|done].
  case_decide; simpl; by rewrite IH.
Qed.



Lemma get_port_fresh pa a b i :
  port_assignments pa !! link_key a b i = None →
  (get_port pa a b i).1 = next_port pa ∧
  next_port (get_port pa a b i).2 = next_port pa + 1.
Proof. intros H. unfold get_port. by rewrite H. Qed.

(** ** Peer identifiers that yield no NodeId *)

Lemma extract_node_from_isd_as_None s :
  extract_node_from_isd_as (JStr s) = Ok None ↔ ¬ ends_in_number ":" s.
Proof.
  unfold extract_node_from_isd_as, ends_in_number.
  destruct (re_search_digits ":" s) as [ds|] eqn:E.
  - apply re_search_digits_spec in E as (? & ? & pre & ?); [|done..].
    split; [done|]. intros []. by exists pre, ds.
  - split; [|done]. intros _ (pre & ds & ? & ? & Hs).
    assert (re_search_digits ":" s = Some ds) as E'; [|congruence].
    apply re_search_digits_spec; [done..|]. split_and!; try done. by exists pre.
Qed.




(** ** The service loops *)



Lemma rewrite_service_addr_inv n d v' :
  rewrite_service_addr n (JObj d) = Ok v' →
  match dict_get "addr" d with
  | Some a => ∃ port, py_split_colon_1 a = Ok port ∧
                v' = JObj (dict_set "addr" (JStr (addr_fmt (node_to_ip n) port)) d)
  | None => v' = JObj d
  end.
Proof.
  unfold rewrite_service_addr. simpl. unfold dict_has.
  destruct (dict_get "addr" d) as [a|]; simpl; [|by intros [= <-]].
  intros H. apply bind_Ok in H as (port & Hp & H). inv_Ok. by exists port.
Qed.

(** ** The consolidated border router *)

Lemma rewrite_interfaces_get n ifs st ifs' st' id :
  rewrite_interfaces n ifs st = Ok (ifs', st') →
  match dict_get id ifs with
  | Some data =>
      ∃ data', dict_get id ifs' = Some data' ∧
        (data' = data ∨
         ∃ r p, link_peer data = Some r ∧ data' = with_port n r p data)
  | None => dict_get id ifs' = None
  end.
Proof.
  revert st ifs'. induction ifs as [|[id0 data0] ifs IH]; intros st ifs' H.
  - simpl in H. by inv_Ok.
  - apply rewrite_interfaces_cons_Ok in H as (data' & [c1 pa1] & ifs1 & H1 & H2 & ->).
    simpl. destruct (String.eqb_spec id id0) as [->|Hne]; [|by eapply IH].
    exists data'. split; [done|]. destruct st as [c pa].
    destruct (link_peer data0) as [r|] eqn:Ep.
    + destruct (rewrite_interface_link _ _ _ _ _ _ _ Ep H1) as [-> _].
      right. by eexists _, _.
    + destruct (rewrite_interface_skip _ _ _ _ _ Ep H1) as [-> _]. by left.
Qed.


(** ** The service configuration files *)

Lemma set_in_section_inv config sect key x config' :
  set_in_section config sect key x = Ok config' →
  ∃ tbl, dict_get sect config = Some (JObj tbl) ∧
         config' = dict_set sect (JObj (dict_set key x tbl)) config.
Proof.
  unfold set_in_section. simpl. intros H.
  destruct (dict_get sect config) as [v|]; simpl in H; [|done].
  apply bind_Ok in H as (tbl' & Hs & H). inv_Ok.
  apply py_setitem_Ok in Hs as (tbl & -> & ->). by exists tbl.
Qed.

Lemma set_in_section_has config sect key x config' k :
  set_in_section config sect key x = Ok config' →
  dict_has k config' = dict_has k config.
Proof.
  intros (tbl & Hg & ->)%set_in_section_inv. rewrite dict_has_set.
  case_decide; [|done]. subst. unfold dict_has. by rewrite Hg.
Qed.

Lemma set_in_section_get config sect key x config' k :
  set_in_section config sect key x = Ok config' → k ≠ sect →
  dict_get k config' = dict_get k config.
Proof.
  intros (tbl & Hg & ->)%set_in_section_inv Hne. by rewrite dict_get_set_ne.
Qed.

Lemma set_if_section_has config sect key x config' k :
  set_if_section config sect key x = Ok config' →
  dict_has k config' = dict_has k config.
Proof.
  unfold set_if_section. destruct (dict_has sect config).
  - apply set_in_section_has.
  - by intros [= <-].
Qed.

Lemma set_if_section_get config sect key x config' k :
  set_if_section config sect key x = Ok config' → k ≠ sect →
  dict_get k config' = dict_get k config.
Proof.
  unfold set_if_section. destruct (dict_has sect config).
  - apply set_in_section_get.
  - by intros [= <-].
Qed.

Lemma remove_section_has sect config k :
  dict_has k (remove_section sect config)
  = if decide (k = sect) then false else dict_has k config.
Proof.
  unfold remove_section. destruct (dict_has sect config) eqn:E.
  - apply dict_has_del.
  - case_decide; [by subst|done].
Qed.

Lemma remove_section_get sect config k :
  k ≠ sect → dict_get k (remove_section sect config) = dict_get k config.
Proof.
  intros Hne. unfold remove_section. destruct (dict_has sect config); [|done].
  rewrite dict_get_del. by case_decide.
Qed.

(** [if 'api' in config: config['api']['addr'] = ...], the last step of the
    three rewriters. *)
Lemma set_api_addr_inv config addr config' :
  (if dict_has "api" config
   then set_in_section config "api" "addr" addr else Ok config) = Ok config' →
  (∀ k, dict_has k config' = dict_has k config) ∧
  (∀ k, k ≠ "api" → dict_get k config' = dict_get k config) ∧
  (dict_has "api" config = true →
   ∃ api, dict_get "api" config = Some (JObj api) ∧
          dict_get "api" config' = Some (JObj (dict_set "addr" addr api))).
Proof.
  destruct (dict_has "api" config) eqn:E.
  - intros H. split_and!.
    + intros k. by eapply set_in_section_has.
    + intros k Hk. by eapply set_in_section_get.
    + intros _. apply set_in_section_inv in H as (api & Hg & ->).
      exists api. by rewrite dict_get_set_eq.
  - by intros [= <-].
Qed.

Lemma update_br_toml_inv config n config' :
  update_br_toml config n = Ok config' →
  dict_has "metrics" config' = false ∧
  (dict_has "api" config = true →
   ∃ api, dict_get "api" config = Some (JObj api) ∧
          dict_get "api" config'
          = Some (JObj (dict_set "addr" (JStr (addr_fmt (node_to_ip n) "31442")) api))).
Proof.
  unfold update_br_toml. intros H. apply bind_Ok in H as (c1 & H1 & H).
  apply set_api_addr_inv in H as (Hhas & Hget & Hapi).
  assert (Hc1 : (∀ k, dict_has k c1 = dict_has k (remove_section "metrics" config))
                ∧ dict_get "api" c1 = dict_get "api" (remove_section "metrics" config)).
  { destruct (dict_has "general" (remove_section "metrics" config)); [|by inv_Ok].
    apply bind_Ok in H1 as (c0 & H0 & H1). split.
    - intros k. rewrite (set_in_section_has _ _ _ _ _ k H1).
      by rewrite (set_in_section_has _ _ _ _ _ k H0).
    - rewrite (set_in_section_get _ _ _ _ _ "api" H1) by done.
      by rewrite (set_in_section_get _ _ _ _ _ "api" H0). }
  destruct Hc1 as [Hh1 Hg1]. split.
  - rewrite Hhas, Hh1, remove_section_has. by case_decide.
  - intros Ha. rewrite Hg1, remove_section_get in Hapi by done.
    apply Hapi. rewrite Hh1, remove_section_has. by case_decide.
Qed.

Lemma update_cs_toml_inv config n config' :
  update_cs_toml config n = Ok config' →
  dict_has "metrics" config' = false ∧ dict_has "tracing" config' = false ∧
  (dict_has "api" config = true →
   ∃ api, dict_get "api" config = Some (JObj api) ∧
          dict_get "api" config'
          = Some (JObj (dict_set "addr" (JStr (addr_fmt (node_to_ip n) "31152")) api))).
Proof.
  unfold update_cs_toml. intros H.
  apply bind_Ok in H as (c1 & H1 & H). apply bind_Ok in H as (c2 & H2 & H).
  apply bind_Ok in H as (c3 & H3 & H). apply bind_Ok in H as (c4 & H4 & H).
  apply set_api_addr_inv in H as (Hhas & Hget & Hapi).
  assert (Hh : ∀ k, dict_has k config'
            = dict_has k (remove_section "tracing" (remove_section "metrics" config))).
  { intros k. rewrite Hhas, (set_if_section_has _ _ _ _ _ k H4).
    rewrite (set_if_section_has _ _ _ _ _ k H3), (set_if_section_has _ _ _ _ _ k H2).
    by rewrite (set_if_section_has _ _ _ _ _ k H1). }
  split_and!.
  - rewrite Hh, !remove_section_has. by repeat case_decide.
  - rewrite Hh, !remove_section_has. by repeat case_decide.
  - intros Ha.
    rewrite (set_if_section_get _ _ _ _ _ "api" H4) in Hapi by done.
    rewrite (set_if_section_get _ _ _ _ _ "api" H3) in Hapi by done.
    rewrite (set_if_section_get _ _ _ _ _ "api" H2) in Hapi by done.
    rewrite (set_if_section_get _ _ _ _ _ "api" H1) in Hapi by done.
    rewrite !remove_section_get in Hapi by done. apply Hapi.
    rewrite (set_if_section_has _ _ _ _ _ "api" H4).
    rewrite (set_if_section_has _ _ _ _ _ "api" H3), (set_if_section_has _ _ _ _ _ "api" H2).
    rewrite (set_if_section_has _ _ _ _ _ "api" H1), !remove_section_has.
    by repeat case_decide.
Qed.

Lemma update_sd_toml_inv config n config' :
  update_sd_toml config n = Ok config' →
  dict_has "metrics" config' = false ∧ dict_has "tracing" config' = false ∧
  (dict_has "api" config = true →
   ∃ api, dict_get "api" config = Some (JObj api) ∧
          dict_get "api" config'
          = Some (JObj (dict_set "addr" (JStr (addr_fmt (node_to_ip n) "30955")) api))) ∧
  (dict_has "sd" config = true →
   ∃ sd, dict_get "sd" config = Some (JObj sd) ∧
         dict_get "sd" config'
         = Some (JObj (dict_set "address" (JStr (addr_fmt (node_to_ip n) "30255")) sd))).
Proof.
  unfold update_sd_toml. intros H.
  apply bind_Ok in H as (c1 & H1 & H). apply bind_Ok in H as (c2 & H2 & H).
  apply bind_Ok in H as (c3 & H3 & H). apply bind_Ok in H as (c4 & H4 & H).
  apply set_api_addr_inv in H as (Hhas & Hget & Hapi).
  assert (Hh3 : ∀ k, dict_has k c3
            = dict_has k (remove_section "tracing" (remove_section "metrics" config))).
  { intros k. rewrite (set_if_section_has _ _ _ _ _ k H3).
    rewrite (set_if_section_has _ _ _ _ _ k H2).
    by rewrite (set_if_section_has _ _ _ _ _ k H1). }
  assert (Hg3 : ∀ k, k ≠ "general" → k ≠ "trust_db" → k ≠ "path_db" →
            k ≠ "metrics" → k ≠ "tracing" → dict_get k c3 = dict_get k config).
  { intros k ?????. rewrite (set_if_section_get _ _ _ _ _ k H3) by done.
    rewrite (set_if_section_get _ _ _ _ _ k H2) by done.
    rewrite (set_if_section_get _ _ _ _ _ k H1) by done.
    by rewrite !remove_section_get. }
  assert (H4' : (∀ k, dict_has k c4 = dict_has k c3) ∧
            (∀ k, k ≠ "sd" → dict_get k c4 = dict_get k c3) ∧
            (dict_has "sd" c3 = true →
             ∃ sd, dict_get "sd" c3 = Some (JObj sd) ∧
               dict_get "sd" c4
               = Some (JObj (dict_set "address" (JStr (addr_fmt (node_to_ip n) "30255")) sd)))).
  { destruct (dict_has "sd" c3) eqn:E; [|by inv_Ok]. split_and!.
    - intros k. by eapply set_in_section_has.
    - intros k Hk. by eapply set_in_section_get.
    - intros _. apply set_in_section_inv in H4 as (sd & Hg & ->).
      exists sd. by rewrite dict_get_set_eq. }
  destruct H4' as (Hh4 & Hg4 & Hsd). split_and!.
  - rewrite Hhas, Hh4, Hh3, !remove_section_has. by repeat case_decide.
  - rewrite Hhas, Hh4, Hh3, !remove_section_has. by repeat case_decide.
  - intros Ha. rewrite Hg4, Hg3 in Hapi by done. apply Hapi.
    rewrite Hh4, Hh3, !remove_section_has. by repeat case_decide.
  - intros Hs. destruct Hsd as (sd & Hs1 & Hs2).
    { rewrite Hh3, !remove_section_has. by repeat case_decide. }
    exists sd. split; [by rewrite <- Hg3|by rewrite Hget].
Qed.

(** ** The node mapping *)

Global Instance tuple_le_total : Total tuple_le.
Proof.
  intros [a s] [b t]. unfold tuple_le. simpl.
  destruct (Z.lt_trichotomy a b) as [?|[->|?]]; [auto| |auto].
  destruct (total String.le s t); auto.
Qed.

Global Instance tuple_le_trans : Transitive tuple_le.
Proof.
  intros [a s] [b t] [c u]. unfold tuple_le. simpl.
  intros [?|[-> Hst]] [?|[-> Htu]]; [left; lia..|].
  right. split; [done|]. by etrans.
Qed.

Global Instance tuple_le_antisym : AntiSymm (=) tuple_le.
Proof.
  intros [a s] [b t]. unfold tuple_le. simpl.
  intros [?|[-> Hst]] [?|[? Hts]]; try lia.
  f_equal. by apply (anti_symm String.le).
Qed.


Lemma StronglySorted_sublist {A : Type} (R : relation A) (k l : list A) :
  sublist k l → StronglySorted R l → StronglySorted R k.
Proof.
  induction 1 as [|x k l Hs IH|x k l Hs IH]; intros Hl.
  - constructor.
  - apply StronglySorted_inv in Hl as [Hl Hx]. constructor; [by apply IH|].
    rewrite Forall_forall in Hx |- *. intros y Hy. apply Hx.
    by apply (sublist_subseteq _ _ Hs).
  - apply StronglySorted_inv in Hl as [Hl _]. by apply IH.
Qed.

Lemma omap_sublist {A B : Type} (f : A → option B) (k l : list A) :
  sublist k l → sublist (omap f k) (omap f l).
Proof.
  induction 1 as [|x k l Hs IH|x k l Hs IH]; simpl.
  - constructor.
  - destruct (f x); [by constructor|done].
  - destruct (f x); [by constructor|done].
Qed.

Lemma fill_mapping_cons num name sorted acc :
  fill_mapping ((num, name) :: sorted) acc
  = fill_mapping sorted (dict_set name ("as_" +:+ pretty num) acc).
Proof. reflexivity. Qed.

Lemma fill_mapping_keys sorted acc :
  ∃ ks, dict_keys (fill_mapping sorted acc) = dict_keys acc ++ ks ∧
        sublist ks sorted.*2.
Proof.
  revert acc. induction sorted as [|[num name] sorted IH]; intros acc.
  - exists []. by rewrite app_nil_r.
  - rewrite fill_mapping_cons.
    destruct (IH (dict_set name ("as_" +:+ pretty num) acc)) as (ks & -> & Hs).
    destruct (dict_has name acc) eqn:E.
    + rewrite dict_keys_set_old by done. exists ks. split; [done|].
      by apply sublist_cons.
    + rewrite dict_keys_set_new by done. exists (name :: ks).
      rewrite <- app_assoc. split; [done|]. by apply sublist_skip.
Qed.


Lemma fill_mapping_NoDup sorted acc :
  NoDup (dict_keys acc) → NoDup (dict_keys (fill_mapping sorted acc)).
Proof.
  revert acc. induction sorted as [|[num name] sorted IH]; intros acc H; [done|].
  rewrite fill_mapping_cons. apply IH. by apply dict_set_NoDup.
Qed.

Lemma fill_mapping_values (P : string → string → Prop) sorted acc :
  Forall (λ p, P p.2 ("as_" +:+ pretty p.1)) sorted →
  (∀ k v, dict_get k acc = Some v → P k v) →
  ∀ k v, dict_get k (fill_mapping sorted acc) = Some v → P k v.
Proof.
  revert acc. induction sorted as [|[num name] sorted IH]; intros acc Hs Hacc; [done|].
  apply Forall_cons in Hs as [Hp Hs]. simpl in Hp.
  rewrite fill_mapping_cons.
  apply IH; [done|]. intros k v. rewrite dict_get_set.
  case_decide; [|by apply Hacc]. subst. by intros [= <-].
Qed.

Lemma build_as_to_node_mapping_eq entries :
  build_as_to_node_mapping entries
  = fill_mapping (merge_sort tuple_le (as_dirs_with_numbers entries)) [].
Proof. done. Qed.

Lemma as_dirs_with_numbers_elem entries num name :
  (num, name) ∈ as_dirs_with_numbers entries ↔
  mkEntry name true ∈ entries ∧ String.prefix "AS" name = true ∧
  extract_as_number name = Some num.
Proof.
  unfold as_dirs_with_numbers. rewrite list_elem_of_omap. split.
  - intros ([nm dir] & Hin & Hx). simpl in Hx.
    apply list_elem_of_In, filter_In in Hin as [Hin Hf]. simpl in Hf.
    apply andb_prop in Hf as [-> Hpre].
    destruct (extract_as_number nm) as [num'|] eqn:E; [|done].
    injection Hx as -> ->. by apply list_elem_of_In in Hin.
  - intros (Hin & Hpre & Hx). exists (mkEntry name true). simpl. split.
    + apply list_elem_of_In, filter_In. simpl. rewrite Hpre.
      split; [by apply list_elem_of_In|done].
    + by rewrite Hx.
Qed.



Lemma sorted_numbers entries :
  let sorted := merge_sort tuple_le (as_dirs_with_numbers entries) in
  StronglySorted Z.le sorted.*1 ∧
  Forall (λ p, extract_as_number p.2 = Some p.1) sorted.
Proof.
  simpl. split.
  - apply (StronglySorted_fmap fst tuple_le Z.le).
    + intros [a s] [b t] [?|[? _]]; simpl in *; lia.
    + apply StronglySorted_merge_sort; apply _.
  - apply Forall_forall. intros [num name] Hin.
    rewrite merge_sort_Permutation in Hin.
    by apply as_dirs_with_numbers_elem in Hin as (_ & _ & ?).
Qed.

(** ** Completion on well-formed documents *)

Lemma split_on_nonempty c s : split_on c s ≠ [].
Proof.
  destruct s as [|c' s]; simpl; [done|].
  destruct (Ascii.eqb c' c); [done|]. by destruct (split_on c s).
Qed.

Lemma split_on_second c s :
  free_of c s = false → is_Some (split_on c s !! 1%nat).
Proof.
  induction s as [|c' s IH]; simpl; [done|].
  destruct (Ascii.eqb c' c); simpl.
  - intros _. pose proof (split_on_nonempty c s).
    destruct (split_on c s); [done|]. by eexists.
  - intros H. apply IH in H. destruct (split_on c s) as [|hd tl]; [|done].
    by destruct H.
Qed.

Lemma rewritten_addr_total n a :
  wf_addr a = true → ∃ a', rewritten_addr n a = Ok a'.
Proof.
  unfold rewritten_addr. destruct a as [| | |s| |]; try done. simpl.
  intros H%negb_true_iff. apply (split_on_second ":") in H as [p ->].
  by eexists.
Qed.

Lemma rewrite_service_addr_total n v :
  wf_service v = true → ∃ v', rewrite_service_addr n v = Ok v'.
Proof.
  destruct v as [| | | | |d]; try done. unfold wf_service, field_ok.
  unfold rewrite_service_addr. simpl. unfold dict_has.
  destruct (dict_get "addr" d) as [a|]; simpl; [|by eexists].
  intros Ha. destruct (rewritten_addr_total n a Ha) as [a' Ha'].
  unfold rewritten_addr in Ha'. apply bind_Ok in Ha' as (port & -> & _).
  simpl. by eexists.
Qed.

Lemma for_items_total body l :
  forallb (λ e, match body e.2 with Ok _ => true | Raise _ => false end) l = true →
  ∃ l', for_items body l = Ok l'.
Proof.
  induction l as [|[k v] l IH]; simpl; [by eexists|].
  intros [Hv Hl]%andb_prop. destruct (body v) as [v'|]; [|done].
  destruct (IH Hl) as [l' ->]. simpl. by eexists.
Qed.

Lemma forallb_impl {A : Type} (p q : A → bool) (l : list A) :
  (∀ x, p x = true → q x = true) → forallb p l = true → forallb q l = true.
Proof.
  intros Hpq. induction l as [|x l IH]; simpl; [done|].
  intros [Hx Hl]%andb_prop. by rewrite (Hpq x Hx), IH.
Qed.

Lemma update_services_total table n d :
  field_ok table (table_of wf_service) d = true →
  ∃ d', update_services table n (JObj d) = Ok (JObj d') ∧
        ∀ k, k ≠ table → dict_get k d' = dict_get k d.
Proof.
  unfold field_ok, update_services. simpl. unfold dict_has.
  destruct (dict_get table d) as [v|]; simpl; [|by eexists].
  destruct v as [| | | | |svcs]; try done. simpl. intros Hs.
  destruct (for_items_total (rewrite_service_addr n) svcs) as [svcs' ->].
  { eapply forallb_impl; [|exact Hs]. intros [k v] Hv. simpl in *.
    by destruct (rewrite_service_addr_total n v Hv) as [v' ->]. }
  simpl. eexists. split; [done|]. intros k Hk. by rewrite dict_get_set_ne.
Qed.

Lemma remove_marker_total d :
  ∃ d', remove_marker (JObj d) = Ok (JObj d') ∧
        ∀ k, k ≠ "test_dispatcher" → dict_get k d' = dict_get k d.
Proof.
  unfold remove_marker. simpl. destruct (dict_has "test_dispatcher" d) eqn:E; simpl.
  - eexists. split; [done|]. intros k Hk.
    rewrite dict_get_del. by case_decide.
  - by eexists.
Qed.

Lemma collect_border_router_total n st br :
  wf_border_router br = true → ∃ st', collect_border_router n st br = Ok st'.
Proof.
  destruct st as [cia all]. destruct br as [| | | | |d]; try done.
  unfold wf_border_router, field_ok, collect_border_router. simpl. unfold dict_has.
  intros [Ha Hi]%andb_prop.
  destruct (dict_get "internal_addr" d) as [a|]; simpl.
  - destruct (rewritten_addr_total n a Ha) as [a' Ha'].
    unfold rewritten_addr in Ha'. apply bind_Ok in Ha' as (port & -> & _). simpl.
    destruct (dict_get "interfaces" d) as [[| | | | |ifs]|]; try done; by eexists.
  - destruct (dict_get "interfaces" d) as [[| | | | |ifs]|]; try done; by eexists.
Qed.

Lemma collect_border_routers_total n brs st :
  forallb (λ e, wf_border_router e.2) brs = true →
  ∃ st', collect_border_routers n brs st = Ok st'.
Proof.
  revert st. induction brs as [|[name br] brs IH]; intros st; simpl; [by eexists|].
  intros [Hb Hl]%andb_prop.
  destruct (collect_border_router_total n st br Hb) as [st' ->]. simpl. by apply IH.
Qed.

Lemma dict_set_forallb (p : json → bool) k v d :
  p v = true → forallb (λ e, p e.2) d = true →
  forallb (λ e, p e.2) (dict_set k v d) = true.
Proof.
  intros Hv. induction d as [|[k0 v0] d IH]; simpl; [by rewrite Hv|].
  intros [H0 Hd]%andb_prop. destruct (String.eqb k k0); simpl.
  - by rewrite Hv, Hd.
  - by rewrite H0, IH.
Qed.

Lemma add_interfaces_forallb (p : json → bool) all l :
  forallb (λ e, p e.2) all = true → forallb (λ e, p e.2) l = true →
  forallb (λ e, p e.2) (add_interfaces all l) = true.
Proof.
  revert all. induction l as [|[id data] l IH]; intros all Ha Hl; [done|].
  simpl in Hl. apply andb_prop in Hl as [Hd Hl].
  rewrite add_interfaces_cons. apply IH; [|done]. by apply dict_set_forallb.
Qed.

Lemma declared_entries_wf brs :
  forallb (λ e, wf_border_router e.2) brs = true →
  forallb (λ e, wf_interface e.2) (declared_entries brs) = true.
Proof.
  unfold declared_entries. induction brs as [|[name br] brs IH]; simpl; [done|].
  intros [Hb Hl]%andb_prop. rewrite forallb_app, (IH Hl), andb_true_r.
  destruct br as [| | | | |d]; try done. unfold interfaces_of. simpl.
  unfold wf_border_router, field_ok in Hb. apply andb_prop in Hb as [_ Hi].
  by destruct (dict_get "interfaces" d) as [[| | | | |ifs]|].
Qed.

Lemma set_local_remote_total {B : Type} n r p u (k : json → result B) :
  is_table u = true →
  bind (py_in "local" u) (λ has_local : bool,
    bind (if has_local
          then py_setitem u "local" (JStr (addr_fmt n (pretty p)))
          else Ok u) (λ u1,
      bind (py_in "remote" u1) (λ has_remote : bool,
        bind (if has_remote
              then py_setitem u1 "remote" (JStr (addr_fmt r (pretty p)))
              else Ok u1) k))) = k (new_underlay n r p u).
Proof.
  destruct u as [| | | | |d]; try done. intros _. simpl.
  unfold set_if_has. destruct (dict_has "local" d); simpl.
  - by destruct (dict_has "remote" _).
  - by destruct (dict_has "remote" d).
Qed.

Lemma rewrite_interface_total n data st :
  wf_interface data = true → ∃ r, rewrite_interface n data st = Ok r.
Proof.
  destruct st as [c pa]. destruct data as [| | | | |d]; try done.
  unfold wf_interface, field_ok, rewrite_interface. simpl. unfold dict_has.
  intros [Hu Hi]%andb_prop.
  destruct (dict_get "underlay" d) as [u|]; simpl; [|by eexists].
  destruct (dict_get "isd_as" d) as [[| | |s| |]|]; try done; simpl; [|by eexists].
  destruct (re_search_digits ":" s) as [ds|]; simpl; [|by eexists].
  destruct (get_port pa n (int_of_digits ds) _) as [p pa'].
  rewrite set_local_remote_total by done. simpl. by eexists.
Qed.

Lemma rewrite_interfaces_total n ifs st :
  forallb (λ e, wf_interface e.2) ifs = true →
  ∃ r, rewrite_interfaces n ifs st = Ok r.
Proof.
  revert st. induction ifs as [|[id data] ifs IH]; intros st; simpl; [by eexists|].
  intros [Hd Hl]%andb_prop.
  destruct (rewrite_interface_total n data st Hd) as [[data' st'] ->]. simpl.
  destruct (IH st' Hl) as [[ifs' st''] ->]. simpl. by eexists.
Qed.

Lemma consolidate_border_routers_total d n pa :
  field_ok "border_routers" (table_of wf_border_router) d = true →
  ∃ r, consolidate_border_routers (JObj d) n pa = Ok r.
Proof.
  unfold field_ok, consolidate_border_routers. simpl. unfold dict_has.
  destruct (dict_get "border_routers" d) as [v|]; simpl; [|by eexists].
  destruct v as [| | | | |brs]; try done. simpl. intros Hb.
  destruct (collect_border_routers_total n brs (JNull, []) Hb) as [[cia all] Hc].
  rewrite Hc. simpl. apply collect_border_routers_inv in Hc as [-> _].
  destruct (rewrite_interfaces_total n (add_interfaces [] (declared_entries brs)) (∅, pa))
    as [[ifs' [c' pa']] ->].
  { apply add_interfaces_forallb; [done|]. by apply declared_entries_wf. }
  simpl. by eexists.
Qed.

(** On a well-formed descriptor [update_topology_json] completes. *)
Lemma update_topology_json_total t n pa :
  wf_topology t = true → ∃ t' pa', update_topology_json t n pa = Ok (t', pa').
Proof.
  destruct t as [| | | | |d]; try done. unfold wf_topology, field_ok.
  intros [[Hc Hd]%andb_prop Hb]%andb_prop.
  destruct (remove_marker_total d) as (d1 & H1 & Hg1).
  destruct (update_services_total "control_service" n d1) as (d2 & H2 & Hg2).
  { unfold field_ok. by rewrite Hg1. }
  destruct (update_services_total "discovery_service" n d2) as (d3 & H3 & Hg3).
  { unfold field_ok. by rewrite Hg2, Hg1. }
  destruct (consolidate_border_routers_total d3 n pa) as [[t' pa'] H4].
  { unfold field_ok. by rewrite Hg3, Hg2, Hg1. }
  exists t', pa'. unfold update_topology_json.
  rewrite H1. simpl. rewrite H2. simpl. rewrite H3. simpl. exact H4.
Qed.

Lemma field_ok_set k p d k' v :
  (k' = k → p v = true) → field_ok k p d = true →
  field_ok k p (dict_set k' v d) = true.
Proof.
  unfold field_ok. rewrite dict_get_set. case_decide; auto.
Qed.

Lemma wf_config_set sects d k v :
  is_table v = true → wf_config sects d = true →
  wf_config sects (dict_set k v d) = true.
Proof.
  unfold wf_config. intros Hv. apply forallb_impl. intros s Hs.
  by apply field_ok_set.
Qed.

Lemma wf_config_remove sects sect d :
  wf_config sects d = true → wf_config sects (remove_section sect d) = true.
Proof.
  unfold wf_config. apply forallb_impl. intros s. unfold field_ok.
  destruct (decide (s = sect)) as [->|Hne].
  - unfold remove_section. destruct (dict_has sect d); [|done].
    rewrite dict_get_del. by case_decide.
  - by rewrite remove_section_get.
Qed.

Lemma wf_config_elem sects d s :
  wf_config sects d = true → s ∈ sects → field_ok s is_table d = true.
Proof.
  unfold wf_config. rewrite forallb_forall. intros H Hin.
  apply H. by apply list_elem_of_In.
Qed.

Lemma set_in_section_total sects config sect key x :
  wf_config sects config = true → sect ∈ sects →
  dict_has sect config = true →
  ∃ config', set_in_section config sect key x = Ok config' ∧
             wf_config sects config' = true.
Proof.
  intros Hwf Hin Hhas. pose proof (wf_config_elem _ _ _ Hwf Hin) as Hs.
  unfold field_ok, dict_has in *. unfold set_in_section. simpl.
  destruct (dict_get sect config) as [[| | | | |tbl]|]; try done. simpl.
  eexists. split; [done|]. by apply wf_config_set.
Qed.

Lemma set_if_section_total sects config sect key x :
  wf_config sects config = true → sect ∈ sects →
  ∃ config', set_if_section config sect key x = Ok config' ∧
             wf_config sects config' = true.
Proof.
  intros Hwf Hin. unfold set_if_section.
  destruct (dict_has sect config) eqn:E; [|by eexists].
  by eapply set_in_section_total.
Qed.

Ltac in_list := repeat first [by left | right].

Lemma update_br_toml_total config n :
  wf_config ["general"; "api"] config = true →
  ∃ config', update_br_toml config n = Ok config'.
Proof.
  intros Hwf. unfold update_br_toml.
  apply (wf_config_remove _ "metrics") in Hwf.
  set (c0 := remove_section "metrics" config) in *.
  assert (∃ c1, (if dict_has "general" c0
                 then bind (set_in_section c0 "general" "config_dir" (JStr "/etc/scion/"))
                        (λ c, set_in_section c "general" "id" (JStr "br"))
                 else Ok c0) = Ok c1 ∧ wf_config ["general"; "api"] c1 = true)
    as (c1 & -> & Hwf1).
  { destruct (dict_has "general" c0) eqn:E; [|by eexists].
    destruct (set_in_section_total _ c0 "general" "config_dir" (JStr "/etc/scion/") Hwf)
      as (c & Hc & Hwfc); [in_list|done|].
    rewrite Hc. simpl.
    apply (set_in_section_total _ c "general" "id" (JStr "br") Hwfc); [in_list|].
    by rewrite (set_in_section_has _ _ _ _ _ "general" Hc). }
  simpl. destruct (dict_has "api" c1) eqn:E; [|by eexists].
  destruct (set_in_section_total _ c1 "api" "addr"
              (JStr (addr_fmt (node_to_ip n) "31442")) Hwf1) as (c & -> & _);
    [in_list|done|]. by eexists.
Qed.

Lemma update_cs_toml_total config n :
  wf_config ["general"; "trust_db"; "beacon_db"; "path_db"; "api"] config = true →
  ∃ config', update_cs_toml config n = Ok config'.
Proof.
  intros Hwf. unfold update_cs_toml.
  apply (wf_config_remove _ "metrics"), (wf_config_remove _ "tracing") in Hwf.
  destruct (set_if_section_total _ _ "general" "config_dir" (JStr "/etc/scion/") Hwf)
    as (c1 & -> & Hwf1); [in_list|]. simpl.
  destruct (set_if_section_total _ _ "trust_db" "connection" (JStr "/etc/scion/trust.db") Hwf1)
    as (c2 & -> & Hwf2); [in_list|]. simpl.
  destruct (set_if_section_total _ _ "beacon_db" "connection" (JStr "/etc/scion/beacon.db") Hwf2)
    as (c3 & -> & Hwf3); [in_list|]. simpl.
  destruct (set_if_section_total _ _ "path_db" "connection" (JStr "/etc/scion/path.db") Hwf3)
    as (c4 & -> & Hwf4); [in_list|]. simpl.
  destruct (dict_has "api" c4) eqn:E; [|by eexists].
  destruct (set_in_section_total _ c4 "api" "addr"
              (JStr (addr_fmt (node_to_ip n) "31152")) Hwf4) as (c & -> & _);
    [in_list|done|]. by eexists.
Qed.

Lemma update_sd_toml_total config n :
  wf_config ["general"; "trust_db"; "path_db"; "sd"; "api"] config = true →
  ∃ config', update_sd_toml config n = Ok config'.
Proof.
  intros Hwf. unfold update_sd_toml.
  apply (wf_config_remove _ "metrics"), (wf_config_remove _ "tracing") in Hwf.
  destruct (set_if_section_total _ _ "general" "config_dir" (JStr "/etc/scion/") Hwf)
    as (c1 & -> & Hwf1); [in_list|]. simpl.
  destruct (set_if_section_total _ _ "trust_db" "connection" (JStr "/etc/scion/trust.db") Hwf1)
    as (c2 & -> & Hwf2); [in_list|]. simpl.
  destruct (set_if_section_total _ _ "path_db" "connection" (JStr "/etc/scion/path.db") Hwf2)
    as (c3 & -> & Hwf3); [in_list|]. simpl.
  destruct (set_if_section_total _ c3 "sd" "address"
              (JStr (addr_fmt (node_to_ip n) "30255")) Hwf3) as (c4 & Hc4 & Hwf4);
    [in_list|]. unfold set_if_section in Hc4. rewrite Hc4. simpl.
  destruct (dict_has "api" c4) eqn:E; [|by eexists].
  destruct (set_in_section_total _ c4 "api" "addr"
              (JStr (addr_fmt (node_to_ip n) "30955")) Hwf4) as (c & -> & _);
    [in_list|done|]. by eexists.
Qed.

(** * The properties of the design document *)



(** C2.  From any state of the allocator, [get_port] with given nodes and
    ordinal returns the same port whichever node is named first, a second
    call with the same ordinal and the same two nodes (in either order)
    returns the port of the first call, and leaves the state unchanged. *)
Theorem get_port_idempotent (pa : PortAllocator) (node_a node_b link_index : Z) :
  get_port pa node_a node_b link_index = get_port pa node_b node_a link_index ∧
  let port := (get_port pa node_a node_b link_index).1 in
  let pa1 := (get_port pa node_a node_b link_index).2 in
  get_port pa1 node_a node_b link_index = (port, pa1) ∧
  get_port pa1 node_b node_a link_index = (port, pa1).
Proof.
  split.
  - unfold get_port. by rewrite (link_key_sym node_a node_b).
  - simpl. split.
    + apply get_port_known, get_port_lookup.
    + apply get_port_known. rewrite <- link_key_sym. apply get_port_lookup.
Qed.






(** C5 as stated fails: each rewriter removes its own sections only.
    [update_br_toml] removes [metrics] and keeps a [tracing] section; the
    three configuration rewriters keep a [test_dispatcher] entry; and
    [update_topology_json] keeps a [metrics] entry. *)
Lemma sections_removed_everywhere_counterexample :
  dict_has "tracing" out_br_toml = true ∧
  update_cs_toml [("test_dispatcher", JBool true)] 110
    = Ok [("test_dispatcher", JBool true)] ∧
  update_topology_json (JObj [("metrics", JObj [])]) 110 (PortAllocator_init 50000)
    = Ok (JObj [("metrics", JObj [])], PortAllocator_init 50000) ∧
  ¬ (∀ sect, sect ∈ ["metrics"; "tracing"; "test_dispatcher"] →
       (∀ config n config',
          update_br_toml config n = Ok config' → dict_has sect config' = false) ∧
       (∀ config n config',
          update_cs_toml config n = Ok config' → dict_has sect config' = false) ∧
       (∀ config n config',
          update_sd_toml config n = Ok config' → dict_has sect config' = false) ∧
       (∀ t n pa t' pa',
          update_topology_json t n pa = Ok (t', pa') → py_in sect t' = Ok false)).
Proof.
  split_and!; [reflexivity..|].
  intros H. destruct (H "tracing") as (Hbr & _).
  - right. left.
  - specialize (Hbr br_toml 110 out_br_toml eq_refl). vm_compute in Hbr.
    discriminate Hbr.
Qed.

(** C5, amended.  After a completed rewrite the border-router file has no
    [metrics] section, the control-service file and the daemon file have
    neither a [metrics] nor a [tracing] section, and the topology descriptor
    has no [test_dispatcher] entry, whatever the input had.  The rewrites
    complete on files whose sections are tables and on well-formed
    descriptors. *)
Theorem sections_removed config n t pa :
  (∀ config', update_br_toml config n = Ok config' →
     dict_has "metrics" config' = false) ∧
  (∀ config', update_cs_toml config n = Ok config' →
     dict_has "metrics" config' = false ∧ dict_has "tracing" config' = false) ∧
  (∀ config', update_sd_toml config n = Ok config' →
     dict_has "metrics" config' = false ∧ dict_has "tracing" config' = false) ∧
  (∀ t' pa', update_topology_json t n pa = Ok (t', pa') →
     py_in "test_dispatcher" t' = Ok false) ∧
  (wf_config ["general"; "api"] config = true →
     ∃ config', update_br_toml config n = Ok config') ∧
  (wf_config ["general"; "trust_db"; "beacon_db"; "path_db"; "api"] config = true →
     ∃ config', update_cs_toml config n = Ok config') ∧
  (wf_config ["general"; "trust_db"; "path_db"; "sd"; "api"] config = true →
     ∃ config', update_sd_toml config n = Ok config') ∧
  (wf_topology t = true → ∃ t' pa', update_topology_json t n pa = Ok (t', pa')).
Proof.
  split_and!.
  - by intros config' (? & _)%update_br_toml_inv.
  - by intros config' (? & ? & _)%update_cs_toml_inv.
  - by intros config' (? & ? & _)%update_sd_toml_inv.
  - by intros t' pa' (? & _)%update_topology_json_inv.
  - apply update_br_toml_total.
  - apply update_cs_toml_total.
  - apply update_sd_toml_total.
  - apply update_topology_json_total.
Qed.

Lemma sections_removed_witness :
  dict_has "metrics" out_br_toml = false ∧
  (dict_has "metrics" out_cs_toml = false ∧ dict_has "tracing" out_cs_toml = false) ∧
  (dict_has "metrics" out_sd_toml = false ∧ dict_has "tracing" out_sd_toml = false) ∧
  py_in "test_dispatcher" out_110.1 = Ok false ∧
  (∃ config', update_br_toml br_toml 110 = Ok config') ∧
  (∃ t' pa', update_topology_json topo_110 110 (PortAllocator_init 50000)
             = Ok (t', pa')).
Proof.
  destruct (sections_removed br_toml 110 topo_110 (PortAllocator_init 50000))
    as (Hbr & _ & _ & Ht & Hbr_total & _ & _ & Ht_total).
  destruct (sections_removed cs_toml 110 topo_110 (PortAllocator_init 50000))
    as (_ & Hcs & _).
  destruct (sections_removed sd_toml 110 topo_110 (PortAllocator_init 50000))
    as (_ & _ & Hsd & _).
  split; [apply (Hbr out_br_toml); vm_compute; reflexivity|].
  split; [apply (Hcs out_cs_toml); vm_compute; reflexivity|].
  split; [apply (Hsd out_sd_toml); vm_compute; reflexivity|].
  split; [apply (Ht out_110.1 out_110.2); vm_compute; reflexivity|].
  split; [apply Hbr_total; reflexivity|apply Ht_total; reflexivity].
Defined.

(** C6 as stated fails: the port of the input address is not kept.  The
    border-router file with [api.addr = 127.0.0.9:30442] comes out with
    [10.0.0.110:31442]. *)
Lemma api_port_kept_counterexample :
  update_br_toml br_toml 110 = Ok out_br_toml ∧
  topo_path ["api"; "addr"] (JObj br_toml) = Some (JStr "127.0.0.9:30442") ∧
  topo_path ["api"; "addr"] (JObj out_br_toml) = Some (JStr "10.0.0.110:31442") ∧

  ¬ (∀ config n config' api a,
       update_br_toml config n = Ok config' →
       dict_get "api" config = Some (JObj api) →
       dict_get "addr" api = Some (JStr a) →
       topo_path ["api"; "addr"] (JObj config')
       = Some (JStr ("10.0.0." +:+ pretty (node_to_ip n) +:+ ":" +:+ port_of a))).
Proof.
  split_and!; [reflexivity..|].
  intros H.
  specialize (H br_toml 110 out_br_toml [("addr", JStr "127.0.0.9:30442")]
                "127.0.0.9:30442" eq_refl eq_refl eq_refl).
  vm_compute in H. discriminate H.
Qed.

(** C6, amended.  A completed rewrite of a file with an [api] section sets
    [api.addr] to the host [10.0.0.<node>] with the fixed port of the kind
    of file, 31442 for the border router, 31152 for the control service
    and 30955 for the daemon, whatever address stood there; likewise the
    daemon's [sd.address] gets the fixed port 30255.  The other fields of
    the section stay.  The rewrites complete on files whose sections are
    tables. *)
Theorem api_addr_fixed_port config n :
  (∀ config', update_br_toml config n = Ok config' → dict_has "api" config = true →
   ∃ api, dict_get "api" config = Some (JObj api) ∧
     dict_get "api" config'
     = Some (JObj (dict_set "addr"
               (JStr ("10.0.0." +:+ pretty (node_to_ip n) +:+ ":31442")) api))) ∧
  (∀ config', update_cs_toml config n = Ok config' → dict_has "api" config = true →
   ∃ api, dict_get "api" config = Some (JObj api) ∧
     dict_get "api" config'
     = Some (JObj (dict_set "addr"
               (JStr ("10.0.0." +:+ pretty (node_to_ip n) +:+ ":31152")) api))) ∧
  (∀ config', update_sd_toml config n = Ok config' → dict_has "api" config = true →
   ∃ api, dict_get "api" config = Some (JObj api) ∧
     dict_get "api" config'
     = Some (JObj (dict_set "addr"
               (JStr ("10.0.0." +:+ pretty (node_to_ip n) +:+ ":30955")) api))) ∧
  (∀ config', update_sd_toml config n = Ok config' → dict_has "sd" config = true →
   ∃ sd, dict_get "sd" config = Some (JObj sd) ∧
     dict_get "sd" config'
     = Some (JObj (dict_set "address"
               (JStr ("10.0.0." +:+ pretty (node_to_ip n) +:+ ":30255")) sd))) ∧
  (wf_config ["general"; "api"] config = true →
     ∃ config', update_br_toml config n = Ok config') ∧
  (wf_config ["general"; "trust_db"; "beacon_db"; "path_db"; "api"] config = true →
     ∃ config', update_cs_toml config n = Ok config') ∧
  (wf_config ["general"; "trust_db"; "path_db"; "sd"; "api"] config = true →
     ∃ config', update_sd_toml config n = Ok config').
Proof.
  split_and!.
  - intros config' (_ & H)%update_br_toml_inv. exact H.
  - intros config' (_ & _ & H)%update_cs_toml_inv. exact H.
  - intros config' (_ & _ & H & _)%update_sd_toml_inv. exact H.
  - intros config' (_ & _ & _ & H)%update_sd_toml_inv. exact H.
  - apply update_br_toml_total.
  - apply update_cs_toml_total.
  - apply update_sd_toml_total.
Qed.

Lemma api_addr_fixed_port_witness :
  topo_path ["api"; "addr"] (JObj out_br_toml) = Some (JStr "10.0.0.110:31442") ∧
  topo_path ["api"; "addr"] (JObj out_sd_toml) = Some (JStr "10.0.0.110:30955") ∧
  (∃ config', update_cs_toml cs_toml 110 = Ok config').
Proof.
  split; [|split].
  - destruct (proj1 (api_addr_fixed_port br_toml 110) out_br_toml)
      as (api & Hin & Hout).
    + vm_compute. reflexivity.
    + reflexivity.
    + injection Hin as <-. cbn [topo_path topo_get]. rewrite Hout. reflexivity.
  - destruct (proj1 (proj2 (proj2 (api_addr_fixed_port sd_toml 110))) out_sd_toml)
      as (api & Hin & Hout).
    + vm_compute. reflexivity.
    + reflexivity.
    + injection Hin as <-. cbn [topo_path topo_get]. rewrite Hout. reflexivity.
  - apply (proj1 (proj2 (proj2 (proj2 (proj2 (proj2
             (api_addr_fixed_port cs_toml 110))))))).
    reflexivity.
Defined.











(** * Further lemmas *)

(** ** Decimal numerals *)

Lemma str_app_assoc s1 s2 s3 : (s1 +:+ s2) +:+ s3 = s1 +:+ (s2 +:+ s3).
Proof.
  induction s1 as [|c s1 IH]; [done|]. rewrite !str_app_cons. by f_equal.
Qed.

Lemma int_of_digits_snoc s c :
  int_of_digits (s +:+ String c "") = 10 * int_of_digits s + digit_value c.
Proof.
  unfold int_of_digits. generalize 0.
  induction s as [|c' s IH]; intros acc; simpl; [done|]. apply IH.
Qed.

Lemma all_digits_app s1 s2 :
  all_digits (s1 +:+ s2) = all_digits s1 && all_digits s2.
Proof.
  induction s1 as [|c s1 IH]; simpl; [done|]. by rewrite IH, andb_assoc.
Qed.

Lemma digit_value_nonneg c : is_digit c = true → (0 ≤ digit_value c)%Z.
Proof.
  unfold is_digit, digit_value. intros H.
  apply andb_true_iff in H as [H _]. apply N.leb_le in H. lia.
Qed.

Lemma int_of_digits_nonneg s : all_digits s = true → (0 ≤ int_of_digits s)%Z.
Proof.
  unfold int_of_digits.
  assert (∀ acc, (0 ≤ acc)%Z → all_digits s = true →
    (0 ≤ fold_left (λ acc c, 10 * acc + digit_value c) (list_ascii_of_string s) acc)%Z)
    as H; [|by apply H].
  induction s as [|c s IH]; intros acc Hacc Hs; simpl in *; [done|].
  apply andb_true_iff in Hs as [Hc Hs]. apply IH; [|done].
  pose proof (digit_value_nonneg c Hc). lia.
Qed.

Lemma pretty_N_char_digit x :
  (x < 10)%N →
  is_digit (pretty_N_char x) = true ∧ digit_value (pretty_N_char x) = Z.of_N x.
Proof.
  intros Hx.
  assert (x = 0 ∨ x = 1 ∨ x = 2 ∨ x = 3 ∨ x = 4 ∨ x = 5 ∨ x = 6 ∨ x = 7 ∨
          x = 8 ∨ x = 9)%N as H by lia.
  repeat destruct H as [->|H]; try subst x; by vm_compute.
Qed.

Lemma pretty_N_go_app x s : pretty_N_go x s = pretty_N_go x "" +:+ s.
Proof.
  revert s. induction (N.lt_wf_0 x) as [x _ IH]; intros s.
  destruct (decide (x = 0)%N) as [->|Hx]; [done|].
  assert (x `div` 10 < x)%N as Hlt by (apply N.div_lt; lia).
  rewrite (pretty_N_go_step x s), (pretty_N_go_step x "") by lia.
  rewrite (IH _ Hlt (String _ s)), (IH _ Hlt (String _ "")).
  by rewrite str_app_assoc.
Qed.

Lemma pretty_N_go_digits x :
  all_digits (pretty_N_go x "") = true ∧
  int_of_digits (pretty_N_go x "") = Z.of_N x.
Proof.
  induction (N.lt_wf_0 x) as [x _ IH].
  destruct (decide (x = 0)%N) as [->|Hx]; [done|].
  rewrite pretty_N_go_step, pretty_N_go_app by lia.
  destruct (IH (x `div` 10)%N) as [Hd Hv]; [apply N.div_lt; lia|].
  destruct (pretty_N_char_digit (x `mod` 10)%N) as [Hc Hcv];
    [apply N.mod_lt; lia|].
  split.
  - rewrite all_digits_app, Hd. simpl. by rewrite Hc.
  - rewrite int_of_digits_snoc, Hv, Hcv.
    rewrite (N.div_mod x 10) at 3 by lia. lia.
Qed.

Lemma pretty_N_go_nonempty x : (0 < x)%N → pretty_N_go x "" ≠ "".
Proof.
  intros Hx. rewrite pretty_N_go_step, pretty_N_go_app by done.
  by destruct (pretty_N_go _ "").
Qed.

(** [str(n)] for a natural number [n] is a non-empty string of digits, and
    [int] reads [n] back from it. *)
Lemma pretty_digits (n : Z) :
  (0 ≤ n)%Z →
  pretty n ≠ "" ∧ all_digits (pretty n) = true ∧ int_of_digits (pretty n) = n.
Proof.
  intros Hn. destruct n as [|p|p]; [done| |lia].
  unfold pretty, pretty_Z, pretty, pretty_positive, pretty, pretty_N.
  destruct (decide _) as [|_]; [done|].
  destruct (pretty_N_go_digits (N.pos p)) as [Hd Hv].
  split; [apply pretty_N_go_nonempty; lia|]. split; [done|]. by rewrite Hv.
Qed.


Lemma extract_as_number_nonneg name n :
  extract_as_number name = Some n → (0 ≤ n)%Z.
Proof.
  unfold extract_as_number.
  destruct (re_search_digits "_" name) as [ds|] eqn:E; [|done].
  intros [= <-]. apply re_search_digits_spec in E as (_ & Hds & _); [|done..].
  by apply int_of_digits_nonneg.
Qed.

(** ** [str.replace] *)

Lemma str_replace_digits old c new s :
  is_digit c = false → all_digits s = true →
  str_replace_from (String c old) new 0 s = s.
Proof.
  intros Hc. induction s as [|d s IH]; intros Hs; simpl; [done|].
  simpl in Hs. apply andb_true_iff in Hs as [Hd Hs].
  destruct (ascii_dec c d) as [->|_]; [congruence|].
  by rewrite IH.
Qed.

Lemma node_number_of_name n :
  (0 ≤ n)%Z →
  str_replace "as_" "" ("as_" +:+ pretty n) = pretty n ∧
  node_number_of ("as_" +:+ pretty n) = n.
Proof.
  intros Hn. destruct (pretty_digits n Hn) as (_ & Hd & Hv).
  assert (str_replace "as_" "" ("as_" +:+ pretty n) = pretty n) as Hr.
  { unfold str_replace. rewrite !str_app_cons. simpl.
    destruct (pretty n) as [|c s] eqn:E; [done|].
    change ("" +:+ ?x) with x. by apply str_replace_digits. }
  split; [done|]. unfold node_number_of. by rewrite Hr.
Qed.

(** ** The mapping *)

Lemma mapping_value entries name node :
  dict_get name (build_as_to_node_mapping entries) = Some node →
  ∃ num, extract_as_number name = Some num ∧ (0 ≤ num)%Z ∧
         node = "as_" +:+ pretty num.
Proof.
  rewrite build_as_to_node_mapping_eq. revert name node.
  apply (fill_mapping_values (λ k v, ∃ num, extract_as_number k = Some num ∧
           (0 ≤ num)%Z ∧ v = "as_" +:+ pretty num)); [|done].
  destruct (sorted_numbers entries) as [_ H].
  eapply Forall_impl; [exact H|]. intros [num nm] Hx; simpl in *.
  exists num. eauto using extract_as_number_nonneg.
Qed.

Lemma mapping_NoDup entries :
  NoDup (dict_keys (build_as_to_node_mapping entries)).
Proof.
  rewrite build_as_to_node_mapping_eq. apply fill_mapping_NoDup. constructor.
Qed.

Lemma dict_get_elem {V : Type} k (v : V) d :
  NoDup (dict_keys d) → (k, v) ∈ d → dict_get k d = Some v.
Proof.
  induction d as [|[k' v'] d IH]; intros Hnd Hin; simpl.
  - by apply elem_of_nil in Hin.
  - simpl in Hnd. apply NoDup_cons in Hnd as [Hk' Hnd].
    apply elem_of_cons in Hin as [[= <- <-]|Hin].
    + by rewrite String.eqb_refl.
    + destruct (String.eqb_spec k k') as [->|_]; [|by apply IH].
      destruct Hk'. apply list_elem_of_fmap. by exists (k', v).
Qed.

Lemma dict_get_Some_elem {V : Type} k (v : V) d :
  dict_get k d = Some v → (k, v) ∈ d.
Proof.
  induction d as [|[k' v'] d IH]; simpl; [done|].
  destruct (String.eqb_spec k k') as [->|_].
  - intros [= ->]. by left.
  - intros H. right. by apply IH.
Qed.

Lemma mapping_entries entries :
  Forall mapping_entry (build_as_to_node_mapping entries).
Proof.
  apply Forall_forall. intros [name node] Hin.
  apply (mapping_value entries name node), dict_get_elem; [|done].
  apply mapping_NoDup.
Qed.

Lemma mapping_entry_number e :
  mapping_entry e → extract_as_number e.1 = Some (node_number_of e.2).
Proof.
  intros (num & Hx & Hn & ->). by rewrite (proj2 (node_number_of_name num Hn)).
Qed.

Lemma mapping_sorted entries :
  StronglySorted Z.le
    (omap extract_as_number (dict_keys (build_as_to_node_mapping entries))).
Proof.
  rewrite build_as_to_node_mapping_eq.
  destruct (sorted_numbers entries) as [Hs Hf].
  destruct (fill_mapping_keys (merge_sort tuple_le (as_dirs_with_numbers entries)) [])
    as (ks & -> & Hsub). simpl.
  eapply StronglySorted_sublist; [by apply omap_sublist|].
  replace (omap extract_as_number (merge_sort tuple_le (as_dirs_with_numbers entries)).*2)
    with (merge_sort tuple_le (as_dirs_with_numbers entries)).*1; [done|].
  clear -Hf. induction Hf as [|[num name] l Hx _ IH]; simpl; [done|].
  simpl in Hx. rewrite Hx. by f_equal.
Qed.

Lemma mapping_numbers m :
  Forall mapping_entry m →
  omap extract_as_number (dict_keys m) = (λ e, node_number_of e.2) <$> m.
Proof.
  induction 1 as [|e m He _ IH]; simpl; [done|].
  rewrite (mapping_entry_number e He). by f_equal.
Qed.

(** ** [generate_kathara_configs] *)

Lemma merge_sort_sorted (l : list (Z * string)) :
  StronglySorted tuple_le l → merge_sort tuple_le l = l.
Proof.
  intros Hs. apply (Sorted_unique tuple_le).
  - apply Sorted_merge_sort; apply _.
  - by apply StronglySorted_Sorted.
  - apply merge_sort_Permutation.
Qed.

Lemma mapping_nodes_sorted m :
  Forall mapping_entry m →
  StronglySorted Z.le ((λ e, node_number_of e.2) <$> m) →
  StronglySorted tuple_le ((λ e, (node_number_of e.2, e.2)) <$> m).
Proof.
  induction 1 as [|e m He Hm IH]; simpl; intros Hs; [constructor|].
  apply StronglySorted_inv in Hs as [Hs Hle]. constructor; [by apply IH|].
  apply Forall_fmap, Forall_forall. intros e' Hin. 
  rewrite Forall_fmap, Forall_forall in Hle. specialize (Hle e' Hin). simpl in Hle.
  rewrite Forall_forall in Hm. specialize (Hm e' Hin).
  unfold tuple_le. simpl.
  destruct (decide (node_number_of e.2 = node_number_of e'.2)) as [Heq|Hne];
    [right|left; lia].
  split; [done|].
  destruct He as (n & _ & Hn & He), Hm as (n' & _ & Hn' & He').
  rewrite He, He' in Heq |- *.
  rewrite (proj2 (node_number_of_name n Hn)) in Heq.
  rewrite (proj2 (node_number_of_name n' Hn')) in Heq. by subst.
Qed.

Lemma fold_left_fmap {A B C : Type} (f : C → B → C) (g : A → B) (l : list A) acc :
  fold_left f (g <$> l) acc = fold_left (λ c a, f c (g a)) l acc.
Proof. revert acc. induction l as [|a l IH]; intros acc; simpl; [done|]. apply IH. Qed.

Lemma generate_on_mapping m :
  Forall mapping_entry m →
  StronglySorted Z.le ((λ e, node_number_of e.2) <$> m) →
  generate_kathara_configs m
  = Ok ((λ e : string * string,
           (e.2 +:+ ".startup",
            startup_script e.2 (pretty (node_number_of e.2)))) <$> m,
        fold_left (λ labfile (e : string * string), labfile +:+ node_block e.2)
                  m labfile_header).
Proof.
  intros Hm Hs. unfold generate_kathara_configs, sort_nodes.
  assert (omap (λ p : option Z * string, (λ n : Z, (n, p.2)) <$> p.1)
            ((λ e : string * string, (extract_as_number e.1, e.2)) <$> m)
          = (λ e : string * string, (node_number_of e.2, e.2)) <$> m) as ->.
  { clear Hs. induction Hm as [|e m He _ IH]; simpl; [done|].
    rewrite (mapping_entry_number e He). simpl. by f_equal. }
  rewrite !length_fmap. destruct (decide _) as [_|]; [|done].
  rewrite merge_sort_sorted by by apply mapping_nodes_sorted.
  simpl. rewrite <-!list_fmap_compose, fold_left_fmap. done.
Qed.

(** ** The loop of [main] *)













(** ** The configuration rewriters as lists of settings *)

Lemma bind_Ok_r {A : Type} (m : result A) : bind m Ok = m.
Proof. by destruct m. Qed.

Lemma set_if_section_spec config sect key x :
  set_if_section config sect key x
  = match dict_get sect config with
    | None => Ok config
    | Some (JObj tbl) => Ok (dict_set sect (JObj (dict_set key x tbl)) config)
    | Some _ => Raise TypeError
    end.
Proof.
  unfold set_if_section, set_in_section, dict_has. simpl.
  destruct (dict_get sect config) as [v|]; [|done]. simpl. by destruct v.
Qed.

Lemma set_in_section_if config sect key x :
  dict_has sect config = true →
  set_in_section config sect key x = set_if_section config sect key x.
Proof. unfold set_if_section. by intros ->. Qed.

Lemma rewriter_settings kind config n :
  rewriter kind config n
  = apply_settings (settings kind n) (remove_sections (removed kind) config).
Proof.
  destruct kind; simpl.
  - unfold update_br_toml, remove_sections. simpl.
    generalize (remove_section "metrics" config). intros c.
    unfold set_if_section at 1. destruct (dict_has "general" c) eqn:Hg; simpl.
    + destruct (set_in_section c "general" "config_dir" (JStr "/etc/scion/"))
        as [c1|e] eqn:E; simpl; [|done].
      rewrite set_in_section_if
        by (by rewrite (set_in_section_has _ _ _ _ _ "general" E)).
      destruct (set_if_section c1 "general" "id" (JStr "br")) as [c2|]; simpl;
        [|done].
      by rewrite bind_Ok_r.
    + unfold set_if_section at 1. rewrite Hg. simpl. by rewrite bind_Ok_r.
  - unfold update_cs_toml, remove_sections. simpl.
    generalize (remove_section "tracing" (remove_section "metrics" config)).
    intros c.
    repeat (destruct (set_if_section _ _ _ _) as [?c|]; simpl; [|done]).
    by rewrite bind_Ok_r.
  - unfold update_sd_toml, remove_sections. simpl.
    generalize (remove_section "tracing" (remove_section "metrics" config)).
    intros c.
    repeat (destruct (set_if_section _ _ _ _) as [?c|]; simpl; [|done]).
    unfold set_if_section.
    destruct (dict_has "sd" c2); simpl;
      [destruct (set_in_section c2 _ _ _); simpl; [|done]|];
      by rewrite bind_Ok_r.
Qed.

Lemma dict_set_same {V : Type} k (v : V) d :
  dict_get k d = Some v → dict_set k v d = d.
Proof.
  induction d as [|[k' v'] d IH]; simpl; [done|].
  destruct (String.eqb k k'); [by intros [= ->]|]. intros H. by rewrite IH.
Qed.

Lemma dict_keys_del {V : Type} k (d : list (string * V)) :
  dict_keys (dict_del k d) = filter (λ k', k' ≠ k) (dict_keys d).
Proof.
  induction d as [|[k' v'] d IH]; simpl; [done|].
  destruct (String.eqb_spec k k') as [->|Hne].
  - rewrite filter_cons_False by (by intros ?). apply IH.
  - rewrite filter_cons_True by (by intros ->). simpl. by f_equal.
Qed.

Lemma filter_all {A : Type} (P : A → Prop) `{∀ x, Decision (P x)} (l : list A) :
  Forall P l → filter P l = l.
Proof.
  induction 1 as [|x l Hx _ IH]; [done|].
  rewrite filter_cons_True by done. by f_equal.
Qed.

Lemma dict_keys_remove_section sect config :
  dict_keys (remove_section sect config)
  = filter (λ k, k ≠ sect) (dict_keys config).
Proof.
  unfold remove_section. destruct (dict_has sect config) eqn:E.
  - apply dict_keys_del.
  - apply dict_has_false_keys in E. symmetry. apply filter_all.
    apply Forall_forall. intros k Hk ->. done.
Qed.

Lemma dict_keys_remove_sections sects config :
  dict_keys (remove_sections sects config)
  = filter (λ k, k ∉ sects) (dict_keys config).
Proof.
  unfold remove_sections. revert config.
  induction sects as [|s sects IH]; intros config; simpl.
  - symmetry. apply filter_all, Forall_forall. intros k _.
    apply not_elem_of_nil.
  - rewrite IH, dict_keys_remove_section, list_filter_filter.
    apply list_filter_iff. intros k. rewrite not_elem_of_cons. tauto.
Qed.

Lemma dict_get_remove_sections sects config k :
  dict_get k (remove_sections sects config)
  = if decide (k ∈ sects) then None else dict_get k config.
Proof.
  unfold remove_sections. revert config.
  induction sects as [|s sects IH]; intros config; simpl.
  - destruct (decide (k ∈ [])) as [H|]; [by apply elem_of_nil in H|done].
  - rewrite IH. destruct (decide (k ∈ sects)) as [Hin|Hnin].
    + destruct (decide (k ∈ s :: sects)) as [|Hn]; [done|].
      destruct Hn. by right.
    + destruct (decide (k ∈ s :: sects)) as [Hin|Hn].
      * apply elem_of_cons in Hin as [->|]; [|done].
        pose proof (remove_section_has s config s) as H.
        destruct (decide (s = s)); [|done]. unfold dict_has in H.
        by destruct (dict_get s (remove_section s config)).
      * apply remove_section_get. intros ->. destruct Hn. by left.
Qed.

Lemma apply_settings_cons sect key x l config :
  apply_settings ((sect, key, x) :: l) config
  = match dict_get sect config with
    | None => apply_settings l config
    | Some (JObj tbl) =>
        apply_settings l (dict_set sect (JObj (dict_set key x tbl)) config)
    | Some _ => Raise TypeError
    end.
Proof.
  simpl. rewrite set_if_section_spec.
  destruct (dict_get sect config) as [v|]; [|done]. by destruct v.
Qed.

Global Arguments apply_settings : simpl never.

Lemma field_ok_set_table s sect tbl tbl' config :
  dict_get sect config = Some (JObj tbl) →
  field_ok s is_table (dict_set sect (JObj tbl') config)
  = field_ok s is_table config.
Proof.
  intros H. unfold field_ok. rewrite dict_get_set.
  destruct (decide (s = sect)) as [->|]; [by rewrite H|done].
Qed.

Lemma wf_config_set_table sects sect tbl tbl' config :
  dict_get sect config = Some (JObj tbl) →
  wf_config sects (dict_set sect (JObj tbl') config) = wf_config sects config.
Proof.
  intros H. unfold wf_config. induction sects as [|s sects IH]; simpl; [done|].
  by rewrite IH, (field_ok_set_table s sect tbl tbl').
Qed.

(** A list of settings succeeds exactly on a file whose sections to write
    are tables; the only exception is [TypeError]. *)
Lemma apply_settings_wf l config :
  match apply_settings l config with
  | Ok _ => wf_config l.*1.*1 config = true
  | Raise e => e = TypeError ∧ wf_config l.*1.*1 config = false
  end.
Proof.
  revert config. induction l as [|[[sect key] x] l IH]; intros config.
  - done.
  - rewrite apply_settings_cons.
    assert (wf_config ((sect, key, x) :: l).*1.*1 config
            = field_ok sect is_table config && wf_config l.*1.*1 config) as ->
      by done.
    unfold field_ok. destruct (dict_get sect config) as [v|] eqn:E.
    + destruct v as [| | | | |tbl]; try done. simpl.
      specialize (IH (dict_set sect (JObj (dict_set key x tbl)) config)).
      by rewrite (wf_config_set_table _ _ tbl) in IH.
    + apply IH.
Qed.

Lemma apply_settings_keys l config config' :
  apply_settings l config = Ok config' → dict_keys config' = dict_keys config.
Proof.
  revert config. induction l as [|[[sect key] x] l IH]; intros config.
  - by intros [= ->].
  - rewrite apply_settings_cons.
    destruct (dict_get sect config) as [v|] eqn:E; [|by apply IH].
    destruct v as [| | | | |tbl]; try done. intros H. rewrite (IH _ H).
    apply dict_keys_set_old. unfold dict_has. by rewrite E.
Qed.


Lemma apply_settings_path_other l config config' sect key :
  apply_settings l config = Ok config' → (sect, key) ∉ l.*1 →
  topo_path [sect; key] (JObj config') = topo_path [sect; key] (JObj config).
Proof.
  revert config. induction l as [|[[s k] x] l IH]; intros config.
  - by intros [= ->].
  - rewrite apply_settings_cons. intros H Hk. rewrite fmap_cons in Hk.
    apply not_elem_of_cons in Hk as [Hne Hk]. simpl in Hne.
    destruct (dict_get s config) as [v|] eqn:E; [|by apply IH].
    destruct v as [| | | | |tbl]; try done.
    rewrite (IH _ H Hk). simpl. rewrite dict_get_set.
    destruct (decide (sect = s)) as [->|]; [|done].
    rewrite E. simpl. rewrite dict_get_set_ne; [done|congruence].
Qed.

Lemma apply_settings_path l config config' sect key x :
  apply_settings l config = Ok config' → NoDup l.*1 →
  (sect, key, x) ∈ l → dict_has sect config = true →
  topo_path [sect; key] (JObj config') = Some x.
Proof.
  revert config. induction l as [|[[s k] x0] l IH]; intros config.
  - intros _ _ Hin. by apply elem_of_nil in Hin.
  - rewrite apply_settings_cons. intros H Hnd Hin Hhas.
    rewrite fmap_cons in Hnd. apply NoDup_cons in Hnd as [Hnin Hnd].
    simpl in Hnin.
    apply elem_of_cons in Hin as [[= -> -> ->]|Hin].
    + unfold dict_has in Hhas.
      destruct (dict_get s config) as [v|] eqn:E; [|done].
      destruct v as [| | | | |tbl]; try done.
      rewrite (apply_settings_path_other _ _ _ _ _ H Hnin). simpl.
      rewrite dict_get_set_eq. simpl. by rewrite dict_get_set_eq.
    + destruct (dict_get s config) as [v|] eqn:E; [|by apply (IH config)].
      destruct v as [| | | | |tbl]; try done.
      apply (IH _ H Hnd Hin). rewrite dict_has_set.
      by destruct (decide (sect = s)).
Qed.

Lemma apply_settings_idem l config config' :
  apply_settings l config = Ok config' → NoDup l.*1 →
  apply_settings l config' = Ok config'.
Proof.
  revert config. induction l as [|[[s k] x] l IH]; intros config H Hnd.
  - done.
  - pose proof H as H0. pose proof Hnd as Hnd0.
    rewrite apply_settings_cons in H.
    rewrite fmap_cons in Hnd. apply NoDup_cons in Hnd as [Hnin Hnd].
    rewrite apply_settings_cons.
    destruct (dict_get s config') as [v'|] eqn:E'.
    2:{ destruct (dict_get s config) as [v|] eqn:E; [|by eapply IH].
        destruct v as [| | | | |tbl]; try done. by eapply IH. }
    assert (dict_has s config = true) as Hhas.
    { apply dict_has_keys. rewrite <- (apply_settings_keys _ _ _ H0).
      apply dict_has_keys. unfold dict_has. by rewrite E'. }
    pose proof (apply_settings_path _ _ _ s k x H0) as Hp.
    simpl in Hp. rewrite E' in Hp.
    specialize (Hp Hnd0 ltac:(by left) Hhas).
    destruct v' as [| | | | |tbl']; try done. simpl in Hp.
    assert (dict_get k tbl' = Some x) as Hk
      by (by destruct (dict_get k tbl')).
    rewrite (dict_set_same k x tbl' Hk), (dict_set_same s (JObj tbl') config' E').
    unfold dict_has in Hhas.
    destruct (dict_get s config) as [v|] eqn:E; [|done].
    destruct v as [| | | | |tbl]; try done. by eapply IH.
Qed.

Lemma written_settings kind n : (settings kind n).*1.*1 = written kind.
Proof. by destruct kind. Qed.

Lemma settings_NoDup kind n : NoDup (settings kind n).*1.
Proof.
  destruct kind; simpl; apply (bool_decide_unpack _); by vm_compute.
Qed.

Lemma wf_config_remove_sections sects removed_sects config :
  (∀ s, s ∈ sects → s ∉ removed_sects) →
  wf_config sects (remove_sections removed_sects config) = wf_config sects config.
Proof.
  intros H. unfold wf_config. induction sects as [|s sects IH]; simpl; [done|].
  rewrite IH by (intros s' Hs'; apply H; by right). f_equal.
  unfold field_ok. rewrite dict_get_remove_sections.
  destruct (decide (s ∈ removed_sects)) as [Hin|]; [|done].
  destruct (H s); [by left|done].
Qed.

Lemma written_not_removed kind s : s ∈ written kind → s ∉ removed kind.
Proof.
  destruct kind; unfold written; simpl;
    rewrite !elem_of_cons, !elem_of_nil; intros H1 H2;
    repeat destruct H1 as [->|H1]; try done;
    repeat destruct H2 as [H2|H2]; done.
Qed.

Lemma rewriter_wf kind config n :
  match rewriter kind config n with
  | Ok _ => wf_config (written kind) config = true
  | Raise e => e = TypeError ∧ wf_config (written kind) config = false
  end.
Proof.
  rewrite rewriter_settings.
  pose proof (apply_settings_wf (settings kind n)
                (remove_sections (removed kind) config)) as H.
  rewrite written_settings, wf_config_remove_sections in H
    by apply written_not_removed.
  done.
Qed.

Lemma remove_sections_absent sects config :
  (∀ s, s ∈ sects → dict_has s config = false) →
  remove_sections sects config = config.
Proof.
  unfold remove_sections. induction sects as [|s sects IH]; intros H; simpl;
    [done|].
  unfold remove_section at 2. rewrite (H s) by by left.
  apply IH. intros s' Hs'. apply H. by right.
Qed.

Lemma rewriter_keys kind config n config' :
  rewriter kind config n = Ok config' →
  dict_keys config' = filter (λ k, k ∉ removed kind) (dict_keys config).
Proof.
  rewrite rewriter_settings. intros H.
  by rewrite (apply_settings_keys _ _ _ H), dict_keys_remove_sections.
Qed.

(** ** The keys of the descriptor *)

Lemma remove_marker_keys d t1 :
  remove_marker (JObj d) = Ok t1 →
  ∃ d1, t1 = JObj d1 ∧
    dict_keys d1 = filter (λ k, k ≠ "test_dispatcher") (dict_keys d).
Proof.
  unfold remove_marker. simpl.
  destruct (dict_has "test_dispatcher" d) eqn:E; simpl.
  - intros [= <-]. eexists. split; [done|]. apply dict_keys_del.
  - intros [= <-]. exists d. split; [done|].
    apply dict_has_false_keys in E. symmetry. apply filter_all.
    apply Forall_forall. by intros k Hk ->.
Qed.

Lemma update_services_keys table n d t1 :
  update_services table n (JObj d) = Ok t1 →
  ∃ d1, t1 = JObj d1 ∧ dict_keys d1 = dict_keys d.
Proof.
  unfold update_services. simpl.
  destruct (dict_has table d) eqn:E; simpl; [|intros [= <-]; by eauto].
  intros H. inv_Ok. eexists. split; [done|]. by apply dict_keys_set_old.
Qed.

Lemma consolidate_border_routers_keys d n pa t' pa' :
  consolidate_border_routers (JObj d) n pa = Ok (t', pa') →
  ∃ d', t' = JObj d' ∧ dict_keys d' = dict_keys d.
Proof.
  unfold consolidate_border_routers. simpl.
  destruct (dict_has "border_routers" d) eqn:E; simpl;
    [|intros [= <- _]; by eauto].
  intros H. apply bind_Ok in H as (brs & _ & H).
  apply bind_Ok in H as (items & _ & H).
  apply bind_Ok in H as ([cia all] & _ & H).
  apply bind_Ok in H as ([ifs' [c' pa1]] & _ & H). simpl in H. inv_Ok.
  eexists. split; [done|]. by apply dict_keys_set_old.
Qed.

(** ** Ports within a node, and a second pass over the same descriptor *)

Lemma count_links_take_lt n r ifs i j id data :
  (i < j)%nat → ifs !! i = Some (id, data) → link_peer data = Some r →
  (count_links n (node_pair n r) (take i ifs)
   < count_links n (node_pair n r) (take j ifs))%nat.
Proof.
  intros Hij Hi Hr.
  rewrite <- (take_drop_middle ifs i (id, data) Hi) at 2.
  assert (length (take i ifs) = i) as Hlen.
  { apply length_take_le. apply lookup_lt_Some in Hi. lia. }
  rewrite take_app_ge by lia. rewrite Hlen, count_links_app.
  replace (j - i)%nat with (S (j - i - 1)) by lia. simpl.
  rewrite Hr. destruct (decide _) as [_|Hne]; [lia|done].
Qed.

Lemma set_local_remote_again {B C : Type} n r (p : Z) u (k : json → result B) b
    (p2 : Z) (k2 : json → result C) :
  bind (py_in "local" u) (λ has_local : bool,
    bind (if has_local
          then py_setitem u "local" (JStr (addr_fmt n (pretty p)))
          else Ok u) (λ u1,
      bind (py_in "remote" u1) (λ has_remote : bool,
        bind (if has_remote
              then py_setitem u1 "remote" (JStr (addr_fmt r (pretty p)))
              else Ok u1) k))) = Ok b →
  bind (py_in "local" u) (λ has_local : bool,
    bind (if has_local
          then py_setitem u "local" (JStr (addr_fmt n (pretty p2)))
          else Ok u) (λ u1,
      bind (py_in "remote" u1) (λ has_remote : bool,
        bind (if has_remote
              then py_setitem u1 "remote" (JStr (addr_fmt r (pretty p2)))
              else Ok u1) k2))) = k2 (new_underlay n r p2 u).
Proof.
  intros H. destruct u as [| | |s|xs|d]; simpl in H |- *; try done.
  - destruct (str_contains "local" s); simpl in H |- *; [done|].
    destruct (str_contains "remote" s); simpl in H |- *; done.
  - destruct (existsb _ xs); simpl in H |- *; [done|].
    destruct (existsb _ xs); simpl in H |- *; done.
  - unfold set_if_has.
    destruct (dict_has "local" d) eqn:El; simpl.
    + by destruct (dict_has "remote" (dict_set "local" _ d)).
    + by destruct (dict_has "remote" d).
Qed.

(** Whether a round of the second loop succeeds does not depend on the
    counters and the allocator. *)
Lemma rewrite_interface_again n data c pa data' st' c2 pa2 :
  rewrite_interface n data (c, pa) = Ok (data', st') →
  rewrite_interface n data (c2, pa2)
  = Ok match link_peer data with
       | None => (data, (c2, pa2))
       | Some r =>
           (with_port n r (get_port pa2 n r (next_index c2 (node_pair n r))).1 data,
            (<[node_pair n r := next_index c2 (node_pair n r) + 1]> c2,
             (get_port pa2 n r (next_index c2 (node_pair n r))).2))
       end.
Proof.
  intros H. unfold rewrite_interface in H |- *.
  destruct data as [| | |s|xs|d]; simpl in H |- *; try done.
  - destruct (str_contains "underlay" s); simpl in H |- *; [done|done].
  - destruct (existsb _ xs); simpl in H |- *; [done|done].
  - destruct (dict_has "underlay" d) eqn:Eu; simpl in H |- *; [|done].
    destruct (dict_get "underlay" d) as [u|] eqn:Egu; simpl in H |- *; [|done].
    unfold dict_has in H |- * at 1.
    destruct (dict_get "isd_as" d) as [[| | |s| |]|]; simpl in H |- *; try done.
    destruct (re_search_digits ":" s) as [ds|]; simpl in H |- *; [|done].
    fold (next_index c2 (node_pair n (int_of_digits ds))).
    destruct (get_port pa n (int_of_digits ds) _) as [p pa1].
    destruct (get_port pa2 n (int_of_digits ds) _) as [p2 pa3]. simpl.
    unfold node_to_ip in H |- *.
    by rewrite (set_local_remote_again _ _ _ _ _ _ p2 _ H).
Qed.

Lemma rewrite_interfaces_again n ifs c pa ifs' c' pa' pa2 :
  rewrite_interfaces n ifs (c, pa) = Ok (ifs', (c', pa')) →
  pa_later pa' pa2 →
  rewrite_interfaces n ifs (c, pa2) = Ok (ifs', (c', pa2)).
Proof.
  revert c pa ifs'. induction ifs as [|[id data] ifs IH]; intros c pa ifs' H L.
  - simpl in H |- *. by inv_Ok.
  - apply rewrite_interfaces_cons_Ok in H
      as (data' & [c1 pa1] & ifs'' & H1 & H2 & ->).
    apply rewrite_interfaces_cons_Ok.
    pose proof (rewrite_interface_again _ _ _ _ _ _ c pa2 H1) as H3.
    destruct (link_peer data) as [r|] eqn:Er.
    + destruct (rewrite_interface_link _ _ _ _ _ _ _ Er H1) as [-> [= -> ->]].
      assert (port_assignments pa2 !! link_key n r (next_index c (node_pair n r))
              = Some (get_port pa n r (next_index c (node_pair n r))).1) as Hk.
      { eapply pa_later_keeps; [exact L|].
        eapply pa_later_keeps; [by eapply rewrite_interfaces_later|].
        apply get_port_lookup. }
      rewrite (get_port_known _ _ _ _ _ Hk) in H3. simpl in H3.
      eexists _, _, _. split; [exact H3|]. split; [|done]. by eapply IH.
    + destruct (rewrite_interface_skip _ _ _ _ _ Er H1) as [-> [= -> ->]].
      eexists _, _, _. split; [exact H3|]. split; [|done]. by eapply IH.
Qed.

Lemma consolidate_border_routers_again t n pa t' pa' pa2 :
  consolidate_border_routers t n pa = Ok (t', pa') →
  pa_later pa' pa2 →
  consolidate_border_routers t n pa2 = Ok (t', pa2).
Proof.
  unfold consolidate_border_routers. intros H L.
  destruct (py_in "border_routers" t) as [[|]|]; simpl in H |- *; [| |done].
  - destruct (py_getitem t "border_routers") as [brs|]; simpl in H |- *; [|done].
    destruct (py_items brs) as [items|]; simpl in H |- *; [|done].
    destruct (collect_border_routers n items (JNull, [])) as [[cia all]|];
      simpl in H |- *; [|done].
    apply bind_Ok in H as ([ifs' [c' pa1]] & Hr & H). simpl in H.
    apply bind_Ok in H as (t1 & Ht & H). injection H as <- <-.
    rewrite (rewrite_interfaces_again _ _ _ _ _ _ _ _ Hr L). simpl.
    by rewrite Ht.
  - by injection H as <- <-.
Qed.

Lemma update_topology_json_again t n pa t' pa' pa2 :
  update_topology_json t n pa = Ok (t', pa') →
  pa_later pa' pa2 →
  update_topology_json t n pa2 = Ok (t', pa2).
Proof.
  unfold update_topology_json. intros H L.
  destruct (remove_marker t) as [t1|]; simpl in H |- *; [|done].
  destruct (update_services "control_service" n t1) as [t2|];
    simpl in H |- *; [|done].
  destruct (update_services "discovery_service" n t2) as [t3|];
    simpl in H |- *; [|done].
  by eapply consolidate_border_routers_again.
Qed.

Lemma get_port_next pa a b i :
  (next_port pa ≤ next_port (get_port pa a b i).2 ≤ next_port pa + 1)%Z.
Proof.
  unfold get_port. destruct (port_assignments pa !! link_key a b i); simpl; lia.
Qed.

Lemma rewrite_interfaces_next_port n ifs c pa ifs' c' pa' :
  rewrite_interfaces n ifs (c, pa) = Ok (ifs', (c', pa')) →
  (next_port pa ≤ next_port pa'
   ≤ next_port pa
     + Z.of_nat (length (filter (λ e, is_Some (link_peer e.2)) ifs)))%Z.
Proof.
  revert c pa ifs'. induction ifs as [|[id data] ifs IH]; intros c pa ifs' H.
  - simpl in H. inv_Ok. simpl. lia.
  - apply rewrite_interfaces_cons_Ok in H
      as (data' & [c1 pa1] & ifs'' & H1 & H2 & ->).
    specialize (IH _ _ _ H2).
    destruct (link_peer data) as [r|] eqn:Er.
    + destruct (rewrite_interface_link _ _ _ _ _ _ _ Er H1) as [-> [= -> ->]].
      rewrite filter_cons_True by (simpl; rewrite Er; by eexists).
      pose proof (get_port_next pa n r (next_index c (node_pair n r))).
      simpl. lia.
    + destruct (rewrite_interface_skip _ _ _ _ _ Er H1) as [-> [= -> ->]].
      rewrite filter_cons_False; [done|].
      simpl. rewrite Er. by intros [? ?].
Qed.

Lemma addr_fmt_inj ip (p q : Z) :
  addr_fmt ip (pretty p) = addr_fmt ip (pretty q) → p = q.
Proof.
  unfold addr_fmt. intros H. do 3 apply String.app_inj in H.
  by apply (inj pretty).
Qed.

(** ** Exceptions *)

Lemma py_split_colon_1_Raise a e :
  addr_exn a = Some e → py_split_colon_1 a = Raise e.
Proof.
  destruct a as [| | |s| |]; simpl; try by intros [= <-].
  destruct (free_of ":" s) eqn:E; [|done]. intros [= <-].
  by rewrite (split_on_free _ _ E).
Qed.

Lemma rewrite_service_addr_Raise n entry a e :
  dict_get "addr" entry = Some a → addr_exn a = Some e →
  rewrite_service_addr n (JObj entry) = Raise e.
Proof.
  intros Ha He. unfold rewrite_service_addr. simpl. unfold dict_has.
  rewrite Ha. simpl. by rewrite (py_split_colon_1_Raise _ _ He).
Qed.

Lemma for_items_Raise body l i k v e :
  forallb (λ x, match body x.2 with Ok _ => true | Raise _ => false end)
          (take i l) = true →
  l !! i = Some (k, v) → body v = Raise e →
  for_items body l = Raise e.
Proof.
  revert i. induction l as [|[k' v'] l IH]; intros i Hpre Hi Hv; [done|].
  destruct i as [|i]; simpl in *.
  - injection Hi as -> ->. by rewrite Hv.
  - apply andb_true_iff in Hpre as [Hv' Hpre].
    destruct (body v'); [|done]. simpl. by rewrite (IH i Hpre Hi Hv).
Qed.

Lemma update_services_Raise table n d svcs i name entry a e :
  dict_get table d = Some (JObj svcs) →
  forallb (λ x, wf_service x.2) (take i svcs) = true →
  svcs !! i = Some (name, JObj entry) →
  dict_get "addr" entry = Some a → addr_exn a = Some e →
  update_services table n (JObj d) = Raise e.
Proof.
  intros Hd Hpre Hi Ha He. unfold update_services. simpl. unfold dict_has.
  rewrite Hd. simpl.
  rewrite (for_items_Raise _ svcs i name (JObj entry) e); [done| |done|].
  - eapply forallb_impl; [|exact Hpre]. intros x Hx.
    by destruct (rewrite_service_addr_total n x.2 Hx) as [? ->].
  - by eapply rewrite_service_addr_Raise.
Qed.

Lemma collect_border_routers_Raise n brs st i name br a e :
  forallb (λ x, wf_border_router x.2) (take i brs) = true →
  brs !! i = Some (name, JObj br) →
  dict_get "internal_addr" br = Some a → addr_exn a = Some e →
  collect_border_routers n brs st = Raise e.
Proof.
  revert st i. induction brs as [|[k' v'] brs IH]; intros st i Hpre Hi Ha He;
    [done|].
  destruct i as [|i]; simpl in *.
  - injection Hi as -> ->. destruct st as [cia all].
    unfold collect_border_router. simpl. unfold dict_has. rewrite Ha. simpl.
    by rewrite (py_split_colon_1_Raise _ _ He).
  - apply andb_true_iff in Hpre as [Hv' Hpre].
    destruct (collect_border_router_total n st v' Hv') as [st' ->]. simpl.
    by eapply IH.
Qed.























(** ** What the second loop leaves of an interface *)

Lemma dict_keys_set_if_has k v d :
  dict_keys (set_if_has k v d) = dict_keys d.
Proof.
  unfold set_if_has. destruct (dict_has k d) eqn:E; [|done].
  by apply dict_keys_set_old.
Qed.

Lemma new_underlay_keeps n r p u :
  keys_of (new_underlay n r p u) = keys_of u ∧
  ∀ k, k ∉ ["local"; "remote"] →
    topo_get k (new_underlay n r p u) = topo_get k u.
Proof.
  destruct u as [| | | | |d]; simpl; try done. split.
  - by rewrite !dict_keys_set_if_has.
  - intros k Hk. rewrite !not_elem_of_cons in Hk. destruct Hk as (? & ? & _).
    rewrite !dict_get_set_if_has. by repeat destruct (decide _).
Qed.

Lemma with_port_keeps n r p data :
  keys_of (with_port n r p data) = keys_of data ∧
  (∀ k, k ≠ "underlay" → topo_get k (with_port n r p data) = topo_get k data) ∧
  (∀ u, topo_get "underlay" data = Some u →
     topo_get "underlay" (with_port n r p data) = Some (new_underlay n r p u)).
Proof.
  destruct data as [| | | | |d]; simpl; try done.
  destruct (dict_get "underlay" d) as [u|] eqn:E; simpl; [|done].
  split_and!.
  - apply dict_keys_set_old. unfold dict_has. by rewrite E.
  - intros k Hk. by apply dict_get_set_ne.
  - intros u' [= <-]. by rewrite dict_get_set_eq.
Qed.

(** ** A second pass over the written descriptor *)

Lemma split_on_fields c s : Forall (λ x, free_of c x = true) (split_on c s).
Proof.
  induction s as [|c' s IH]; simpl; [by repeat constructor|].
  destruct (Ascii.eqb_spec c' c) as [->|Hne].
  - by constructor.
  - destruct (split_on c s) as [|hd tl]; simpl.
    + constructor; [|done]. simpl. by rewrite (proj2 (Ascii.eqb_neq _ _) Hne).
    + apply Forall_cons in IH as [Hhd Htl]. constructor; [|done]. simpl.
      by rewrite (proj2 (Ascii.eqb_neq _ _) Hne), Hhd.
Qed.

Lemma py_split_colon_1_free a port :
  py_split_colon_1 a = Ok port → free_of ":" port = true.
Proof.
  destruct a as [| | |s| |]; simpl; try done.
  destruct (split_on ":" s !! 1%nat) as [p|] eqn:E; [|done]. intros [= <-].
  pose proof (split_on_fields ":" s) as H. rewrite Forall_forall in H.
  apply H. by eapply list_elem_of_lookup_2.
Qed.

Lemma pretty_Z_free (n : Z) : free_of ":" (pretty n) = true.
Proof.
  destruct n as [|p|p].
  - done.
  - destruct (pretty_digits (Z.pos p)) as (_ & H & _); [lia|].
    by apply all_digits_free.
  - destruct (pretty_digits (Z.pos p)) as (_ & H & _); [lia|].
    change (pretty (Z.neg p)) with ("-" +:+ pretty (Z.pos p)).
    rewrite free_of_app. simpl. by apply all_digits_free.
Qed.

Lemma split_addr_fmt ip port :
  free_of ":" port = true → py_split_colon_1 (JStr (addr_fmt ip port)) = Ok port.
Proof.
  intros Hp. unfold addr_fmt.
  rewrite <- (str_app_assoc "10.0.0." (pretty ip) (":" +:+ port)).
  apply split_host_port; [|done]. rewrite free_of_app. simpl.
  apply pretty_Z_free.
Qed.

Lemma rewritten_addr_fixed n a a' :
  rewritten_addr n a = Ok a' → rewritten_addr n a' = Ok a'.
Proof.
  unfold rewritten_addr. intros H. apply bind_Ok in H as (port & Hp & [= <-]).
  rewrite split_addr_fmt; [done|]. by eapply py_split_colon_1_free.
Qed.

Lemma rewrite_service_addr_fixed n v v' :
  rewrite_service_addr n v = Ok v' → rewrite_service_addr n v' = Ok v'.
Proof.
  intros H. destruct v as [| | |s|xs|e]; try done.
  - unfold rewrite_service_addr in H |- *. simpl in H.
    destruct (str_contains "addr" s) eqn:E; simpl in H; [done|].
    injection H as <-. simpl. by rewrite E.
  - unfold rewrite_service_addr in H |- *. simpl in H.
    destruct (existsb _ xs) eqn:E; simpl in H; [done|].
    injection H as <-. simpl. by rewrite E.
  - pose proof (rewrite_service_addr_inv _ _ _ H) as Hi.
    destruct (dict_get "addr" e) as [a|] eqn:Ea.
    + destruct Hi as (port & Hp & ->).
      unfold rewrite_service_addr. simpl. rewrite dict_has_set.
      destruct (decide _); [|done]. cbn [bind]. rewrite dict_get_set_eq.
      cbn [bind].
      rewrite split_addr_fmt by by eapply py_split_colon_1_free. simpl.
      by rewrite (dict_set_same "addr" _ (dict_set "addr" _ e))
        by apply dict_get_set_eq.
    + by subst.
Qed.

Lemma for_items_fixed body l l' :
  (∀ v v', body v = Ok v' → body v' = Ok v') →
  for_items body l = Ok l' → for_items body l' = Ok l'.
Proof.
  intros Hb. revert l'. induction l as [|[k v] l IH]; intros l' H; simpl in H.
  - by injection H as <-.
  - apply bind_Ok in H as (v' & Hv & H). apply bind_Ok in H as (l'' & Hl & H).
    injection H as <-. simpl. rewrite (Hb _ _ Hv). simpl.
    by rewrite (IH _ Hl).
Qed.

Lemma link_peer_with_port n r p data :
  link_peer (with_port n r p data) = link_peer data.
Proof.
  destruct data as [| | | | |d]; try done. simpl.
  destruct (dict_get "underlay" d) as [u|] eqn:E; [|done]. simpl.
  rewrite dict_has_set. unfold dict_has. rewrite E.
  destruct (decide _); [|done]. by rewrite dict_get_set_ne.
Qed.

Lemma set_if_has_same k v d :
  (dict_has k d = true → dict_get k d = Some v) → set_if_has k v d = d.
Proof.
  unfold set_if_has. destruct (dict_has k d); [|done].
  intros H. by apply dict_set_same, H.
Qed.

Lemma dict_has_set_if_has k v d k' :
  dict_has k' (set_if_has k v d) = dict_has k' d.
Proof.
  unfold set_if_has. destruct (dict_has k d) eqn:E; [|done].
  rewrite dict_has_set. by destruct (decide (k' = k)) as [->|].
Qed.

Lemma new_underlay_idem n r p u :
  new_underlay n r p (new_underlay n r p u) = new_underlay n r p u.
Proof.
  destruct u as [| | | | |d]; try done. simpl. f_equal.
  rewrite (set_if_has_same "local").
  - apply set_if_has_same. rewrite dict_has_set_if_has. intros H.
    rewrite dict_get_set_if_has. destruct (decide _); [|done].
    rewrite dict_has_set_if_has in H |- *. by rewrite H.
  - rewrite !dict_has_set_if_has. intros H.
    rewrite !dict_get_set_if_has. destruct (decide _); [done|].
    destruct (decide _); [|done]. by rewrite H.
Qed.

Lemma with_port_idem n r p data :
  with_port n r p (with_port n r p data) = with_port n r p data.
Proof.
  destruct data as [| | | | |d]; try done. simpl.
  destruct (dict_get "underlay" d) as [u|] eqn:E; simpl; [|by rewrite E].
  rewrite dict_get_set_eq, new_underlay_idem. f_equal.
  apply dict_set_same, dict_get_set_eq.
Qed.

(** A round of the second loop that succeeded on an interface succeeds on
    the interface it has written. *)
Lemma rewrite_interface_with_port n data c pa data' st' r p c2 pa2 :
  rewrite_interface n data (c, pa) = Ok (data', st') →
  link_peer data = Some r →
  ∃ res, rewrite_interface n (with_port n r p data) (c2, pa2) = Ok res.
Proof.
  intros H Hpeer. unfold rewrite_interface in H.
  destruct data as [| | | | |d]; try done. simpl in Hpeer.
  destruct (dict_has "underlay" d) eqn:Eu; [|done].
  simpl in H. rewrite Eu in H. simpl in H.
  destruct (dict_get "underlay" d) as [u|] eqn:Egu; [|done]. simpl in H.
  destruct (dict_get "isd_as" d) as [[| | |s| |]|] eqn:Ei; try done.
  unfold dict_has in H at 1. rewrite Ei in H. simpl in H.
  destruct (re_search_digits ":" s) as [ds|] eqn:Es; [|done].
  simpl in Hpeer. injection Hpeer as <-. simpl in H.
  destruct (get_port pa n (int_of_digits ds) _) as [p1 pa1].
  unfold node_to_ip in H.
  unfold rewrite_interface. simpl. rewrite Egu. simpl.
  rewrite dict_has_set. destruct (decide _); [|done]. simpl.
  rewrite dict_get_set_eq. simpl. unfold dict_has.
  rewrite dict_get_set_ne by done. rewrite Ei. simpl. rewrite Es. simpl.
  destruct (get_port pa2 n (int_of_digits ds) _) as [p2 pa3].
  unfold node_to_ip.
  destruct u as [| | |su|xu|du].
  1-5: (simpl new_underlay;
        rewrite (set_local_remote_again _ _ _ _ _ _ p2 _ H); simpl; by eexists).
  rewrite set_local_remote_total by done. simpl. by eexists.
Qed.

Lemma rewrite_interfaces_fixed n ifs c pa ifs' c' pa' pa2 :
  rewrite_interfaces n ifs (c, pa) = Ok (ifs', (c', pa')) →
  pa_later pa' pa2 →
  rewrite_interfaces n ifs' (c, pa2) = Ok (ifs', (c', pa2)).
Proof.
  revert c pa ifs'. induction ifs as [|[id data] ifs IH]; intros c pa ifs' H L.
  - simpl in H. inv_Ok. done.
  - apply rewrite_interfaces_cons_Ok in H
      as (data' & [c1 pa1] & ifs'' & H1 & H2 & ->).
    apply rewrite_interfaces_cons_Ok.
    destruct (link_peer data) as [r|] eqn:Er.
    + destruct (rewrite_interface_link _ _ _ _ _ _ _ Er H1) as [Hd [= -> ->]].
      destruct (rewrite_interface_with_port _ _ _ _ _ _ r
                  (get_port pa n r (next_index c (node_pair n r))).1 c pa2 H1 Er)
        as [[d2 st2] H3].
      pose proof (rewrite_interface_again _ _ _ _ _ _ c pa2 H3) as H4.
      rewrite link_peer_with_port, Er in H4.
      assert (port_assignments pa2 !! link_key n r (next_index c (node_pair n r))
              = Some (get_port pa n r (next_index c (node_pair n r))).1) as Hk.
      { eapply pa_later_keeps; [exact L|].
        eapply pa_later_keeps; [by eapply rewrite_interfaces_later|].
        apply get_port_lookup. }
      rewrite (get_port_known _ _ _ _ _ Hk) in H4. simpl in H4.
      rewrite with_port_idem in H4. subst data'.
      eexists _, _, _. split; [exact H4|]. split; [|done]. by eapply IH.
    + destruct (rewrite_interface_skip _ _ _ _ _ Er H1) as [-> [= -> ->]].
      pose proof (rewrite_interface_again _ _ _ _ _ _ c pa2 H1) as H3.
      rewrite Er in H3.
      eexists _, _, _. split; [exact H3|]. split; [|done]. by eapply IH.
Qed.

Lemma consolidate_consolidated d n pa cia ifs :
  dict_get "border_routers" d = Some (consolidated cia ifs) →
  NoDup (dict_keys ifs) →
  consolidate_border_routers (JObj d) n pa
  = bind (rewritten_addr n cia) (λ cia',
      bind (rewrite_interfaces n ifs (∅, pa)) (λ r,
        Ok (JObj (dict_set "border_routers" (consolidated cia' r.1) d), r.2.2))).
Proof.
  intros Hd Hnd. unfold consolidate_border_routers. simpl. unfold dict_has.
  rewrite Hd. simpl. unfold collect_border_router, rewritten_addr. simpl.
  destruct (py_split_colon_1 cia) as [port|]; simpl; [|done].
  rewrite add_interfaces_fresh by done. simpl.
  by destruct (rewrite_interfaces n ifs (∅, pa)) as [[ifs' [c' pa']]|].
Qed.

Lemma update_services_fixed table n d svcs svcs' :
  for_items (rewrite_service_addr n) svcs = Ok svcs' →
  dict_get table d = Some (JObj svcs') →
  update_services table n (JObj d) = Ok (JObj d).
Proof.
  intros Hf Hd. unfold update_services. simpl. unfold dict_has. rewrite Hd.
  simpl.
  rewrite (for_items_fixed _ _ _ (rewrite_service_addr_fixed n) Hf). simpl.
  by rewrite (dict_set_same _ _ _ Hd).
Qed.

Lemma update_services_absent table n d :
  dict_get table d = None → update_services table n (JObj d) = Ok (JObj d).
Proof.
  intros Hd. unfold update_services. simpl. unfold dict_has. by rewrite Hd.
Qed.

(** The descriptor as [update_topology_json] leaves it, up to the block of
    the border routers. *)
Lemma update_topology_json_services_fixed d n pa d' pa' :
  update_topology_json (JObj d) n pa = Ok (JObj d', pa') →
  bind (remove_marker (JObj d')) (λ t,
    bind (update_services "control_service" n t) (λ t,
      update_services "discovery_service" n t)) = Ok (JObj d').
Proof.
  intros H. apply update_topology_json_inv in H as (Hm & _ & Hs & _).
  simpl in Hm. injection Hm as Hm.
  unfold remove_marker. simpl. rewrite Hm. simpl.
  assert (∀ table, table ∈ ["control_service"; "discovery_service"] →
            update_services table n (JObj d') = Ok (JObj d')) as Hfix.
  { intros table Ht. specialize (Hs table Ht). simpl in Hs.
    destruct (dict_get table d) as [v|].
    - destruct Hs as (svcs & svcs' & -> & Hf & Hd').
      by eapply update_services_fixed.
    - by apply update_services_absent. }
  rewrite (Hfix "control_service") by (by left). simpl.
  apply Hfix. right. by left.
Qed.

Lemma update_topology_json_keys d n pa t' pa' :
  update_topology_json (JObj d) n pa = Ok (t', pa') →
  ∃ d', t' = JObj d' ∧
    dict_keys d' = filter (λ k, k ≠ "test_dispatcher") (dict_keys d).
Proof.
  unfold update_topology_json. intros H.
  apply bind_Ok in H as (t1 & H1 & H). apply bind_Ok in H as (t2 & H2 & H).
  apply bind_Ok in H as (t3 & H3 & H).
  apply remove_marker_keys in H1 as (d1 & -> & Hk1).
  apply update_services_keys in H2 as (d2 & -> & Hk2).
  apply update_services_keys in H3 as (d3 & -> & Hk3).
  apply consolidate_border_routers_keys in H as (d' & -> & Hk4).
  exists d'. split; [done|]. congruence.
Qed.

(** * Further properties of the code *)



(** X2.  Line 427 of [main] recovers the number of a node from its name by
    [int(node_name.replace('as_', ''))].  For every entry of the mapping
    that [build_as_to_node_mapping] returns, what [replace] leaves of the
    node name is the decimal numeral of the number that ends the directory
    name, a non-empty string of digits, so that [int] accepts it and gives
    that number back. *)
Theorem node_number_recovered entries name node :
  dict_get name (build_as_to_node_mapping entries) = Some node →
  ∃ num, extract_as_number name = Some num ∧
    node = "as_" +:+ pretty num ∧
    str_replace "as_" "" node = pretty num ∧
    str_replace "as_" "" node ≠ "" ∧
    all_digits (str_replace "as_" "" node) = true ∧
    node_number_of node = num.
Proof.
  intros H. apply mapping_value in H as (num & Hx & Hn & ->).
  destruct (node_number_of_name num Hn) as [Hr Hv].
  destruct (pretty_digits num Hn) as (Hne & Hd & _).
  exists num. rewrite Hr. by split_and!.
Qed.

Lemma node_number_recovered_witness :
  ∃ num, extract_as_number "ASff00_0_110" = Some num ∧
    "as_110" = "as_" +:+ pretty num ∧
    str_replace "as_" "" "as_110" = pretty num ∧
    str_replace "as_" "" "as_110" ≠ "" ∧
    all_digits (str_replace "as_" "" "as_110") = true ∧
    node_number_of "as_110" = num.
Proof.
  apply (node_number_recovered example_entries "ASff00_0_110" "as_110").
  vm_compute. reflexivity.
Defined.

(** X3.  The mapping gives two directories the same node name exactly when
    their names end in the same number: the rest of the directory name does
    not enter the node name.  So [ASff00_0_110] and [ASff00_1_110] are both
    mapped to [as_110], and [main] writes both into one node directory. *)
Theorem node_names_collide entries name1 node1 name2 node2 :
  dict_get name1 (build_as_to_node_mapping entries) = Some node1 →
  dict_get name2 (build_as_to_node_mapping entries) = Some node2 →
  (node1 = node2 ↔ extract_as_number name1 = extract_as_number name2).
Proof.
  intros H1 H2.
  apply mapping_value in H1 as (n1 & Hx1 & _ & ->).
  apply mapping_value in H2 as (n2 & Hx2 & _ & ->).
  rewrite Hx1, Hx2. split.
  - intros H. apply String.app_inj in H. f_equal. by apply (inj pretty).
  - by intros [= ->].
Qed.

Lemma node_names_collide_witness :
  build_as_to_node_mapping colliding_entries
  = [("ASff00_0_110", "as_110"); ("ASff00_1_110", "as_110")] ∧
  ("as_110" = "as_110" ↔
   extract_as_number "ASff00_0_110" = extract_as_number "ASff00_1_110").
Proof.
  split; [vm_compute; reflexivity|].
  apply (node_names_collide colliding_entries "ASff00_0_110" "as_110"
           "ASff00_1_110" "as_110"); vm_compute; reflexivity.
Defined.

(** X4.  On the mapping that [build_as_to_node_mapping] returns,
    [generate_kathara_configs] raises nothing and its sort changes nothing:
    it writes one startup script per entry of the mapping, in the order of
    the mapping, named after the node, in which the addresses of [eth0] and
    [eth1] end in the number of the node; and [lab.conf] is the header
    followed by one block per entry in the same order. *)
Theorem generate_follows_mapping entries :
  generate_kathara_configs (build_as_to_node_mapping entries)
  = Ok ((λ e : string * string,
           (e.2 +:+ ".startup",
            startup_script e.2 (pretty (node_number_of e.2))))
          <$> build_as_to_node_mapping entries,
        fold_left (λ labfile (e : string * string), labfile +:+ node_block e.2)
                  (build_as_to_node_mapping entries) labfile_header).
Proof.
  apply generate_on_mapping.
  - apply mapping_entries.
  - rewrite <- mapping_numbers by apply mapping_entries. apply mapping_sorted.
Qed.





(** X7.  Each of the three configuration rewriters completes exactly when
    every section it writes into is a table or is missing: [general] and
    [api] for [br.toml]; [general], [trust_db], [beacon_db], [path_db] and
    [api] for [cs.toml]; [general], [trust_db], [path_db], [sd] and [api]
    for [sd.toml].  When one of these sections holds something else, the
    rewriter raises [TypeError], and it raises no other exception. *)
Theorem rewriters_complete_iff config n :
  ((∃ config', update_br_toml config n = Ok config') ↔
   wf_config ["general"; "api"] config = true) ∧
  ((∃ config', update_cs_toml config n = Ok config') ↔
   wf_config ["general"; "trust_db"; "beacon_db"; "path_db"; "api"] config = true) ∧
  ((∃ config', update_sd_toml config n = Ok config') ↔
   wf_config ["general"; "trust_db"; "path_db"; "sd"; "api"] config = true) ∧
  (∀ e, update_br_toml config n = Raise e ∨ update_cs_toml config n = Raise e ∨
        update_sd_toml config n = Raise e → e = TypeError).
Proof.
  pose proof (rewriter_wf BrToml config n) as Hbr.
  pose proof (rewriter_wf CsToml config n) as Hcs.
  pose proof (rewriter_wf SdToml config n) as Hsd.
  unfold written, wf_config in *. simpl in *.
  split_and!.
  - destruct (update_br_toml config n) as [c|e].
    + split; [|by eauto]. intros _.
      by destruct (field_ok "general" is_table config).
    + destruct Hbr as [_ Hbr]. split; [by intros [? ?]|]. intros H.
      destruct (field_ok "general" is_table config); simpl in *; congruence.
  - destruct (update_cs_toml config n) as [c|e].
    + split; [done|by eauto].
    + destruct Hcs as [_ Hcs]. split; [by intros [? ?]|congruence].
  - destruct (update_sd_toml config n) as [c|e].
    + split; [done|by eauto].
    + destruct Hsd as [_ Hsd]. split; [by intros [? ?]|congruence].
  - intros e [H|[H|H]].
    + rewrite H in Hbr. by destruct Hbr.
    + rewrite H in Hcs. by destruct Hcs.
    + rewrite H in Hsd. by destruct Hsd.
Qed.

Lemma rewriters_complete_iff_witness :
  (∃ config', update_br_toml br_toml 110 = Ok config') ∧
  update_cs_toml [("general", JStr "x")] 110 = Raise TypeError.
Proof.
  destruct (rewriters_complete_iff br_toml 110) as (H & _).
  split; [|reflexivity]. apply H. vm_compute. reflexivity.
Defined.



(** X9.  The configuration rewriters are idempotent: applied to a file that
    the same rewriter has written for the same node, each of them completes
    and leaves the file as it is. *)
Theorem rewriter_idempotent kind config n config' :
  rewriter kind config n = Ok config' →
  rewriter kind config' n = Ok config'.
Proof.
  intros H. pose proof (rewriter_keys _ _ _ _ H) as Hk.
  rewrite rewriter_settings in H |- *.
  rewrite remove_sections_absent.
  - by apply (apply_settings_idem _ _ _ H), settings_NoDup.
  - intros s Hs. apply dict_has_false_keys. rewrite Hk.
    intros Hin. by apply list_elem_of_filter in Hin as [? _].
Qed.

Lemma rewriter_idempotent_witness :
  update_br_toml out_br_toml 110 = Ok out_br_toml ∧
  update_cs_toml out_cs_toml 110 = Ok out_cs_toml ∧
  update_sd_toml out_sd_toml 110 = Ok out_sd_toml.
Proof.
  split_and!.
  - apply (rewriter_idempotent BrToml br_toml). vm_compute. reflexivity.
  - apply (rewriter_idempotent CsToml cs_toml). vm_compute. reflexivity.
  - apply (rewriter_idempotent SdToml sd_toml). vm_compute. reflexivity.
Defined.

(** X10.  A completed [update_topology_json] on a descriptor that is a table
    returns a table with the same keys in the same order, the key
    [test_dispatcher] apart; no entry is added.  Every entry other than
    [test_dispatcher], [control_service], [discovery_service] and
    [border_routers] is left as it was, and a descriptor without
    [border_routers] leaves the allocator untouched. *)
Theorem topology_keys_kept d n pa t' pa' :
  update_topology_json (JObj d) n pa = Ok (t', pa') →
  ∃ d', t' = JObj d' ∧
    dict_keys d' = filter (λ k, k ≠ "test_dispatcher") (dict_keys d) ∧
    (∀ k, k ∉ ["test_dispatcher"; "control_service"; "discovery_service";
                "border_routers"] → dict_get k d' = dict_get k d) ∧
    (dict_has "border_routers" d = false → pa' = pa).
Proof.
  intros H. pose proof (update_topology_json_inv _ _ _ _ _ H) as (_ & Hget & _ & Hb).
  destruct (update_topology_json_keys _ _ _ _ _ H) as (d' & -> & Hk).
  exists d'. split; [done|]. split; [done|]. split; [exact Hget|].
  intros Hno. simpl in Hb. unfold dict_has in Hno.
  destruct (dict_get "border_routers" d); [done|]. by destruct Hb.
Qed.

Lemma topology_keys_kept_witness :
  ∃ d', out_110.1 = JObj d' ∧
    dict_keys d' = ["isd_as"; "control_service"; "border_routers"] ∧
    dict_get "isd_as" d' = Some (JStr "1-ff00:0:110").
Proof.
  assert (update_topology_json topo_110 110 (PortAllocator_init 50000)
          = Ok (out_110.1, out_110.2)) as H by (vm_compute; reflexivity).
  destruct (topology_keys_kept _ _ _ _ _ H) as (d' & Ht & Hk & Hg & _).
  exists d'. split; [done|]. split; [done|].
  rewrite Hg; [done|]. apply (bool_decide_unpack _). by vm_compute.
Defined.

(** X11.  Within one descriptor no two link interfaces share a port: when
    the allocator is in a state that a run can reach, two different
    interfaces that are links, to the same peer or to different peers, are
    written with two different ports of the allocator, so that their local
    addresses differ. *)
Theorem node_ports_distinct base t n pa t' pa' ifs i j idI dI rI idJ dJ rJ :
  pa_reachable base pa →
  update_topology_json t n pa = Ok (t', pa') →
  declared_interfaces t = Some ifs →
  ifs !! i = Some (idI, dI) → link_peer dI = Some rI →
  ifs !! j = Some (idJ, dJ) → link_peer dJ = Some rJ →
  i ≠ j →
  ∃ out (p q : Z),
    out_interfaces t' = Some out ∧
    out !! i = Some (idI, with_port n rI p dI) ∧
    out !! j = Some (idJ, with_port n rJ q dJ) ∧
    (base ≤ p < next_port pa')%Z ∧ (base ≤ q < next_port pa')%Z ∧
    p ≠ q ∧ addr_fmt n (pretty p) ≠ addr_fmt n (pretty q).
Proof.
  intros Hreach Hu Hifs Hi HrI Hj HrJ Hij.
  destruct (update_topology_json_lookup _ _ _ _ _ _ _ _ _ Hu Hifs Hi)
    as (out & Hout & HxI).
  destruct (update_topology_json_lookup _ _ _ _ _ _ _ _ _ Hu Hifs Hj)
    as (out' & Hout' & HxJ).
  rewrite Hout in Hout'. injection Hout' as <-.
  rewrite HrI in HxI. rewrite HrJ in HxJ.
  destruct HxI as (p & Hp & HxI), HxJ as (q & Hq & HxJ).
  assert (pa_reachable base pa') as Hreach'.
  { eapply pa_later_reachable; [|done]. by eapply update_topology_json_later. }
  pose proof (pa_reachable_inv _ _ Hreach') as Hinv.
  pose proof (pa_reachable_base _ _ Hreach') as Hbase.
  assert (p ≠ q) as Hpq.
  { intros ->. pose proof (inv_inj _ Hinv _ _ _ Hp Hq) as Hk.
    apply link_key_inj in Hk as [<- Hk].
    destruct (decide (i < j)%nat).
    - pose proof (count_links_take_lt n rI ifs i j idI dI ltac:(done) Hi HrI). lia.
    - pose proof (count_links_take_lt n rI ifs j i idJ dJ ltac:(lia) Hj HrJ). lia. }
  exists out, p, q. split_and!; try done.
  - pose proof (inv_range _ Hinv _ _ Hp). lia.
  - pose proof (inv_range _ Hinv _ _ Hp). lia.
  - pose proof (inv_range _ Hinv _ _ Hq). lia.
  - pose proof (inv_range _ Hinv _ _ Hq). lia.
  - intros H. by apply addr_fmt_inj in H.
Qed.

Lemma node_ports_distinct_witness :
  ∃ out (p q : Z),
    out_interfaces out_110.1 = Some out ∧
    out !! 0%nat
      = Some ("1", with_port 110 111 p
                     (iface "1-ff00:0:111" "127.0.0.4:50000" "127.0.0.5:50000")) ∧
    out !! 1%nat
      = Some ("2", with_port 110 111 q
                     (iface "1-ff00:0:111" "127.0.0.6:50000" "127.0.0.7:50000")) ∧
    p ≠ q.
Proof.
  destruct (node_ports_distinct 50000 topo_110 110 (PortAllocator_init 50000)
              out_110.1 out_110.2
              [("1", iface "1-ff00:0:111" "127.0.0.4:50000" "127.0.0.5:50000");
               ("2", iface "1-ff00:0:111" "127.0.0.6:50000" "127.0.0.7:50000")]
              0%nat 1%nat
              "1" (iface "1-ff00:0:111" "127.0.0.4:50000" "127.0.0.5:50000") 111
              "2" (iface "1-ff00:0:111" "127.0.0.6:50000" "127.0.0.7:50000") 111)
    as (out & p & q & H1 & H2 & H3 & _ & _ & H4 & _).
  - constructor.
  - vm_compute. reflexivity.
  - reflexivity.
  - reflexivity.
  - reflexivity.
  - reflexivity.
  - reflexivity.
  - lia.
  - by exists out, p, q.
Defined.

(** X12.  The allocation of ports is memoised across calls.  A call of
    [update_topology_json] moves the counter of the allocator forward by at
    most one port per link interface of the descriptor; and the same
    descriptor, handled again for the same node at any later point of the
    run, comes out as the same document and leaves the allocator as it
    finds it. *)
Theorem second_pass_allocates_nothing t n pa t' pa' :
  update_topology_json t n pa = Ok (t', pa') →
  (∀ ifs, declared_interfaces t = Some ifs →
     (next_port pa ≤ next_port pa'
      ≤ next_port pa
        + Z.of_nat (length (filter (λ e, is_Some (link_peer e.2)) ifs)))%Z) ∧
  (∀ pa2, pa_later pa' pa2 → update_topology_json t n pa2 = Ok (t', pa2)).
Proof.
  intros H. split.
  - intros ifs Hifs.
    destruct (update_topology_json_interfaces _ _ _ _ _ _ H Hifs)
      as (ifs' & c' & Hr & _).
    by eapply rewrite_interfaces_next_port.
  - intros pa2 L. by eapply update_topology_json_again.
Qed.

Lemma second_pass_allocates_nothing_witness :
  (next_port out_110.2 ≤ 50000 + 2)%Z ∧
  update_topology_json topo_110 110 out_110.2 = Ok (out_110.1, out_110.2).
Proof.
  destruct (second_pass_allocates_nothing topo_110 110 (PortAllocator_init 50000)
              out_110.1 out_110.2) as [H1 H2]; [vm_compute; reflexivity|].
  split.
  - specialize (H1 _ eq_refl).
    change (length (filter _ _)) with 2%nat in H1. exact (proj2 H1).
  - apply H2. reflexivity.
Defined.

(** X13.  An address from which no port can be taken aborts the rewrite of
    the descriptor.  [addr.split(':')[1]] raises [IndexError] on a string
    without a colon and [AttributeError] on a value that is not a string,
    and [update_topology_json] lets the exception through: for the address
    of an entry of [control_service] or [discovery_service], and for the
    internal address of a border router, whenever the parts of the
    descriptor that are handled before it are well formed. *)
Theorem bad_address_aborts d n pa a e :
  addr_exn a = Some e →
  (∀ svcs i name entry,
     dict_get "control_service" d = Some (JObj svcs) →
     forallb (λ x, wf_service x.2) (take i svcs) = true →
     svcs !! i = Some (name, JObj entry) →
     dict_get "addr" entry = Some a →
     update_topology_json (JObj d) n pa = Raise e) ∧
  (∀ svcs i name entry,
     field_ok "control_service" (table_of wf_service) d = true →
     dict_get "discovery_service" d = Some (JObj svcs) →
     forallb (λ x, wf_service x.2) (take i svcs) = true →
     svcs !! i = Some (name, JObj entry) →
     dict_get "addr" entry = Some a →
     update_topology_json (JObj d) n pa = Raise e) ∧
  (∀ brs i name br,
     field_ok "control_service" (table_of wf_service) d = true →
     field_ok "discovery_service" (table_of wf_service) d = true →
     dict_get "border_routers" d = Some (JObj brs) →
     forallb (λ x, wf_border_router x.2) (take i brs) = true →
     brs !! i = Some (name, JObj br) →
     dict_get "internal_addr" br = Some a →
     update_topology_json (JObj d) n pa = Raise e).
Proof.
  intros He. unfold update_topology_json.
  destruct (remove_marker_total d) as (d1 & -> & Hd1). simpl.
  split_and!.
  - intros svcs i name entry Hs Hpre Hi Ha.
    rewrite <- Hd1 in Hs by done.
    by rewrite (update_services_Raise _ n d1 svcs i name entry a e).
  - intros svcs i name entry Hcs Hs Hpre Hi Ha.
    unfold field_ok in Hcs. rewrite <- Hd1 in Hcs, Hs by done.
    destruct (update_services_total "control_service" n d1 Hcs)
      as (d2 & -> & Hd2). simpl.
    rewrite <- Hd2 in Hs by done.
    by rewrite (update_services_Raise _ n d2 svcs i name entry a e).
  - intros brs i name br Hcs Hds Hb Hpre Hi Ha.
    unfold field_ok in Hcs, Hds. rewrite <- Hd1 in Hcs, Hds, Hb by done.
    destruct (update_services_total "control_service" n d1 Hcs)
      as (d2 & -> & Hd2). simpl.
    rewrite <- Hd2 in Hds, Hb by done.
    destruct (update_services_total "discovery_service" n d2 Hds)
      as (d3 & -> & Hd3). simpl.
    rewrite <- Hd3 in Hb by done.
    unfold consolidate_border_routers. simpl. unfold dict_has. rewrite Hb.
    simpl. by rewrite (collect_border_routers_Raise n brs _ i name br a e).
Qed.

Lemma bad_address_aborts_witness :
  update_topology_json
    (JObj [("control_service", JObj [("cs1", JObj [("addr", JStr "localhost")])])])
    110 (PortAllocator_init 50000) = Raise IndexError ∧
  update_topology_json
    (JObj [("border_routers", JObj [("br1", JObj [("internal_addr", JNull)])])])
    110 (PortAllocator_init 50000) = Raise AttributeError.
Proof.
  split.
  - destruct (bad_address_aborts
                [("control_service", JObj [("cs1", JObj [("addr", JStr "localhost")])])]
                110 (PortAllocator_init 50000) (JStr "localhost") IndexError)
      as (H & _); [reflexivity|].
    by apply (H [("cs1", JObj [("addr", JStr "localhost")])] 0%nat "cs1"
                [("addr", JStr "localhost")]).
  - destruct (bad_address_aborts
                [("border_routers", JObj [("br1", JObj [("internal_addr", JNull)])])]
                110 (PortAllocator_init 50000) JNull AttributeError)
      as (_ & _ & H); [reflexivity|].
    by apply (H [("br1", JObj [("internal_addr", JNull)])] 0%nat "br1"
                [("internal_addr", JNull)]).
Defined.



(** X15.  [update_topology_json] changes nothing of an interface but the
    addresses [local] and [remote] of its underlay.  The interface that the
    consolidated table holds under an id has the keys of the interface
    declared last under that id, in the same order, with the same values for
    every key other than [underlay]; its underlay has the same keys, with
    the same values for every key other than [local] and [remote], so that
    neither address is added when it was missing; and an interface that is
    not a link is left exactly as it was. *)
Theorem interface_fields_kept t n pa t' pa' brs id data :
  update_topology_json t n pa = Ok (t', pa') →
  topo_get "border_routers" t = Some (JObj brs) →
  last_entry id (declared_entries brs) = Some data →
  ∃ out data',
    out_interfaces t' = Some out ∧ dict_get id out = Some data' ∧
    keys_of data' = keys_of data ∧
    (∀ k, k ≠ "underlay" → topo_get k data' = topo_get k data) ∧
    (∀ u, topo_get "underlay" data = Some u →
       ∃ u', topo_get "underlay" data' = Some u' ∧ keys_of u' = keys_of u ∧
         ∀ k, k ∉ ["local"; "remote"] → topo_get k u' = topo_get k u) ∧
    (link_peer data = None → data' = data).
Proof.
  intros Hu Hb Hlast.
  apply update_topology_json_inv in Hu as (_ & _ & _ & H).
  rewrite Hb in H.
  destruct H as (brs0 & cia & all & out & c' & [= <-] & Hc & Hr & Ht).
  apply collect_border_routers_inv in Hc as [-> _].
  pose proof (rewrite_interfaces_get _ _ _ _ _ id Hr) as Hg.
  rewrite add_interfaces_get, Hlast in Hg.
  destruct Hg as (data' & Hget & Hd).
  exists out, data'. split.
  { unfold out_interfaces. simpl. by rewrite Ht. }
  split; [done|].
  destruct Hd as [->|(r & p & Hr' & ->)].
  - split_and!; try done. intros u Hu. by exists u.
  - destruct (with_port_keeps n r p data) as (Hk & Ho & Hun).
    split_and!; try done.
    + intros u Hu. exists (new_underlay n r p u). split; [by apply Hun|].
      apply new_underlay_keeps.
    + by rewrite Hr'.
Qed.

Lemma interface_fields_kept_witness :
  ∃ out data',
    out_interfaces out_110.1 = Some out ∧ dict_get "2" out = Some data' ∧
    keys_of data' = ["isd_as"; "underlay"; "mtu"] ∧
    topo_get "mtu" data' = Some (JNum 1472) ∧
    topo_get "isd_as" data' = Some (JStr "1-ff00:0:111").
Proof.
  assert (update_topology_json topo_110 110 (PortAllocator_init 50000)
          = Ok (out_110.1, out_110.2)) as H by (vm_compute; reflexivity).
  destruct (interface_fields_kept _ _ _ _ _ _ "2"
              (iface "1-ff00:0:111" "127.0.0.6:50000" "127.0.0.7:50000")
              H eq_refl eq_refl)
    as (out & data' & Ho & Hg & Hk & Hf & _).
  exists out, data'. split_and!; try done.
  - by rewrite Hf.
  - by rewrite Hf.
Defined.

(** X16.  The descriptor that [update_topology_json] writes is a fixed point
    of the rewrite, with one exception.  When the descriptor has no
    [border_routers] table, or one of its border routers has an internal
    address, a second call on the written descriptor for the same node, at
    any later state of the allocator, completes and changes neither the
    descriptor nor the allocator.  When it has a [border_routers] table but
    no border router has an internal address, the written descriptor carries
    [internal_addr: null], and a second call on it raises
    [AttributeError]. *)
Theorem rewrite_fixed_point d n pa t' pa' :
  update_topology_json (JObj d) n pa = Ok (t', pa') →
  ((∀ brs, dict_get "border_routers" d = Some (JObj brs) →
           is_Some (last_internal_addr brs)) →
   ∀ pa2, pa_later pa' pa2 → update_topology_json t' n pa2 = Ok (t', pa2)) ∧
  (∀ brs, dict_get "border_routers" d = Some (JObj brs) →
          last_internal_addr brs = None →
   topo_path ["border_routers"; "br"; "internal_addr"] t' = Some JNull ∧
   ∀ pa2, update_topology_json t' n pa2 = Raise AttributeError).
Proof.
  intros H.
  destruct (update_topology_json_keys d n pa t' pa' H) as (d' & -> & _).
  pose proof (update_topology_json_services_fixed _ _ _ _ _ H) as Hsv.
  pose proof (update_topology_json_inv _ _ _ _ _ H) as (_ & _ & _ & Hb).
  simpl in Hb.
  assert (∀ pa2, update_topology_json (JObj d') n pa2
                 = consolidate_border_routers (JObj d') n pa2) as Hrun.
  { intros pa2. unfold update_topology_json.
    destruct (remove_marker (JObj d')) as [t1|]; simpl in Hsv |- *; [|done].
    destruct (update_services "control_service" n t1) as [t2|];
      simpl in Hsv |- *; [|done].
    by rewrite Hsv. }
  split.
  - intros Hia pa2 L. rewrite Hrun.
    destruct (dict_get "border_routers" d) as [v|] eqn:Ed.
    + destruct Hb as (brs & cia & all & ifs' & c' & -> & Hc & Hr & Hd').
      apply collect_border_routers_inv in Hc as [-> Hcia].
      destruct (Hia brs eq_refl) as [a Ha]. rewrite Ha in Hcia.
      rewrite (consolidate_consolidated _ _ _ _ _ Hd').
      2:{ rewrite (rewrite_interfaces_keys _ _ _ _ _ Hr).
          apply add_interfaces_NoDup. constructor. }
      rewrite (rewritten_addr_fixed _ _ _ Hcia). simpl.
      rewrite (rewrite_interfaces_fixed _ _ _ _ _ _ _ _ Hr L). simpl.
      by rewrite (dict_set_same _ _ _ Hd').
    + destruct Hb as [Hd' ->]. unfold consolidate_border_routers. simpl.
      unfold dict_has. by rewrite Hd'.
  - intros brs Hd Hnone. rewrite Hd in Hb.
    destruct Hb as (brs0 & cia & all & ifs' & c' & [= <-] & Hc & Hr & Hd').
    apply collect_border_routers_inv in Hc as [-> Hcia].
    rewrite Hnone in Hcia. subst cia. split.
    + simpl. by rewrite Hd'.
    + intros pa2. rewrite Hrun.
      rewrite (consolidate_consolidated _ _ _ _ _ Hd'); [done|].
      rewrite (rewrite_interfaces_keys _ _ _ _ _ Hr).
      apply add_interfaces_NoDup. constructor.
Qed.

Lemma rewrite_fixed_point_witness :
  update_topology_json out_110.1 110 out_110.2 = Ok (out_110.1, out_110.2) ∧
  update_topology_json
    (JObj [("border_routers", JObj [("br", JObj [("internal_addr", JNull);
                                                 ("interfaces", JObj [])])])])
    110 (PortAllocator_init 50000) = Raise AttributeError.
Proof.
  assert (update_topology_json topo_110 110 (PortAllocator_init 50000)
          = Ok (out_110.1, out_110.2)) as H by (vm_compute; reflexivity).
  assert (update_topology_json (JObj [("border_routers", JObj [])]) 110
            (PortAllocator_init 50000)
          = Ok (JObj [("border_routers",
                        JObj [("br", JObj [("internal_addr", JNull);
                                           ("interfaces", JObj [])])])],
                PortAllocator_init 50000)) as H0 by (vm_compute; reflexivity).
  split.
  - destruct (rewrite_fixed_point _ _ _ _ _ H) as [Hfix _]. apply Hfix.
    + intros brs [= <-]. by eexists.
    + reflexivity.
  - destruct (rewrite_fixed_point _ _ _ _ _ H0) as [_ Hnull].
    by apply (Hnull [] eq_refl eq_refl).
Defined.



(** X18.  The allocator hands out a block of ports without gaps: in every
    state that a run reaches from [PortAllocator(base)], the ports that are
    assigned to some link key are exactly the ports from [base] up to, and
    not including, [next_port]. *)
Theorem allocator_ports_contiguous base pa :
  pa_reachable base pa →
  ∀ p, (base ≤ p < next_port pa)%Z ↔ ∃ k, port_assignments pa !! k = Some p.
Proof.
  intros Hreach p. split.
  - revert p. induction Hreach as [|pa a b i Hreach IH]; intros p Hp.
    + simpl in Hp. lia.
    + destruct (port_assignments pa !! link_key a b i) as [q|] eqn:E.
      * rewrite (get_port_known _ _ _ _ _ E) in Hp |- *. by apply IH.
      * destruct (get_port_fresh _ _ _ _ E) as [H1 H2].
        destruct (decide (p = next_port pa)) as [->|Hne].
        -- exists (link_key a b i). rewrite <- H1. apply get_port_lookup.
        -- destruct (IH p) as [k Hk]; [lia|].
           exists k. by apply get_port_keeps.
  - intros [k Hk].
    pose proof (inv_range _ (pa_reachable_inv _ _ Hreach) _ _ Hk).
    rewrite (pa_reachable_base _ _ Hreach) in *. lia.
Qed.

Lemma allocator_ports_contiguous_witness :
  (∃ k, port_assignments out_110.2 !! k = Some 50001) ∧
  ¬ (∃ k, port_assignments out_110.2 !! k = Some 50002).
Proof.
  assert (pa_reachable 50000 out_110.2) as Hreach.
  { change out_110.2 with
      (get_port (get_port (PortAllocator_init 50000) 110 111 0).2 110 111 1).2.
    repeat constructor. }
  split.
  - apply (allocator_ports_contiguous 50000 out_110.2 Hreach).
    change (50000 ≤ 50001 < 50002)%Z. lia.
  - intros H. apply (allocator_ports_contiguous 50000 out_110.2 Hreach) in H.
    change (50000 ≤ 50002 < 50002)%Z in H. lia.
Defined.
